(** * Paginated listing of the Service Bus management client

    A shallow embedding of [ServiceBusManagementClient] (the ATOM/XML
    management client): the JavaScript values it handles, its exceptions,
    the asynchronous calls to the transport, the page and element
    generators behind [getQueues], [getTopics], [getSubscriptions] and
    [getRules], and the properties of the listing protocol. *)

From Stdlib Require Import String Ascii List ZArith NArith Bool Lia.
Import ListNotations.

Set Warnings "-register-all".
Set Implicit Arguments.

Local Open Scope string_scope.
Local Open Scope Z_scope.

(** ** JavaScript numbers

    A number is kept as the decimal value that was written, together
    with the two facts the client asks of it: whether it compares
    [>= 0] and whether it is truthy.  Both are decided as IEEE-754
    binary64 decides them: a literal not above 2^-1075 in magnitude
    rounds to a zero, and a negative zero is [>= 0]. *)

Module JS.

Inductive JSNumber : Type :=
| NaN
| Infinity (negative : bool)
| Decimal (negative : bool) (mantissa : N) (exponent : Z).

Definition zero : JSNumber := Decimal false 0 0.
Definition one : JSNumber := Decimal false 1 0.
Definition ofN (n : N) : JSNumber := Decimal false n 0.

(** [m * 10^e] rounds to a zero of binary64. *)
Definition roundsToZero (m : N) (e : Z) : bool :=
  (m =? 0)%N || ((e <? 0) && (Z.of_N m * 2 ^ 1075 <=? 10 ^ (- e))).

(** [n >= 0] *)
Definition geZero (n : JSNumber) : bool :=
  match n with
  | NaN => false
  | Infinity neg => negb neg
  | Decimal neg m e => negb neg || roundsToZero m e
  end.

(** ToBoolean on a number: false for NaN, +0 and -0. *)
Definition numTruthy (n : JSNumber) : bool :=
  match n with
  | NaN => false
  | Infinity _ => true
  | Decimal _ m e => negb (roundsToZero m e)
  end.

(** *** StringToNumber

    Strings are sequences of code units below 256.  The grammar is
    StringNumericLiteral of ECMA-262: optional white space around an
    optionally signed decimal literal or [Infinity], or an unsigned
    hexadecimal, octal or binary integer; the empty string is +0 and
    anything else is NaN. *)

Definition isWhiteSpace (c : ascii) : bool :=
  let n := nat_of_ascii c in
  ((9 <=? n) && (n <=? 13) || (n =? 32) || (n =? 160))%nat.

Fixpoint trimStart (s : string) : string :=
  match s with
  | String c r => if isWhiteSpace c then trimStart r else s
  | EmptyString => s
  end.

(** Drops trailing white space: a run of white space is kept only when
    something follows it. *)
Fixpoint trimEnd (s : string) : string :=
  match s with
  | EmptyString => EmptyString
  | String c r =>
      match trimEnd r with
      | EmptyString => if isWhiteSpace c then EmptyString else String c EmptyString
      | r' => String c r'
      end
  end.

Definition trim (s : string) : string := trimEnd (trimStart s).

Definition digitIn (radix : N) (c : ascii) : option N :=
  let n := N_of_ascii c in
  let d :=
    (if (48 <=? n) && (n <=? 57) then Some (n - 48)
     else if (97 <=? n) && (n <=? 102) then Some (n - 87)
     else if (65 <=? n) && (n <=? 70) then Some (n - 55)
     else None)%N in
  match d with
  | Some v => if (v <? radix)%N then Some v else None
  | None => None
  end.

(** Reads the longest run of digits of the radix: the value accumulated
    on [acc], the number of digits read, and what follows. *)
Fixpoint digits (radix : N) (s : string) (acc : N) (count : nat) : N * nat * string :=
  match s with
  | String c r =>
      match digitIn radix c with
      | Some d => digits radix r (acc * radix + d)%N (S count)
      | None => (acc, count, s)
      end
  | EmptyString => (acc, count, s)
  end.

Definition radixInteger (radix : N) (s : string) : JSNumber :=
  match digits radix s 0%N 0%nat with
  | (v, S _, EmptyString) => Decimal false v 0
  | _ => NaN
  end.

(** ExponentPart, after the [e]: optional sign and at least one digit,
    up to the end of the string. *)
Definition exponentPart (s : string) : option Z :=
  let '(neg, r) :=
    match s with
    | String "-" r => (true, r)
    | String "+" r => (false, r)
    | _ => (false, s)
    end in
  match digits 10 r 0%N 0%nat with
  | (v, S _, EmptyString) => Some (if neg then - Z.of_N v else Z.of_N v)
  | _ => None
  end.

Definition unsignedDecimal (neg : bool) (s : string) : JSNumber :=
  if String.eqb s "Infinity" then Infinity neg else
  let '(ip, n1, r1) := digits 10 s 0%N 0%nat in
  let '(m, n2, r2) :=
    match r1 with
    | String "." r => digits 10 r ip 0%nat
    | _ => (ip, 0%nat, r1)
    end in
  match (n1 + n2)%nat with
  | O => NaN
  | S _ =>
      match r2 with
      | EmptyString => Decimal neg m (- Z.of_nat n2)
      | String c r =>
          if (Ascii.eqb c "e" || Ascii.eqb c "E")%bool then
            match exponentPart r with
            | Some e => Decimal neg m (e - Z.of_nat n2)
            | None => NaN
            end
          else NaN
      end
  end.

Definition StringToNumber (s : string) : JSNumber :=
  match trim s with
  | EmptyString => zero
  | String "0" (String "x" r) | String "0" (String "X" r) => radixInteger 16 r
  | String "0" (String "o" r) | String "0" (String "O" r) => radixInteger 8 r
  | String "0" (String "b" r) | String "0" (String "B" r) => radixInteger 2 r
  | String "-" r => unsignedDecimal true r
  | String "+" r => unsignedDecimal false r
  | t => unsignedDecimal false t
  end.

(** ** JavaScript values

    Objects are ordinary objects, kept as their own properties in
    insertion order; an array carries its elements and the extra
    properties set on it (the parsed body of a listing is an array with
    a [nextLink] property). *)

Inductive JSValue : Type :=
| JSUndefined
| JSNull
| JSBool (b : bool)
| JSNum (n : JSNumber)
| JSStr (s : string)
| JSObject (props : list (string * JSValue))
| JSArray (elems : list JSValue) (props : list (string * JSValue)).

(** ToBoolean *)
Definition truthy (v : JSValue) : bool :=
  match v with
  | JSUndefined | JSNull => false
  | JSBool b => b
  | JSNum n => numTruthy n
  | JSStr s => negb (String.eqb s EmptyString)
  | JSObject _ | JSArray _ _ => true
  end.

Definition typeof (v : JSValue) : string :=
  match v with
  | JSUndefined => "undefined"
  | JSNull | JSObject _ | JSArray _ _ => "object"
  | JSBool _ => "boolean"
  | JSNum _ => "number"
  | JSStr _ => "string"
  end.

Definition isArray (v : JSValue) : bool :=
  match v with JSArray _ _ => true | _ => false end.

(** [v == undefined]: true of [undefined] and [null] only. *)
Definition looseUndefined (v : JSValue) : bool :=
  match v with JSUndefined | JSNull => true | _ => false end.

(** [Number(v)].  An array converts through its string form: the empty
    array is 0, an array of one element converts as that element's
    string does, and a longer one holds a comma and is NaN. *)
Fixpoint Number (v : JSValue) : JSNumber :=
  match v with
  | JSUndefined => NaN
  | JSNull => zero
  | JSBool b => if b then one else zero
  | JSNum n => n
  | JSStr s => StringToNumber s
  | JSObject _ => NaN
  | JSArray [] _ => zero
  | JSArray [x] _ =>
      match x with
      | JSUndefined | JSNull => zero
      | JSBool _ | JSObject _ => NaN
      | _ => Number x
      end
  | JSArray _ _ => NaN
  end.

Fixpoint lookup (k : string) (props : list (string * JSValue)) : JSValue :=
  match props with
  | [] => JSUndefined
  | (k', v) :: rest => if String.eqb k k' then v else lookup k rest
  end.

(** Writes a property: in place when the key exists, else appended. *)
Fixpoint assign (k : string) (v : JSValue) (props : list (string * JSValue))
  : list (string * JSValue) :=
  match props with
  | [] => [(k, v)]
  | (k', v') :: rest =>
      if String.eqb k k' then (k, v) :: rest else (k', v') :: assign k v rest
  end.

End JS.

Export JS.

(** A double quote, and a text between double quotes. *)
Definition doubleQuote : string := String (ascii_of_nat 34) EmptyString.

Definition quoted (s : string) : string := doubleQuote ++ s ++ doubleQuote.

(** ** Requests, responses and exceptions *)

(** A [URLBuilder] after [URLBuilder.parse(baseUri)]: the text it was
    parsed from and the query parameters set on it since. *)
Record URLBuilder : Type := {
  baseUri : string;
  query : list (string * string)
}.

(** [setQueryParameter] for the names the client sets (the API version,
    [$skip] and [$top]): none of them is empty or written as an integer,
    so that the parameters stay in the order in which they were first
    set. *)
Fixpoint setQueryParameter (k v : string) (q : list (string * string))
  : list (string * string) :=
  match q with
  | [] => [(k, v)]
  | (k', v') :: rest =>
      if String.eqb k k' then (k, v) :: rest
      else (k', v') :: setQueryParameter k v rest
  end.

Record WebResource : Type := {
  url : URLBuilder;
  method : string;
  body : JSValue;
  headers : list (string * string)
}.

Record HttpOperationResponse : Type := {
  status : Z;
  parsedBody : JSValue;
  request : WebResource
}.

(** An exception object: [name] is its constructor ("RestError",
    "TypeError", "Error"); [code], [statusCode], [errRequest] and
    [errResponse] are the properties of a [RestError]. *)
Record JSError : Type := {
  name : string;
  message : string;
  code : option string;
  statusCode : option Z;
  errRequest : option WebResource;
  errResponse : option HttpOperationResponse
}.

Definition TypeError (msg : string) : JSError :=
  {| name := "TypeError"; message := msg; code := None; statusCode := None;
     errRequest := None; errResponse := None |}.

Definition Error (msg : string) : JSError :=
  {| name := "Error"; message := msg; code := None; statusCode := None;
     errRequest := None; errResponse := None |}.

Definition RestError (msg c : string) (st : Z) (rq : WebResource)
  (rs : HttpOperationResponse) : JSError :=
  {| name := "RestError"; message := msg; code := Some c; statusCode := Some st;
     errRequest := Some rq; errResponse := Some rs |}.

(** [RestError.PARSE_ERROR] *)
Definition PARSE_ERROR : string := "PARSE_ERROR".

(** [error.code == c] *)
Definition codeIs (c : string) (e : JSError) : bool :=
  match code e with
  | Some c' => String.eqb c' c
  | None => false
  end.

(** ** Synchronous code: a value or a thrown exception *)

Inductive Completion (A : Type) : Type :=
| Normal (a : A)
| Throw (e : JSError).

Arguments Normal {A} a.
Arguments Throw {A} e.

Definition bindC {A B} (c : Completion A) (k : A -> Completion B) : Completion B :=
  match c with
  | Normal a => k a
  | Throw e => Throw e
  end.

Definition tryCatch {A} (c : Completion A) (handler : JSError -> Completion A)
  : Completion A :=
  match c with
  | Normal a => Normal a
  | Throw e => handler e
  end.

Notation "'let!' x ':=' c 'in' k" := (bindC c (fun x => k))
  (at level 10, x pattern, c at level 100, k at level 200).

(** ** Asynchronous code

    The world is the list of requests handed to the transport so far,
    oldest first.  An asynchronous function takes the world and gives
    its completion (a rejected promise is [Throw]) and the world it
    leaves. *)

Definition World : Type := list WebResource.

Definition Async (A : Type) : Type := World -> Completion A * World.

Definition ret {A} (a : A) : Async A := fun w => (Normal a, w).

Definition throw {A} (e : JSError) : Async A := fun w => (Throw e, w).

Definition lift {A} (c : Completion A) : Async A := fun w => (c, w).

Definition bind {A B} (c : Async A) (k : A -> Async B) : Async B :=
  fun w =>
    match c w with
    | (Normal a, w') => k a w'
    | (Throw e, w') => (Throw e, w')
    end.

Definition asyncTryCatch {A} (c : Async A) (handler : JSError -> Async A) : Async A :=
  fun w =>
    match c w with
    | (Normal a, w') => (Normal a, w')
    | (Throw e, w') => handler e w'
    end.

Notation "'await!' x ':=' c 'in' k" := (bind c (fun x => k))
  (at level 10, x pattern, c at level 100, k at level 200).

(** ** The client and what it is given *)

Inductive AtomXmlSerializer : Type :=
| NamespaceResourceSerializer
| QueueResourceSerializer
| TopicResourceSerializer
| SubscriptionResourceSerializer
| RuleResourceSerializer.

(** [OperationOptions & Pick<PageSettings, "maxPageSize">].  The
    operation options (abort signal, tracing, request options) are
    carried as they are; their type has no [skip], [maxCount] or
    [maxPageSize] to override the ones set next to a spread. *)
Record PageOptions : Type := {
  maxPageSize : option JSNumber;
  operationOptions : JSValue
}.

(** [ListRequestOptions & OperationOptions] as [list<Entity>Page]
    builds it: [{ skip, maxCount, ...options }]. *)
Record ListRequestOptions : Type := {
  skip : JSNumber;
  maxCount : option JSNumber;
  rest : PageOptions
}.

(** The options argument of [executeAtomXmlOperation]. *)
Inductive RequestOptions : Type :=
| ForList (o : ListRequestOptions)
| ForOperation (o : JSValue).

Record ServiceBusManagementClient : Type := {
  endpoint : string;
  endpointWithProtocol : string;
  (** [credentials instanceof SasServiceClientCredentials] *)
  sasCredentials : bool
}.

(** What the client imports: constants, the serializers' builders, the
    helpers of [./util] and of [@azure/core-http], and the service
    behind [executeAtomXmlOperation].  None of it is in the client's
    file; its properties hold for whatever is supplied here. *)
Class Host : Type := {
  API_VERSION_QUERY_KEY : string;
  CURRENT_API_VERSION : string;
  XML_METADATA_MARKER : string;
  (** [Number.prototype.toString] *)
  numberToString : JSNumber -> string;
  (** [parseURL(url).searchParams], as its name/value pairs in order *)
  parseURL : JSValue -> Completion (list (string * string));
  stripRequest : WebResource -> WebResource;
  stripResponse : HttpOperationResponse -> HttpOperationResponse;
  isJSONLikeObject : JSValue -> bool;
  isAbsoluteUrl : JSValue -> bool;
  buildNamespace : JSValue -> Completion JSValue;
  buildQueue : JSValue -> Completion JSValue;
  buildQueueRuntimeProperties : JSValue -> Completion JSValue;
  buildTopic : JSValue -> Completion JSValue;
  buildTopicRuntimeProperties : JSValue -> Completion JSValue;
  buildSubscription : JSValue -> Completion JSValue;
  buildSubscriptionRuntimeProperties : JSValue -> Completion JSValue;
  buildRule : JSValue -> Completion JSValue;
  buildQueueOptions : JSValue -> Completion JSValue;
  buildTopicOptions : JSValue -> Completion JSValue;
  buildSubscriptionOptions : JSValue -> Completion JSValue;
  (** [credentials.getToken(...).token] *)
  getToken : ServiceBusManagementClient -> Completion string;
  (** The answer of the service to a request, which may depend on the
      requests it has served before. *)
  service : World -> WebResource -> AtomXmlSerializer -> RequestOptions
            -> Completion HttpOperationResponse
}.

(** A service is deterministic when its answer depends on the request
    alone. *)
Definition deterministic (H : Host) : Prop :=
  forall w1 w2 rq sz o, service w1 rq sz o = service w2 rq sz o.

Section Client.

Context {H : Host}.

(** ToString, as a template literal applies it. *)
Fixpoint ToString (v : JSValue) : string :=
  match v with
  | JSUndefined => "undefined"
  | JSNull => "null"
  | JSBool b => if b then "true" else "false"
  | JSNum n => numberToString n
  | JSStr s => s
  | JSObject _ => "[object Object]"
  | JSArray elems _ =>
      (fix join (l : list JSValue) : string :=
         match l with
         | [] => EmptyString
         | x :: r =>
             let sx := match x with
                       | JSUndefined | JSNull => EmptyString
                       | _ => ToString x
                       end in
             match r with
             | [] => sx
             | _ => sx ++ "," ++ join r
             end
         end) elems
  end.

(** [v.k] for the property names the client reads, none of which a
    primitive or [Array.prototype] defines: reading a property of
    [undefined] or [null] throws a TypeError. *)
Definition getProp (v : JSValue) (k : string) : Completion JSValue :=
  match v with
  | JSUndefined | JSNull =>
      Throw (TypeError ("Cannot read property '" ++ k ++ "' of " ++ ToString v))
  | JSObject props | JSArray _ props => Normal (lookup k props)
  | _ => Normal JSUndefined
  end.

(** [v.k = x] on an object the client built. *)
Definition setProp (v : JSValue) (k : string) (x : JSValue) : JSValue :=
  match v with
  | JSObject props => JSObject (assign k x props)
  | JSArray elems props => JSArray elems (assign k x props)
  | _ => v
  end.

(** ** Requests *)

Definition executeAtomXmlOperation (webResource : WebResource)
  (serializer : AtomXmlSerializer) (options : RequestOptions)
  : Async HttpOperationResponse :=
  fun w => (service w webResource serializer options, (w ++ [webResource])%list).

Definition getUrl (this : ServiceBusManagementClient) (path : string)
  (queryParams : list (string * string)) : URLBuilder :=
  let baseUri := "https://" ++ endpoint this ++ "/" ++ path in
  let requestUrl :=
    setQueryParameter API_VERSION_QUERY_KEY CURRENT_API_VERSION [] in
  {| baseUri := baseUri;
     query := fold_left (fun q kv => setQueryParameter (fst kv) (snd kv) q)
                queryParams requestUrl |}.

Definition newWebResource (u : URLBuilder) (m : string) : WebResource :=
  {| url := u; method := m; body := JSUndefined; headers := [] |}.

Definition getResource (this : ServiceBusManagementClient) (name : string)
  (serializer : AtomXmlSerializer) (operationOptions : JSValue)
  : Async HttpOperationResponse :=
  let webResource := newWebResource (getUrl this name []) "GET" in
  await! response :=
    executeAtomXmlOperation webResource serializer (ForOperation operationOptions) in
  if looseUndefined (parsedBody response)
     || match parsedBody response with
        | JSArray elems _ => (length elems =? 0)%nat
        | _ => false
        end
  then
    throw (RestError
             ("The messaging entity " ++ quoted name ++ " being requested cannot be found.")
             "MessageEntityNotFoundError" 404
             (stripRequest webResource) (stripResponse response))
  else ret response.

Definition listResources (this : ServiceBusManagementClient) (name : string)
  (listRequestOptions : ListRequestOptions) (serializer : AtomXmlSerializer)
  : Async HttpOperationResponse :=
  let queryParams := [] in
  let queryParams :=
    if numTruthy (skip listRequestOptions)
    then setQueryParameter "$skip" (numberToString (skip listRequestOptions)) queryParams
    else queryParams in
  let queryParams :=
    match maxCount listRequestOptions with
    | Some n =>
        if numTruthy n
        then setQueryParameter "$top" (numberToString n) queryParams
        else queryParams
    | None => queryParams
    end in
  let webResource := newWebResource (getUrl this name queryParams) "GET" in
  executeAtomXmlOperation webResource serializer (ForList listRequestOptions).

Definition deleteResource (this : ServiceBusManagementClient) (name : string)
  (serializer : AtomXmlSerializer) (operationOptions : JSValue)
  : Async HttpOperationResponse :=
  let webResource := newWebResource (getUrl this name []) "DELETE" in
  executeAtomXmlOperation webResource serializer (ForOperation operationOptions).

Definition setHeader (k v : string) (r : WebResource) : WebResource :=
  {| url := url r; method := method r; body := body r;
     headers := setQueryParameter k v (headers r) |}.

Definition setBody (b : JSValue) (r : WebResource) : WebResource :=
  {| url := url r; method := method r; body := b; headers := headers r |}.

(** Makes a forwarding target absolute: [entityFields[k]] is prefixed
    with the endpoint unless it is an absolute URL already. *)
Definition forwardTarget (this : ServiceBusManagementClient) (k : string)
  (header token : string) (state : JSValue * WebResource) : JSValue * WebResource :=
  let '(entityFields, webResource) := state in
  let target := lookup k match entityFields with
                         | JSObject props | JSArray _ props => props
                         | _ => []
                         end in
  if truthy target then
    let webResource := setHeader header token webResource in
    if isAbsoluteUrl target then (entityFields, webResource)
    else (setProp entityFields k
            (JSStr (endpointWithProtocol this ++ ToString target)), webResource)
  else state.

Definition putResource (this : ServiceBusManagementClient) (name : string)
  (entityFields : JSValue) (serializer : AtomXmlSerializer) (isUpdate : bool)
  (operationOptions : JSValue) : Async HttpOperationResponse :=
  let webResource := newWebResource (getUrl this name []) "PUT" in
  let webResource := if isUpdate then setHeader "If-Match" "*" webResource
                     else webResource in
  await! forwardTo := lift (getProp entityFields "ForwardTo") in
  await! forwardDeadLetteredMessagesTo :=
    lift (getProp entityFields "ForwardDeadLetteredMessagesTo") in
  await! (entityFields, webResource) :=
    (if truthy forwardTo || truthy forwardDeadLetteredMessagesTo then
       await! token := lift (getToken this) in
       ret (forwardTarget this "ForwardDeadLetteredMessagesTo"
              "ServiceBusDlqSupplementaryAuthorization" token
              (forwardTarget this "ForwardTo"
                 "ServiceBusSupplementaryAuthorization" token
                 (entityFields, webResource)))
     else ret (entityFields, webResource)) in
  let webResource := setBody entityFields webResource in
  let webResource :=
    setHeader "content-type" "application/atom+xml;type=entry;charset=utf-8"
      webResource in
  executeAtomXmlOperation webResource serializer (ForOperation operationOptions).

Definition getSubscriptionPath (topicName subscriptionName : string) : string :=
  topicName ++ "/Subscriptions/" ++ subscriptionName.

Definition getRulePath (topicName subscriptionName ruleName : string) : string :=
  topicName ++ "/Subscriptions/" ++ subscriptionName ++ "/Rules/" ++ ruleName.

End Client.

(** ** Decoding responses *)

(** [EntitiesResponse<T>]: the array of decoded entities with its
    [_response] and [continuationToken] properties. *)
Record EntitiesResponse : Type := {
  entities : list JSValue;
  _response : HttpOperationResponse;
  continuationToken : JSValue
}.

(** The result of a get, create or update: [Object.assign(entity || {},
    { _response })]. *)
Record EntityResponse : Type := {
  entity : JSValue;
  entityResponse : HttpOperationResponse
}.

(** [searchParams.get(k)]: the first value of the name, else [null]. *)
Fixpoint searchParamsGet (k : string) (l : list (string * string)) : JSValue :=
  match l with
  | [] => JSNull
  | (k', v) :: r => if String.eqb k k' then JSStr v else searchParamsGet k r
  end.

Definition errorToString (e : JSError) : string := name e ++ ": " ++ message e.

Section Decoding.

Context {H : Host}.

Definition getMarkerFromNextLinkUrl (url : JSValue) : Completion JSValue :=
  if negb (truthy url) then Normal JSUndefined
  else
    tryCatch
      (let! searchParams := parseURL url in
       Normal (searchParamsGet (XML_METADATA_MARKER ++ "skip") searchParams))
      (fun error =>
         Throw (Error ("Unable to parse the '" ++ XML_METADATA_MARKER
                       ++ "skip' from the next-link in the response "
                       ++ errorToString error))).

(** The loop of a list builder: each raw record is decoded and pushed
    when the result is truthy. *)
Fixpoint decodeEach (decode : JSValue -> Completion JSValue)
  (raw : list JSValue) (decoded : list JSValue) : Completion (list JSValue) :=
  match raw with
  | [] => Normal decoded
  | r :: raw' =>
      let! entity := decode r in
      decodeEach decode raw' (if truthy entity then decoded ++ [entity] else decoded)%list
  end.

(** The body shared by the eight [buildList...Response] methods, which
    differ in the decoder and in the noun of the message. *)
Definition buildListResponse (decode : JSValue -> Completion JSValue)
  (noun : string) (response : HttpOperationResponse) : Completion EntitiesResponse :=
  tryCatch
    (let! nextLink := getProp (parsedBody response) "nextLink" in
     let! nextMarker := getMarkerFromNextLinkUrl nextLink in
     match parsedBody response with
     | JSArray rawArray _ =>
         let! decoded := decodeEach decode rawArray [] in
         Normal {| entities := decoded; _response := response;
                   continuationToken := nextMarker |}
     | other =>
         Throw (TypeError (ToString other ++ " was expected to be of type Array"))
     end)
    (fun err =>
       Throw (RestError
                ("Error occurred while parsing the response body - cannot form a list of "
                 ++ noun ++ " using the response from the service.")
                PARSE_ERROR (status response)
                (stripRequest (request response)) (stripResponse response))).

Definition buildListQueuesResponse := buildListResponse buildQueue "queues".
Definition buildListQueuesRuntimePropertiesResponse :=
  buildListResponse buildQueueRuntimeProperties "queues".
Definition buildListTopicsResponse := buildListResponse buildTopic "topics".
Definition buildListTopicsRuntimePropertiesResponse :=
  buildListResponse buildTopicRuntimeProperties "topics".
Definition buildListSubscriptionsResponse :=
  buildListResponse buildSubscription "subscriptions".
Definition buildListSubscriptionsRuntimePropertiesResponse :=
  buildListResponse buildSubscriptionRuntimeProperties "subscriptions".
Definition buildListRulesResponse := buildListResponse buildRule "rules".

(** The body shared by the single-entity builders. *)
Definition buildEntityResponse (decode : JSValue -> Completion JSValue)
  (noun : string) (response : HttpOperationResponse) : Completion EntityResponse :=
  tryCatch
    (let! decoded := decode (parsedBody response) in
     Normal {| entity := if truthy decoded then decoded else JSObject [];
               entityResponse := response |})
    (fun err =>
       Throw (RestError
                ("Error occurred while parsing the response body - cannot form a "
                 ++ noun ++ " object using the response from the service.")
                PARSE_ERROR (status response)
                (stripRequest (request response)) (stripResponse response))).

Definition buildNamespacePropertiesResponse := buildEntityResponse buildNamespace "namespace".
Definition buildQueueResponse := buildEntityResponse buildQueue "queue".
Definition buildQueueRuntimePropertiesResponse :=
  buildEntityResponse buildQueueRuntimeProperties "queue".
Definition buildTopicResponse := buildEntityResponse buildTopic "topic".
Definition buildTopicRuntimePropertiesResponse :=
  buildEntityResponse buildTopicRuntimeProperties "topic".
Definition buildSubscriptionResponse := buildEntityResponse buildSubscription "subscription".
Definition buildSubscriptionRuntimePropertiesResponse :=
  buildEntityResponse buildSubscriptionRuntimeProperties "subscription".
Definition buildRuleResponse := buildEntityResponse buildRule "rule".

Definition throwIfInvalidContinuationToken (token : JSValue) : Completion unit :=
  if negb (match token with JSUndefined => true | _ => false end
           || (String.eqb (typeof token) "string" && geZero (Number token)))
  then Throw (Error ("Invalid continuationToken " ++ ToString token ++ " provided"))
  else Normal tt.

End Decoding.

(** ** Listing one page *)

(** The seven listings of the client; subscriptions are listed under a
    topic and rules under a subscription of a topic. *)
Inductive Listing : Type :=
| Queues
| QueuesRuntimeProperties
| Topics
| TopicsRuntimeProperties
| Subscriptions (topicName : string)
| SubscriptionsRuntimeProperties (topicName : string)
| Rules (topicName subscriptionName : string).

Section Listings.

Context {H : Host}.
Variable this : ServiceBusManagementClient.

Definition listQueues (options : ListRequestOptions) : Async EntitiesResponse :=
  await! response :=
    listResources this "$Resources/Queues" options QueueResourceSerializer in
  lift (buildListQueuesResponse response).

Definition listQueuesRuntimeProperties (options : ListRequestOptions)
  : Async EntitiesResponse :=
  await! response :=
    listResources this "$Resources/Queues" options QueueResourceSerializer in
  lift (buildListQueuesRuntimePropertiesResponse response).

Definition listTopics (options : ListRequestOptions) : Async EntitiesResponse :=
  await! response :=
    listResources this "$Resources/Topics" options TopicResourceSerializer in
  lift (buildListTopicsResponse response).

Definition listTopicsRuntimeProperties (options : ListRequestOptions)
  : Async EntitiesResponse :=
  await! response :=
    listResources this "$Resources/Topics" options TopicResourceSerializer in
  lift (buildListTopicsRuntimePropertiesResponse response).

Definition listSubscriptions (topicName : string) (options : ListRequestOptions)
  : Async EntitiesResponse :=
  await! response :=
    listResources this (topicName ++ "/Subscriptions/") options
      SubscriptionResourceSerializer in
  lift (buildListSubscriptionsResponse response).

Definition listSubscriptionsRuntimeProperties (topicName : string)
  (options : ListRequestOptions) : Async EntitiesResponse :=
  await! response :=
    listResources this (topicName ++ "/Subscriptions/") options
      SubscriptionResourceSerializer in
  lift (buildListSubscriptionsRuntimePropertiesResponse response).

Definition listRules (topicName subscriptionName : string)
  (options : ListRequestOptions) : Async EntitiesResponse :=
  let fullPath := getSubscriptionPath topicName subscriptionName ++ "/Rules/" in
  await! response := listResources this fullPath options RuleResourceSerializer in
  lift (buildListRulesResponse response).

Definition listEntities (l : Listing) : ListRequestOptions -> Async EntitiesResponse :=
  match l with
  | Queues => listQueues
  | QueuesRuntimeProperties => listQueuesRuntimeProperties
  | Topics => listTopics
  | TopicsRuntimeProperties => listTopicsRuntimeProperties
  | Subscriptions t => listSubscriptions t
  | SubscriptionsRuntimeProperties t => listSubscriptionsRuntimeProperties t
  | Rules t s => listRules t s
  end.

End Listings.

(** ** The generators

    [list<Entity>Page] is an async generator around a do-while loop.  A
    generator object is the listing it was made for and the point
    where its body is suspended: before its first statement, at the
    [yield] with the marker just assigned, or after it returned.
    Calling the generator function runs nothing of the body. *)

Inductive PageGenerator : Type :=
| PageStart (l : Listing) (marker : JSValue) (options : PageOptions)
| PageYielded (l : Listing) (marker : JSValue) (options : PageOptions)
| PageReturned.

(** [{ value, done: false }] or [{ done: true }] *)
Inductive IteratorResult (A : Type) : Type :=
| Value (value : A)
| Done.

Arguments Value {A} value.
Arguments Done {A}.

(** [list<Entity>All] is suspended either inside [yield* segment], with
    the elements of the segment still to be yielded, or after it
    returned; [pages] is the page generator its [for await] drives. *)
Inductive AllGenerator : Type :=
| AllRunning (pages : PageGenerator) (segment : list JSValue)
| AllReturned.

(** What running a generator up to its next suspension gives: a value
    yielded, an awaited promise settled, or the end of the body. *)
Inductive Progress (A : Type) : Type :=
| Yielded (value : A)
| Awaited
| Returned.

Arguments Yielded {A} value.
Arguments Awaited {A}.
Arguments Returned {A}.

Record PageSettings : Type := {
  settingsContinuationToken : JSValue;
  settingsMaxPageSize : option JSNumber
}.

(** [PagedAsyncIterableIterator]: the element generator behind [next]
    and the [byPage] method. *)
Record PagedAsyncIterableIterator : Type := {
  iter : AllGenerator;
  byPage : PageSettings -> Completion PageGenerator
}.

Section Generators.

Context {H : Host}.
Variable this : ServiceBusManagementClient.

(** One turn of the do-while loop, from the fetch to the [yield]. *)
Definition fetchAndYield (l : Listing) (marker : JSValue) (options : PageOptions)
  : Async (IteratorResult EntitiesResponse * PageGenerator) :=
  await! listResponse :=
    listEntities this l
      {| skip := Number marker; maxCount := maxPageSize options; rest := options |} in
  let marker := continuationToken listResponse in
  ret (Value listResponse, PageYielded l marker options).

(** [next()] of a page generator. *)
Definition listPage_next (g : PageGenerator)
  : Async (IteratorResult EntitiesResponse * PageGenerator) :=
  match g with
  | PageStart l marker options => fetchAndYield l marker options
  | PageYielded l marker options =>
      if truthy marker then fetchAndYield l marker options
      else ret (Done, PageReturned)
  | PageReturned => ret (Done, PageReturned)
  end.

(** The element generator run up to its next suspension: it yields the
    next element of the segment, or, the segment being exhausted, awaits
    the next page and takes it as the segment. *)
Definition listAll_resume (g : AllGenerator) : Async (Progress JSValue * AllGenerator) :=
  match g with
  | AllRunning pages (x :: segment) => ret (Yielded x, AllRunning pages segment)
  | AllRunning pages [] =>
      await! (r, pages') := listPage_next pages in
      match r with
      | Value segment => ret (Awaited, AllRunning pages' (entities segment))
      | Done => ret (Returned, AllReturned)
      end
  | AllReturned => ret (Returned, AllReturned)
  end.

End Generators.

Section Iterators.

Context {H : Host}.

Definition listPage (l : Listing) (marker : JSValue) (options : PageOptions)
  : PageGenerator :=
  PageStart l marker options.

(** [options] is an [OperationOptions]: its [maxPageSize] is undefined. *)
Definition listAll (l : Listing) (options : JSValue) : AllGenerator :=
  let marker := JSUndefined in
  AllRunning (listPage l marker {| maxPageSize := None; operationOptions := options |}) [].

(** The generator functions of the source, one pair for each listing. *)
Definition listQueuesPage := listPage Queues.
Definition listQueuesAll := listAll Queues.
Definition listQueuesRuntimePropertiesPage := listPage QueuesRuntimeProperties.
Definition listQueuesRuntimePropertiesAll := listAll QueuesRuntimeProperties.
Definition listTopicsPage := listPage Topics.
Definition listTopicsAll := listAll Topics.
Definition listTopicsRuntimePropertiesPage := listPage TopicsRuntimeProperties.
Definition listTopicsRuntimePropertiesAll := listAll TopicsRuntimeProperties.
Definition listSubscriptionsPage (topicName : string) :=
  listPage (Subscriptions topicName).
Definition listSubscriptionsAll (topicName : string) :=
  listAll (Subscriptions topicName).
Definition listSubscriptionsRuntimePropertiesPage (topicName : string) :=
  listPage (SubscriptionsRuntimeProperties topicName).
Definition listSubscriptionsRuntimePropertiesAll (topicName : string) :=
  listAll (SubscriptionsRuntimeProperties topicName).
Definition listRulesPage (topicName subscriptionName : string) :=
  listPage (Rules topicName subscriptionName).
Definition listRulesAll (topicName subscriptionName : string) :=
  listAll (Rules topicName subscriptionName).

(** The body shared by [getQueues], [getTopics], [getSubscriptions],
    [getRules] and their runtime-properties variants. *)
Definition getEntities (l : Listing) (options : JSValue) : PagedAsyncIterableIterator :=
  {| iter := listAll l options;
     byPage := fun settings =>
       let! _ := throwIfInvalidContinuationToken (settingsContinuationToken settings) in
       Normal (listPage l (settingsContinuationToken settings)
                 {| maxPageSize := settingsMaxPageSize settings;
                    operationOptions := options |}) |}.

Definition getQueues := getEntities Queues.
Definition getQueuesRuntimeProperties := getEntities QueuesRuntimeProperties.
Definition getTopics := getEntities Topics.
Definition getTopicsRuntimeProperties := getEntities TopicsRuntimeProperties.
Definition getSubscriptions (topicName : string) := getEntities (Subscriptions topicName).
Definition getSubscriptionsRuntimeProperties (topicName : string) :=
  getEntities (SubscriptionsRuntimeProperties topicName).
Definition getRules (topicName subscriptionName : string) :=
  getEntities (Rules topicName subscriptionName).

End Iterators.

(** ** Consuming a generator

    What a [for await] loop has seen after the generator ran through at
    most [n] suspensions: the values yielded, how the loop stands, and
    the world. *)

Inductive Outcome (G : Type) : Type :=
| Finished
| Failed (e : JSError)
| Pending (g : G).

Arguments Finished {G}.
Arguments Failed {G} e.
Arguments Pending {G} g.

Fixpoint forAwait {A G : Type} (resume : G -> Async (Progress A * G))
  (n : nat) (g : G) (w : World) : list A * Outcome G * World :=
  match n with
  | O => ([], Pending g, w)
  | S n' =>
      match resume g w with
      | (Throw e, w') => ([], Failed e, w')
      | (Normal (Returned, _), w') => ([], Finished, w')
      | (Normal (Awaited, g'), w') => forAwait resume n' g' w'
      | (Normal (Yielded a, g'), w') =>
          let '(seen, o, w'') := forAwait resume n' g' w' in
          (a :: seen, o, w'')
      end
  end.

(** A [next()] seen as a run to the next suspension. *)
Definition asResume {A G : Type} (next : G -> Async (IteratorResult A * G))
  : G -> Async (Progress A * G) :=
  fun g =>
    await! (r, g') := next g in
    match r with
    | Value a => ret (Yielded a, g')
    | Done => ret (Returned, g')
    end.

(** ** Getting, updating and probing single entities *)

Section Entities.

Context {H : Host}.
Variable this : ServiceBusManagementClient.

Definition getQueue (queueName : string) (operationOptions : JSValue)
  : Async EntityResponse :=
  await! response :=
    getResource this queueName QueueResourceSerializer operationOptions in
  lift (buildQueueResponse response).

Definition getTopic (topicName : string) (operationOptions : JSValue)
  : Async EntityResponse :=
  await! response :=
    getResource this topicName TopicResourceSerializer operationOptions in
  lift (buildTopicResponse response).

Definition getSubscription (topicName subscriptionName : string)
  (operationOptions : JSValue) : Async EntityResponse :=
  let fullPath := getSubscriptionPath topicName subscriptionName in
  await! response :=
    getResource this fullPath SubscriptionResourceSerializer operationOptions in
  lift (buildSubscriptionRuntimePropertiesResponse response).

Definition getRule (topicName subscriptionName ruleName : string)
  (operationOptions : JSValue) : Async EntityResponse :=
  let fullPath := getRulePath topicName subscriptionName ruleName in
  await! response :=
    getResource this fullPath RuleResourceSerializer operationOptions in
  lift (buildRuleResponse response).

(** The body shared by the three [...Exists] methods: [true] after the
    [try], [false] returned from the [catch] on the not-found code, and
    any other exception thrown again. *)
Definition existsAfter (get : Async EntityResponse) : Async bool :=
  await! returned :=
    asyncTryCatch
      (await! _ := get in ret None)
      (fun error =>
         if codeIs "MessageEntityNotFoundError" error then ret (Some false)
         else throw error) in
  match returned with
  | Some b => ret b
  | None => ret true
  end.

Definition queueExists (queueName : string) (operationOptions : JSValue) : Async bool :=
  existsAfter (getQueue queueName operationOptions).

Definition topicExists (topicName : string) (operationOptions : JSValue) : Async bool :=
  existsAfter (getTopic topicName operationOptions).

Definition subscriptionExists (topicName subscriptionName : string)
  (operationOptions : JSValue) : Async bool :=
  existsAfter (getSubscription topicName subscriptionName operationOptions).

(** The update methods first write a log line, whose template reads a
    name property of the argument, and then validate the argument. *)
Definition updateQueue (queue : JSValue) (operationOptions : JSValue)
  : Async EntityResponse :=
  await! _ := lift (getProp queue "name") in
  if negb (isJSONLikeObject queue) || looseUndefined queue then
    throw (TypeError
        ("Parameter " ++ quoted "queue" ++ " must be an object of type "
         ++ quoted "QueueDescription" ++ " and cannot be undefined or null."))
  else
    await! queueName := lift (getProp queue "name") in
    if negb (truthy queueName) then
      throw (TypeError
          (quoted "name" ++ " attribute of the parameter " ++ quoted "queue"
           ++ " cannot be undefined."))
    else
      await! fields := lift (buildQueueOptions queue) in
      await! response :=
        putResource this (ToString queueName) fields QueueResourceSerializer true
          operationOptions in
      lift (buildQueueResponse response).

Definition updateTopic (topic : JSValue) (operationOptions : JSValue)
  : Async EntityResponse :=
  await! _ := lift (getProp topic "name") in
  if negb (isJSONLikeObject topic) || looseUndefined topic then
    throw (TypeError
        ("Parameter " ++ quoted "topic" ++ " must be an object of type "
         ++ quoted "TopicDescription" ++ " and cannot be undefined or null."))
  else
    await! topicName := lift (getProp topic "name") in
    if negb (truthy topicName) then
      throw (TypeError
          (quoted "name" ++ " attribute of the parameter " ++ quoted "topic"
           ++ " cannot be undefined."))
    else
      await! fields := lift (buildTopicOptions topic) in
      await! response :=
        putResource this (ToString topicName) fields TopicResourceSerializer true
          operationOptions in
      lift (buildTopicResponse response).

Definition updateSubscription (subscription : JSValue) (operationOptions : JSValue)
  : Async EntityResponse :=
  await! _ := lift (getProp subscription "subscriptionName") in
  if negb (isJSONLikeObject subscription) || looseUndefined subscription then
    throw (TypeError
        ("Parameter " ++ quoted "subscription" ++ " must be an object of type "
         ++ quoted "SubscriptionDescription" ++ " and cannot be undefined or null."))
  else
    await! topicName := lift (getProp subscription "topicName") in
    await! subscriptionName := lift (getProp subscription "subscriptionName") in
    if negb (truthy topicName) || negb (truthy subscriptionName) then
      throw (TypeError
          ("The attributes " ++ quoted "topicName" ++ " and "
           ++ quoted "subscriptionName" ++ " of the parameter " ++ quoted "subscription"
           ++ " cannot be undefined."))
    else
      let fullPath :=
        getSubscriptionPath (ToString topicName) (ToString subscriptionName) in
      await! fields := lift (buildSubscriptionOptions subscription) in
      await! response :=
        putResource this fullPath fields SubscriptionResourceSerializer true
          operationOptions in
      lift (buildSubscriptionResponse response).

Definition updateRule (topicName subscriptionName : string) (rule : JSValue)
  (operationOptions : JSValue) : Async EntityResponse :=
  await! _ := lift (getProp rule "name") in
  if negb (isJSONLikeObject rule)
     || match rule with JSNull => true | _ => false end then
    throw (TypeError
        ("Parameter " ++ quoted "rule" ++ " must be an object of type "
         ++ quoted "RuleDescription" ++ " and cannot be undefined or null."))
  else
    await! ruleName := lift (getProp rule "name") in
    if negb (truthy ruleName) then
      throw (TypeError
          (quoted "name" ++ " attribute of the parameter " ++ quoted "rule"
           ++ " cannot be undefined."))
    else
      let fullPath := getRulePath topicName subscriptionName (ToString ruleName) in
      await! response :=
        putResource this fullPath rule RuleResourceSerializer true operationOptions in
      lift (buildRuleResponse response).

End Entities.

(** ** An in-memory service

    A host to run the client on: a namespace holding a list of queue
    records, which serves a listing by windows of the list and links
    each window but the last to the next, and a URL parser and
    serializers simple enough to read.  The examples below run on it. *)

Module InMemory.

(** Splits at every [sep]. *)
Fixpoint split (sep : ascii) (s : string) : list string :=
  match s with
  | EmptyString => [EmptyString]
  | String c r =>
      if Ascii.eqb c sep then EmptyString :: split sep r
      else match split sep r with
           | [] => [String c EmptyString]
           | h :: t => String c h :: t
           end
  end.

(** The text before the first [sep] and the text after it, if any. *)
Fixpoint cut (sep : ascii) (s : string) : string * option string :=
  match s with
  | EmptyString => (EmptyString, None)
  | String c r =>
      if Ascii.eqb c sep then (EmptyString, Some r)
      else let '(a, b) := cut sep r in (String c a, b)
  end.

Definition parseQuery (q : string) : list (string * string) :=
  match q with
  | EmptyString => []
  | _ => map (fun kv => let '(k, v) := cut "=" kv in
                        (k, match v with Some v => v | None => EmptyString end))
           (split "&" q)
  end.

(** A URL has a scheme; its query is what follows the first [?].  No
    escape is decoded. *)
Definition parseSimpleURL (u : JSValue) : Completion (list (string * string)) :=
  match u with
  | JSStr s =>
      match cut ":" s with
      | (String _ _, Some _) =>
          match cut "?" s with
          | (_, Some q) => Normal (parseQuery q)
          | (_, None) => Normal []
          end
      | _ => Throw (TypeError ("Invalid URL: " ++ s))
      end
  | _ => Throw (TypeError "Invalid URL")
  end.

Fixpoint digitsOf (fuel : nat) (n : N) (acc : string) : string :=
  match fuel with
  | O => acc
  | S fuel' =>
      let acc' := String (ascii_of_N (48 + n mod 10)) acc in
      if (n <? 10)%N then acc' else digitsOf fuel' (n / 10)%N acc'
  end.

Definition ofNat (n : N) : string := digitsOf (S (N.to_nat (N.log2 n))) n EmptyString.

(** The decimal form of a number, exact on the integers the examples
    use. *)
Definition showNumber (n : JSNumber) : string :=
  match n with
  | NaN => "NaN"
  | Infinity neg => if neg then "-Infinity" else "Infinity"
  | Decimal neg m e =>
      let sign := if neg && negb (m =? 0)%N then "-" else EmptyString in
      if e =? 0 then sign ++ ofNat m
      else if 0 <? e then sign ++ ofNat (m * 10 ^ Z.to_N e)
      else sign ++ ofNat m ++ "e" ++ "-" ++ ofNat (Z.to_N (- e))
  end.

Definition toNat (s : string) : option nat :=
  match StringToNumber s with
  | Decimal false m 0 => Some (N.to_nat m)
  | _ => None
  end.

Fixpoint queryGet (k : string) (q : list (string * string)) : option string :=
  match q with
  | [] => None
  | (k', v) :: r => if String.eqb k k' then Some v else queryGet k r
  end.

(** A decoder keeps a record that is an object with a truthy [name]. *)
Definition decode (raw : JSValue) : Completion JSValue :=
  match raw with
  | JSObject props => Normal (if truthy (lookup "name" props) then raw else JSUndefined)
  | _ => Normal JSUndefined
  end.

Definition named (s : string) : JSValue := JSObject [("name", JSStr s)].

Definition origin : string := "https://ns.servicebus.windows.net/".

Definition hasName (s : string) (record : JSValue) : bool :=
  match record with
  | JSObject props =>
      match lookup "name" props with
      | JSStr s' => String.eqb s s'
      | _ => false
      end
  | _ => false
  end.

(** The service: [records] are the queues of the namespace and [cap]
    the largest window it serves. *)
Definition serve (records : list JSValue) (cap : nat) (w : World)
  (rq : WebResource) (sz : AtomXmlSerializer) (o : RequestOptions)
  : Completion HttpOperationResponse :=
  let base := baseUri (url rq) in
  if String.eqb (method rq) "GET" then
    if String.eqb base (origin ++ "$Resources/Queues") then
      let skip := match queryGet "$skip" (query (url rq)) with
                  | Some s => match toNat s with Some n => n | None => O end
                  | None => O
                  end in
      let top := match queryGet "$top" (query (url rq)) with
                 | Some s => match toNat s with Some n => Nat.min n cap | None => cap end
                 | None => cap
                 end in
      let props :=
        if (skip + top <? length records)%nat then
          [("nextLink",
            JSStr (base ++ "?api-version=2017-04&$skip=" ++ ofNat (N.of_nat (skip + top))
                   ++ "&$top=" ++ ofNat (N.of_nat top)))]
        else [] in
      Normal {| status := 200;
                parsedBody := JSArray (firstn top (skipn skip records)) props;
                request := rq |}
    else
      let queueName := substring (String.length origin)
                         (String.length base - String.length origin) base in
      Normal {| status := 200;
                parsedBody := match find (hasName queueName) records with
                              | Some record => record
                              | None => JSArray [] []
                              end;
                request := rq |}
  else Normal {| status := 200; parsedBody := body rq; request := rq |}.

Definition hostOf
  (answer : World -> WebResource -> AtomXmlSerializer -> RequestOptions
            -> Completion HttpOperationResponse) : Host :=
  {| API_VERSION_QUERY_KEY := "api-version";
     CURRENT_API_VERSION := "2017-04";
     XML_METADATA_MARKER := "$";
     numberToString := showNumber;
     parseURL := parseSimpleURL;
     stripRequest := fun r => r;
     stripResponse := fun r => r;
     isJSONLikeObject := fun v => match v with JSObject _ => true | _ => false end;
     isAbsoluteUrl := fun v => match v with
                                | JSStr s => prefix "sb://" s || prefix "https://" s
                                | _ => false
                                end;
     buildNamespace := decode;
     buildQueue := decode;
     buildQueueRuntimeProperties := decode;
     buildTopic := decode;
     buildTopicRuntimeProperties := decode;
     buildSubscription := decode;
     buildSubscriptionRuntimeProperties := decode;
     buildRule := decode;
     buildQueueOptions := fun v => Normal v;
     buildTopicOptions := fun v => Normal v;
     buildSubscriptionOptions := fun v => Normal v;
     getToken := fun _ => Normal "SharedAccessSignature";
     service := answer |}.

Definition host (records : list JSValue) (cap : nat) : Host :=
  hostOf (serve records cap).

(** A service that answers every request with the same parsed body and
    the status 200. *)
Definition answering (parsed : JSValue) : Host :=
  hostOf (fun _ rq _ _ =>
            Normal {| status := 200; parsedBody := parsed; request := rq |}).

Definition client : ServiceBusManagementClient :=
  {| endpoint := "ns.servicebus.windows.net";
     endpointWithProtocol := "sb://ns.servicebus.windows.net/";
     sasCredentials := true |}.

(** The five queues A to E of the specification's example. *)
Definition fiveQueues : list JSValue :=
  [named "A"; named "B"; named "C"; named "D"; named "E"].

(** The response to a listing of the queues with the given parsed body. *)
Definition listed (parsed : JSValue) : HttpOperationResponse :=
  {| status := 200;
     parsedBody := parsed;
     request := {| url := {| baseUri := origin ++ "$Resources/Queues";
                             query := [("api-version", "2017-04")] |};
                   method := "GET"; body := JSUndefined; headers := [] |} |}.

(** The namespace of the five queues, serving up to [cap] a window. *)
Definition fiveHost (cap : nat) : Host := host fiveQueues cap.

End InMemory.

(** ** The vocabulary of the properties *)

Section Vocabulary.

Context {H : Host}.

Definition resourcePath (l : Listing) : string :=
  match l with
  | Queues | QueuesRuntimeProperties => "$Resources/Queues"
  | Topics | TopicsRuntimeProperties => "$Resources/Topics"
  | Subscriptions t | SubscriptionsRuntimeProperties t => t ++ "/Subscriptions/"
  | Rules t s => getSubscriptionPath t s ++ "/Rules/"
  end.

Definition serializerOf (l : Listing) : AtomXmlSerializer :=
  match l with
  | Queues | QueuesRuntimeProperties => QueueResourceSerializer
  | Topics | TopicsRuntimeProperties => TopicResourceSerializer
  | Subscriptions _ | SubscriptionsRuntimeProperties _ => SubscriptionResourceSerializer
  | Rules _ _ => RuleResourceSerializer
  end.

Definition decoderOf (l : Listing) : JSValue -> Completion JSValue :=
  match l with
  | Queues => buildQueue
  | QueuesRuntimeProperties => buildQueueRuntimeProperties
  | Topics => buildTopic
  | TopicsRuntimeProperties => buildTopicRuntimeProperties
  | Subscriptions _ => buildSubscription
  | SubscriptionsRuntimeProperties _ => buildSubscriptionRuntimeProperties
  | Rules _ _ => buildRule
  end.

Definition nounOf (l : Listing) : string :=
  match l with
  | Queues | QueuesRuntimeProperties => "queues"
  | Topics | TopicsRuntimeProperties => "topics"
  | Subscriptions _ | SubscriptionsRuntimeProperties _ => "subscriptions"
  | Rules _ _ => "rules"
  end.

(** The query parameters a listing adds for its window. *)
Definition windowParams (o : ListRequestOptions) : list (string * string) :=
  (if numTruthy (skip o) then [("$skip", numberToString (skip o))] else [])
  ++ match maxCount o with
     | Some n => if numTruthy n then [("$top", numberToString n)] else []
     | None => []
     end.

(** The request of a listing. *)
Definition listRequest (this : ServiceBusManagementClient) (l : Listing)
  (o : ListRequestOptions) : WebResource :=
  newWebResource (getUrl this (resourcePath l) (windowParams o)) "GET".

(** The request of a get. *)
Definition getRequest (this : ServiceBusManagementClient) (path : string) : WebResource :=
  newWebResource (getUrl this path []) "GET".

(** Page mode, consumed by a [for await]. *)
Definition pageMode (this : ServiceBusManagementClient) :=
  forAwait (asResume (listPage_next this)).

(** Flat mode, consumed by a [for await]. *)
Definition flatMode (this : ServiceBusManagementClient) :=
  forAwait (listAll_resume this).

(** The elements of a sequence of pages, page after page. *)
Definition elementsOf (ps : list EntitiesResponse) : list JSValue :=
  concat (map entities ps).

(** How flat mode stands when the page generator it drives stands at [o]. *)
Definition drivenTo (o : Outcome PageGenerator) : Outcome AllGenerator :=
  match o with
  | Finished => Finished
  | Failed e => Failed e
  | Pending g => Pending (AllRunning g [])
  end.

(** [byPage()] called with no settings. *)
Definition noSettings : PageSettings :=
  {| settingsContinuationToken := JSUndefined; settingsMaxPageSize := None |}.

(** A value that [byPage] accepts as a continuation token, in the words
    of the specification: undefined, or a string whose numeric value is
    at least 0. *)
Definition acceptableToken (token : JSValue) : Prop :=
  token = JSUndefined \/ exists s, token = JSStr s /\ geZero (Number (JSStr s)) = true.

(** A synchronous call that throws a plain [Error], as a usage error is
    thrown. *)
Definition throwsError {A : Type} (c : Completion A) : Prop :=
  exists e, c = Throw e /\ name e = "Error".

(** The query parameters of a listing that sends no [$skip]. *)
Definition topParams (size : option JSNumber) : list (string * string) :=
  match size with
  | Some n => if numTruthy n then [("$top", numberToString n)] else []
  | None => []
  end.

(** The parse error of a listing: a [RestError] with code
    [PARSE_ERROR], the status of the response, and the stripped request
    and response. *)
Definition listParseError (noun : string) (response : HttpOperationResponse) : JSError :=
  RestError
    ("Error occurred while parsing the response body - cannot form a list of "
     ++ noun ++ " using the response from the service.")
    PARSE_ERROR (status response)
    (stripRequest (request response)) (stripResponse response).

(** The not-found error of a get. *)
Definition notFoundError (this : ServiceBusManagementClient) (path : string)
  (response : HttpOperationResponse) : JSError :=
  RestError
    ("The messaging entity " ++ quoted path ++ " being requested cannot be found.")
    "MessageEntityNotFoundError" 404
    (stripRequest (getRequest this path)) (stripResponse response).


(** What the three [...Exists] methods are to their get: [false]
    exactly when the get throws an error whose code is
    "MessageEntityNotFoundError", [true] exactly when the get succeeds,
    and an error exactly when the get throws that error with another
    code; the requests sent are those of the get. *)
Definition probes (probe : Async bool) (get : Async EntityResponse) : Prop :=
  forall w w' : World,
    (probe w = (Normal false, w')
     <-> exists e, get w = (Throw e, w')
                   /\ code e = Some "MessageEntityNotFoundError")
    /\ (probe w = (Normal true, w') <-> exists r, get w = (Normal r, w'))
    /\ (forall e, probe w = (Throw e, w')
                  <-> get w = (Throw e, w')
                      /\ code e <> Some "MessageEntityNotFoundError").

(** The property [k] of [v] is missing: reading it gives nothing
    truthy. *)
Definition lacks (v : JSValue) (k : string) : Prop :=
  forall x, getProp v k = Normal x -> truthy x = false.

(** An asynchronous call that throws a TypeError and sends nothing. *)
Definition rejectsUnsent {A : Type} (c : Async A) : Prop :=
  forall w : World, exists e, c w = (Throw e, w) /\ name e = "TypeError".

(** The listing and the options a page generator was made with. *)
Definition madeWith (g : PageGenerator) : option (Listing * PageOptions) :=
  match g with
  | PageStart l _ options | PageYielded l _ options => Some (l, options)
  | PageReturned => None
  end.

End Vocabulary.

(** ** The other methods of the client *)

Section MoreEntities.

Context {H : Host}.
Variable this : ServiceBusManagementClient.

Definition getNamespaceProperties (operationOptions : JSValue) : Async EntityResponse :=
  await! response :=
    getResource this "$namespaceinfo" NamespaceResourceSerializer operationOptions in
  lift (buildNamespacePropertiesResponse response).

Definition getQueueRuntimeProperties (queueName : string) (operationOptions : JSValue)
  : Async EntityResponse :=
  await! response :=
    getResource this queueName QueueResourceSerializer operationOptions in
  lift (buildQueueRuntimePropertiesResponse response).

Definition getTopicRuntimeProperties (topicName : string) (operationOptions : JSValue)
  : Async EntityResponse :=
  await! response :=
    getResource this topicName TopicResourceSerializer operationOptions in
  lift (buildTopicRuntimePropertiesResponse response).

Definition getSubscriptionRuntimeProperties (topicName subscriptionName : string)
  (operationOptions : JSValue) : Async EntityResponse :=
  let fullPath := getSubscriptionPath topicName subscriptionName in
  await! response :=
    getResource this fullPath SubscriptionResourceSerializer operationOptions in
  lift (buildSubscriptionRuntimePropertiesResponse response).

(** The create methods take a name or a description, on which they
    make no test.  The log line reads the name first, and so throws on
    [undefined] and [null]. *)
Definition createQueue (queueNameOrOptions : JSValue) (operationOptions : JSValue)
  : Async EntityResponse :=
  let queue :=
    if String.eqb (typeof queueNameOrOptions) "string"
    then JSObject [("name", queueNameOrOptions)]
    else queueNameOrOptions in
  await! queueName := lift (getProp queue "name") in
  await! fields := lift (buildQueueOptions queue) in
  await! response :=
    putResource this (ToString queueName) fields QueueResourceSerializer false
      operationOptions in
  lift (buildQueueResponse response).

Definition createTopic (topicNameOrOptions : JSValue) (operationOptions : JSValue)
  : Async EntityResponse :=
  let topic :=
    if String.eqb (typeof topicNameOrOptions) "string"
    then JSObject [("name", topicNameOrOptions)]
    else topicNameOrOptions in
  await! topicName := lift (getProp topic "name") in
  await! fields := lift (buildTopicOptions topic) in
  await! response :=
    putResource this (ToString topicName) fields TopicResourceSerializer false
      operationOptions in
  lift (buildTopicResponse response).

Definition createSubscription (topicNameOrSubscriptionOptions : JSValue)
  (subscriptionNameOrOperationOptions : JSValue) (operationOptions : JSValue)
  : Async EntityResponse :=
  await! (subscription, operOptions) :=
    (if String.eqb (typeof subscriptionNameOrOperationOptions) "string" then
       if negb (String.eqb (typeof topicNameOrSubscriptionOptions) "string") then
         throw (Error "Topic name provided is invalid")
       else
         ret (JSObject [("topicName", topicNameOrSubscriptionOptions);
                        ("subscriptionName", subscriptionNameOrOperationOptions)],
              operationOptions)
     else ret (topicNameOrSubscriptionOptions, subscriptionNameOrOperationOptions)) in
  await! subscriptionName := lift (getProp subscription "subscriptionName") in
  await! topicName := lift (getProp subscription "topicName") in
  let fullPath := getSubscriptionPath (ToString topicName) (ToString subscriptionName) in
  await! fields := lift (buildSubscriptionOptions subscription) in
  await! response :=
    putResource this fullPath fields SubscriptionResourceSerializer false operOptions in
  lift (buildSubscriptionResponse response).

Definition createRule (topicName subscriptionName : string) (rule : JSValue)
  (operationOptions : JSValue) : Async EntityResponse :=
  await! ruleName := lift (getProp rule "name") in
  let fullPath := getRulePath topicName subscriptionName (ToString ruleName) in
  await! response :=
    putResource this fullPath rule RuleResourceSerializer false operationOptions in
  lift (buildRuleResponse response).

(** The delete methods return [{ _response: response }], kept here as
    the response it holds. *)
Definition deleteQueue (queueName : string) (operationOptions : JSValue)
  : Async HttpOperationResponse :=
  await! response :=
    deleteResource this queueName QueueResourceSerializer operationOptions in
  ret response.

Definition deleteTopic (topicName : string) (operationOptions : JSValue)
  : Async HttpOperationResponse :=
  await! response :=
    deleteResource this topicName TopicResourceSerializer operationOptions in
  ret response.

Definition deleteSubscription (topicName subscriptionName : string)
  (operationOptions : JSValue) : Async HttpOperationResponse :=
  let fullPath := getSubscriptionPath topicName subscriptionName in
  await! response :=
    deleteResource this fullPath SubscriptionResourceSerializer operationOptions in
  ret response.

Definition deleteRule (topicName subscriptionName ruleName : string)
  (operationOptions : JSValue) : Async HttpOperationResponse :=
  let fullPath := getRulePath topicName subscriptionName ruleName in
  await! response :=
    deleteResource this fullPath RuleResourceSerializer operationOptions in
  ret response.

End MoreEntities.

(** ** The constructor

    The namespace is taken from the [Endpoint] of the parsed connection
    string as the first group of its match against the pattern made of
    a greedy run of any characters, the text [://], and a group holding
    a greedy run of characters other than a slash. *)

(** The line terminators, which [.] does not match. *)
Definition isLineTerminator (c : ascii) : bool :=
  let n := nat_of_ascii c in ((n =? 10) || (n =? 13))%nat.

(** What the group captures at the start of [s]: the longest run of
    characters other than a slash. *)
Fixpoint captureNoSlash (s : string) : string :=
  match s with
  | String c r => if Ascii.eqb c "/" then EmptyString else String c (captureNoSlash r)
  | EmptyString => EmptyString
  end.

(** The match of the pattern that starts at the start of [s].  The
    greedy run of any characters goes to the end of the line and gives
    characters back one by one, so the [://] matched is the last one of
    the line. *)
Fixpoint matchHere (s : string) : option string :=
  match s with
  | EmptyString => None
  | String c r =>
      if isLineTerminator c then None
      else match matchHere r with
           | Some captured => Some captured
           | None =>
               if prefix "://" s then Some (captureNoSlash (substring 3 (String.length s) s))
               else None
           end
  end.

(** The first group of the leftmost match of the pattern in [s], if the
    pattern matches at all. *)
Fixpoint matchEndpoint (s : string) : option string :=
  match matchHere s with
  | Some captured => Some captured
  | None =>
      match s with
      | String _ r => matchEndpoint r
      | EmptyString => None
      end
  end.

(** [s.endsWith("/")] *)
Fixpoint endsWithSlash (s : string) : bool :=
  match s with
  | EmptyString => false
  | String c EmptyString => Ascii.eqb c "/"
  | String _ r => endsWithSlash r
  end.

Inductive RequestPolicyFactory : Type :=
| bearerTokenAuthenticationPolicy
| signingPolicy
| proxyPolicy (proxySettings : JSValue).

(** The second argument of the constructor: a token credential, or the
    options (possibly undefined) that follow a connection string. *)
Inductive CredentialOrOptions : Type :=
| TokenCredential
| ClientOptions (options : JSValue).

(** The credentials the client keeps: the token credential it was
    given, or SAS credentials made of the key name and key of the
    connection string. *)
Inductive Credentials : Type :=
| GivenTokenCredential
| SasServiceClientCredentials (sharedAccessKeyName sharedAccessKey : JSValue).

(** What the constructor leaves: the fields of the client, its
    credentials, and the policies handed to the service client. *)
Record Constructed : Type := {
  constructedClient : ServiceBusManagementClient;
  credentials : Credentials;
  requestPolicyFactories : list RequestPolicyFactory
}.

Section Constructor.

Context {H : Host}.

(** [parseConnectionString] of [@azure/core-amqp]. *)
Variable parseConnectionString : string -> Completion JSValue.

Definition construct (fullyQualifiedNamespaceOrConnectionString1 : string)
  (credentialOrOptions2 : CredentialOrOptions) (options3 : JSValue)
  : Completion Constructed :=
  let! (options, fullyQualifiedNamespace, creds, requestPolicyFactories) :=
    match credentialOrOptions2 with
    | TokenCredential =>
        Normal (if truthy options3 then options3 else JSObject [],
                fullyQualifiedNamespaceOrConnectionString1,
                GivenTokenCredential,
                [bearerTokenAuthenticationPolicy])
    | ClientOptions options2 =>
        let options := if truthy options2 then options2 else JSObject [] in
        let! connectionStringObj :=
          parseConnectionString fullyQualifiedNamespaceOrConnectionString1 in
        let! endpointValue := getProp connectionStringObj "Endpoint" in
        if looseUndefined endpointValue then
          Throw (Error "Missing Endpoint in connection string.")
        else
          let! fullyQualifiedNamespace :=
            match endpointValue with
            | JSStr s =>
                match matchEndpoint s with
                | Some captured => Normal captured
                | None => Throw (Error "Endpoint in the connection string is not valid.")
                end
            | _ => Throw (Error "Endpoint in the connection string is not valid.")
            end in
          let! sharedAccessKeyName := getProp connectionStringObj "SharedAccessKeyName" in
          let! sharedAccessKey := getProp connectionStringObj "SharedAccessKey" in
          Normal (options, fullyQualifiedNamespace,
                  SasServiceClientCredentials sharedAccessKeyName sharedAccessKey,
                  [signingPolicy])
    end in
  let! proxySettings :=
    if truthy options then getProp options "proxySettings" else Normal options in
  let requestPolicyFactories :=
    if truthy proxySettings
    then (requestPolicyFactories ++ [proxyPolicy proxySettings])%list
    else requestPolicyFactories in
  Normal
    {| constructedClient :=
         {| endpoint := fullyQualifiedNamespace;
            endpointWithProtocol :=
              if endsWithSlash fullyQualifiedNamespace
              then "sb://" ++ fullyQualifiedNamespace
              else "sb://" ++ fullyQualifiedNamespace ++ "/";
            sasCredentials :=
              match creds with
              | SasServiceClientCredentials _ _ => true
              | GivenTokenCredential => false
              end |};
       credentials := creds;
       requestPolicyFactories := requestPolicyFactories |}.

End Constructor.

(** A host that differs from [h] in how a token is obtained. *)
Definition withToken (h : Host)
  (token : ServiceBusManagementClient -> Completion string) : Host :=
  {| API_VERSION_QUERY_KEY := @API_VERSION_QUERY_KEY h;
     CURRENT_API_VERSION := @CURRENT_API_VERSION h;
     XML_METADATA_MARKER := @XML_METADATA_MARKER h;
     numberToString := @numberToString h;
     parseURL := @parseURL h;
     stripRequest := @stripRequest h;
     stripResponse := @stripResponse h;
     isJSONLikeObject := @isJSONLikeObject h;
     isAbsoluteUrl := @isAbsoluteUrl h;
     buildNamespace := @buildNamespace h;
     buildQueue := @buildQueue h;
     buildQueueRuntimeProperties := @buildQueueRuntimeProperties h;
     buildTopic := @buildTopic h;
     buildTopicRuntimeProperties := @buildTopicRuntimeProperties h;
     buildSubscription := @buildSubscription h;
     buildSubscriptionRuntimeProperties := @buildSubscriptionRuntimeProperties h;
     buildRule := @buildRule h;
     buildQueueOptions := @buildQueueOptions h;
     buildTopicOptions := @buildTopicOptions h;
     buildSubscriptionOptions := @buildSubscriptionOptions h;
     getToken := token;
     service := @service h |}.

(** ** The vocabulary of the further properties *)

Section MoreVocabulary.

Context {H : Host}.

(** A parsed body that a get takes for an absent entity: undefined,
    null or an empty array. *)
Definition absentBody (v : JSValue) : bool :=
  match v with
  | JSUndefined | JSNull | JSArray [] _ => true
  | _ => false
  end.

(** The parse error of a single-entity builder. *)
Definition entityParseError (noun : string) (response : HttpOperationResponse) : JSError :=
  RestError
    ("Error occurred while parsing the response body - cannot form a "
     ++ noun ++ " object using the response from the service.")
    PARSE_ERROR (status response)
    (stripRequest (request response)) (stripResponse response).

(** What a get method makes of the answer of the service: the error of
    the service as it is, the not-found error for an absent body, the
    parse error when the decoder throws, and otherwise the decoded
    entity (an empty object when the decoder gives nothing) with the
    response. *)
Definition outcomeOfGet (this : ServiceBusManagementClient) (path : string)
  (decode : JSValue -> Completion JSValue) (noun : string)
  (answer : Completion HttpOperationResponse) : Completion EntityResponse :=
  match answer with
  | Throw e => Throw e
  | Normal response =>
      if absentBody (parsedBody response)
      then Throw (notFoundError this path response)
      else match decode (parsedBody response) with
           | Throw _ => Throw (entityParseError noun response)
           | Normal d =>
               Normal {| entity := if truthy d then d else JSObject [];
                         entityResponse := response |}
           end
  end.

(** A get method that sends the one request of [path] with the
    serializer and makes [outcomeOfGet] of the answer. *)
Definition getsThrough (this : ServiceBusManagementClient) (path : string)
  (serializer : AtomXmlSerializer) (decode : JSValue -> Completion JSValue)
  (noun : string) (operationOptions : JSValue) (get : Async EntityResponse) : Prop :=
  forall w : World,
    get w =
    (outcomeOfGet this path decode noun
       (service w (getRequest this path) serializer (ForOperation operationOptions)),
     (w ++ [getRequest this path])%list).

(** What an [...Exists] method makes of the answer of the service to
    the get. *)
Definition outcomeOfExists (decode : JSValue -> Completion JSValue) (noun : string)
  (answer : Completion HttpOperationResponse) : Completion bool :=
  match answer with
  | Throw e => if codeIs "MessageEntityNotFoundError" e then Normal false else Throw e
  | Normal response =>
      if absentBody (parsedBody response) then Normal false
      else match decode (parsedBody response) with
           | Throw _ => Throw (entityParseError noun response)
           | Normal _ => Normal true
           end
  end.

End MoreVocabulary.

Section PagingVocabulary.

Context {H : Host}.

(** The request a page generator made for [l] with [options] sends
    when its marker is [marker]. *)
Definition fetchOf (this : ServiceBusManagementClient) (l : Listing)
  (options : PageOptions) (marker : JSValue) : WebResource :=
  listRequest this l
    {| skip := Number marker; maxCount := maxPageSize options; rest := options |}.

(** The number of fetches that failed in a run: one or none. *)
Definition failures {G : Type} (o : Outcome G) : nat :=
  match o with
  | Failed _ => 1
  | _ => 0
  end.

(** The marker of the fetch that the next [next()] makes, if it makes
    one. *)
Definition pendingMarker (g : PageGenerator) : option JSValue :=
  match g with
  | PageStart _ marker _ => Some marker
  | PageYielded _ marker _ => if truthy marker then Some marker else None
  | PageReturned => None
  end.

(** The continuation tokens of a sequence of pages. *)
Definition tokensOf (ps : list EntitiesResponse) : list JSValue :=
  map continuationToken ps.

End PagingVocabulary.

Section PutVocabulary.

Context {H : Host}.

(** The value of a header of a request, if it is set. *)
Fixpoint headerIn (k : string) (hs : list (string * string)) : option string :=
  match hs with
  | [] => None
  | (k', v) :: r => if String.eqb k k' then Some v else headerIn k r
  end.

(** A forwarding target as it is sent: as it is when it is falsy or an
    absolute URL, and else prefixed with the endpoint. *)
Definition forwarded (this : ServiceBusManagementClient) (target : JSValue) : JSValue :=
  if truthy target then
    if isAbsoluteUrl target then target
    else JSStr (endpointWithProtocol this ++ ToString target)
  else target.

(** The request of a delete. *)
Definition deleteRequest (this : ServiceBusManagementClient) (path : string)
  : WebResource :=
  newWebResource (getUrl this path []) "DELETE".

(** The content type of a put. *)
Definition atomContentType : string := "application/atom+xml;type=entry;charset=utf-8".

End PutVocabulary.

Section CreateVocabulary.

Context {H : Host}.

(** A request that differs from [created] by the header [If-Match: *]
    put before its headers, and in nothing else. *)
Definition sameButIfMatch (created updated : WebResource) : Prop :=
  url updated = url created
  /\ method updated = method created
  /\ body updated = body created
  /\ headers updated = ("If-Match", "*") :: headers created.

(** Two calls that throw the same error and send nothing, or each
    send one PUT request, that of the second being that of the first
    with [If-Match: *], and make the same of the answer of the service
    to their own request: its error as it is, and of its response what
    [finish] makes of it. *)
Definition updatesWhatItCreates {A : Type} (serializer : AtomXmlSerializer)
  (operationOptions : JSValue) (finish : HttpOperationResponse -> Completion A)
  (create update : Async A) : Prop :=
  forall w : World,
    (exists e, create w = (Throw e, w) /\ update w = (Throw e, w))
    \/ exists created updated,
         create w =
         (bindC (service w created serializer (ForOperation operationOptions)) finish,
          (w ++ [created])%list)
         /\ update w =
            (bindC (service w updated serializer (ForOperation operationOptions)) finish,
             (w ++ [updated])%list)
         /\ method created = "PUT"
         /\ sameButIfMatch created updated.

End CreateVocabulary.

(** A decimal digit. *)
Definition isDecimalDigit (c : ascii) : bool :=
  let n := N_of_ascii c in ((48 <=? n) && (n <=? 57))%N.

(** A text made of decimal digits only. *)
Fixpoint allDecimalDigits (s : string) : bool :=
  match s with
  | EmptyString => true
  | String c r => isDecimalDigit c && allDecimalDigits r
  end.


(** * Properties *)

(** ** The model at work *)

Example numbers_of_strings :
  map StringToNumber ["5"; " 7 "; ""; "0x10"; "1e3"; "-1"; "abc"; "12abc"; "-0"]
  = [Decimal false 5 0; Decimal false 7 0; zero; Decimal false 16 0;
     Decimal false 1 3; Decimal true 1 0; NaN; NaN; Decimal true 0 0].
Proof. reflexivity. Qed.

Example numbers_at_least_zero :
  map (fun s => geZero (StringToNumber s))
    ["5"; ""; "-0"; "-1e-400"; "Infinity"; "-1"; "-Infinity"; "abc"]
  = [true; true; true; true; true; false; false; false].
Proof. vm_compute. reflexivity. Qed.

(** The example of the specification: the queues A to E listed two at
    a time come as the pages [A, B] with token "2", [C, D] with token
    "4" and [E] with no token, after which the iteration ends; the
    three requests ask for the windows at 0, 2 and 4. *)
Example five_queues_by_pages_of_two :
  let '(ps, o, w) :=
    pageMode (H := InMemory.fiveHost 100) InMemory.client 4
      (listQueuesPage JSUndefined
         {| maxPageSize := Some (ofN 2); operationOptions := JSUndefined |}) [] in
  map (fun p => (entities p, continuationToken p)) ps
  = [([InMemory.named "A"; InMemory.named "B"], JSStr "2");
     ([InMemory.named "C"; InMemory.named "D"], JSStr "4");
     ([InMemory.named "E"], JSUndefined)]
  /\ o = Finished
  /\ map (fun rq => query (url rq)) w
     = [[("api-version", "2017-04"); ("$top", "2")];
        [("api-version", "2017-04"); ("$skip", "2"); ("$top", "2")];
        [("api-version", "2017-04"); ("$skip", "4"); ("$top", "2")]].
Proof. vm_compute. repeat split. Qed.

(** Flat mode over a service that serves two queues a window yields the
    five queues with three requests. *)
Example five_queues_flat :
  let '(seen, o, w) :=
    flatMode (H := InMemory.fiveHost 2) InMemory.client 9
      (listQueuesAll JSUndefined) [] in
  seen = InMemory.fiveQueues /\ o = Finished /\ length w = 3%nat.
Proof. vm_compute. repeat split. Qed.

Example queue_C_exists_and_Z_does_not :
  fst (queueExists (H := InMemory.fiveHost 100) InMemory.client "C" JSUndefined [])
  = Normal true
  /\ fst (queueExists (H := InMemory.fiveHost 100) InMemory.client "Z" JSUndefined [])
     = Normal false.
Proof. vm_compute. split; reflexivity. Qed.

Section ListingFacts.

Context {H : Host}.
Variable this : ServiceBusManagementClient.

Lemma windowParams_set (o : ListRequestOptions) :
  (let queryParams := [] in
   let queryParams :=
     if numTruthy (skip o)
     then setQueryParameter "$skip" (numberToString (skip o)) queryParams
     else queryParams in
   match maxCount o with
   | Some n =>
       if numTruthy n
       then setQueryParameter "$top" (numberToString n) queryParams
       else queryParams
   | None => queryParams
   end) = windowParams o.
Proof.
  unfold windowParams; cbn zeta.
  destruct (numTruthy (skip o)); destruct (maxCount o) as [n|]; cbn;
    try destruct (numTruthy n); reflexivity.
Qed.

(** Every listing sends one request and decodes the answer. *)
Lemma listEntities_run (l : Listing) (o : ListRequestOptions) (w : World) :
  listEntities this l o w =
  (bindC (service w (listRequest this l o) (serializerOf l) (ForList o))
         (buildListResponse (decoderOf l) (nounOf l)),
   (w ++ [listRequest this l o])%list).
Proof.
  destruct l; cbn [listEntities];
    unfold listQueues, listQueuesRuntimeProperties, listTopics,
      listTopicsRuntimeProperties, listSubscriptions,
      listSubscriptionsRuntimeProperties, listRules,
      listResources, bind, lift, executeAtomXmlOperation, listRequest;
    rewrite windowParams_set; cbn [resourcePath serializerOf decoderOf nounOf];
    match goal with
    | |- context [service ?a ?b ?c ?d] => destruct (service a b c d)
    end; reflexivity.
Qed.

End ListingFacts.

(** ** Flat mode and page mode *)

Section FlatAndPages.

Context {H : Host}.
Variable this : ServiceBusManagementClient.

(** Inside [yield* segment] the generator yields the segment, element
    by element, and touches nothing. *)
Lemma flatMode_segment (segment : list JSValue) :
  forall (g : PageGenerator) (n : nat) (w : World),
    flatMode this (length segment + n) (AllRunning g segment) w =
    let '(seen, o, w') := flatMode this n (AllRunning g []) w in
    ((segment ++ seen)%list, o, w').
Proof.
  induction segment as [|x segment IH]; intros g n w.
  - cbn [length Nat.add app].
    destruct (flatMode this n (AllRunning g []) w) as [[seen o] w']; reflexivity.
  - cbn [length Nat.add]. unfold flatMode in *. cbn [forAwait listAll_resume].
    unfold ret at 1. rewrite IH.
    destruct (forAwait (listAll_resume this) n (AllRunning g []) w) as [[seen o] w'].
    reflexivity.
Qed.

(** The element generator on top of any page generator: running it
    through the pages and their elements yields the elements of the
    pages, in order, with the same requests sent. *)
Lemma flatMode_over_pageMode :
  forall (n : nat) (g : PageGenerator) (w : World),
    let '(ps, o, w') := pageMode this n g w in
    flatMode this (n + length (elementsOf ps)) (AllRunning g []) w =
    (elementsOf ps, drivenTo o, w').
Proof.
  induction n as [|n IH]; intros g w.
  - reflexivity.
  - unfold pageMode, flatMode in *. cbn [forAwait Nat.add].
    unfold asResume at 1, listAll_resume at 1, bind.
    destruct (listPage_next this g w) as [[[[p|] g']|e] w1]; cbn.
    + specialize (IH g' w1).
      destruct (forAwait (asResume (listPage_next this)) n g' w1) as [[ps o] w2].
      unfold elementsOf in *. cbn [map concat].
      rewrite length_app.
      replace (n + (length (entities p) + length (concat (map entities ps))))%nat
        with (length (entities p) + (n + length (concat (map entities ps))))%nat by lia.
      pose proof (flatMode_segment (entities p) g'
                    (n + length (concat (map entities ps))) w1) as Hs.
      unfold flatMode in Hs. rewrite Hs, IH. reflexivity.
    + reflexivity.
    + reflexivity.
Qed.

End FlatAndPages.

(** C1 (as amended).  Whatever the service answers, and whatever marker
    and page size a page generator was started with, the element
    generator that drives it yields exactly the elements of its pages,
    page after page and in order, sends the same requests and ends the
    same way.  Flat mode of a listing drives the page generator that
    [byPage()] returns when called with no settings: it starts with no
    continuation token and passes no page size. *)
Theorem flat_mode_is_concatenation_of_pages :
  forall (H : Host) (this : ServiceBusManagementClient),
    (forall (l : Listing) (options : JSValue),
        exists g : PageGenerator,
          byPage (getEntities l options) noSettings = Normal g
          /\ iter (getEntities l options) = AllRunning g [])
    /\ (forall (g : PageGenerator) (n : nat) (w : World),
           let '(ps, o, w') := pageMode this n g w in
           flatMode this (n + length (elementsOf ps)) (AllRunning g []) w =
           (elementsOf ps, drivenTo o, w')).
Proof.
  intros H this. split.
  - intros l options. eexists. split; reflexivity.
  - intros g n w. apply flatMode_over_pageMode.
Qed.

(** C1 (as stated) fails for a starting skip other than 0.  On the
    namespace of the queues A to E, served in one window, flat mode
    yields the five queues, while [byPage] started from the token "1"
    yields one page holding B to E. *)
Lemma flat_mode_ignores_starting_skip :
  deterministic (InMemory.fiveHost 100)
  /\ exists (g : PageGenerator) (page : EntitiesResponse) (w1 w2 : World),
      byPage (getQueues (H := InMemory.fiveHost 100) JSUndefined)
        {| settingsContinuationToken := JSStr "1"; settingsMaxPageSize := None |}
      = Normal g
      /\ pageMode (H := InMemory.fiveHost 100) InMemory.client 2 g [] =
         ([page], Finished, w1)
      /\ flatMode (H := InMemory.fiveHost 100) InMemory.client 7
           (iter (getQueues (H := InMemory.fiveHost 100) JSUndefined)) [] =
         (InMemory.fiveQueues, Finished, w2)
      /\ elementsOf [page] = tl InMemory.fiveQueues
      /\ elementsOf [page] <> InMemory.fiveQueues.
Proof.
  split.
  - intros w1 w2 rq sz o. reflexivity.
  - do 4 eexists. split; [reflexivity|].
    split; [vm_compute; reflexivity|].
    split; [vm_compute; reflexivity|].
    split; [reflexivity|]. discriminate.
Qed.

(** ** The continuation token of [byPage] *)

Section Validation.

Context {H : Host}.

Lemma throwIfInvalidContinuationToken_accepts (token : JSValue) :
  throwIfInvalidContinuationToken token = Normal tt <-> acceptableToken token.
Proof.
  unfold throwIfInvalidContinuationToken, acceptableToken.
  destruct token as [| |b|n|s|props|elems props]; cbn [typeof String.eqb negb orb andb];
    try (split; [discriminate | intros [Hu | (s' & Hs & _)]; discriminate]).
  - split; [left; reflexivity | reflexivity].
  - change (String.eqb "string" "string") with true. cbn [andb].
    destruct (geZero (Number (JSStr s))) eqn:Hge; cbn [negb].
    + split; [right; exists s; split; [reflexivity | exact Hge] | reflexivity].
    + split; [discriminate|].
      intros [Hu | (s' & Hs & Hge')]; [discriminate|].
      injection Hs as <-. congruence.
Qed.

Lemma throwIfInvalidContinuationToken_rejects (token : JSValue) :
  throwsError (throwIfInvalidContinuationToken token) <-> ~ acceptableToken token.
Proof.
  rewrite <- throwIfInvalidContinuationToken_accepts.
  unfold throwIfInvalidContinuationToken, throwsError.
  destruct (negb _).
  - split; [intros _; discriminate | intros _; eexists; split; reflexivity].
  - split; [intros (e & He & _); discriminate | intros Hn; exfalso; apply Hn; reflexivity].
Qed.

End Validation.

(** C2.  [byPage] is a synchronous function with no access to the
    world, so whatever it does it does before any fetch.  It throws a
    usage error exactly when the continuation token is neither undefined
    nor a string whose numeric value is at least 0, and otherwise returns
    the page generator started at that token.  In particular "-1", "abc"
    and every truthy value that is not a string are refused; with the
    token undefined the first request of the generator carries no
    [$skip], so the listing starts at offset 0. *)
Theorem byPage_validates_continuation_token :
  forall (H : Host) (this : ServiceBusManagementClient) (l : Listing)
         (options : JSValue) (size : option JSNumber),
    let byPageFrom token :=
      byPage (getEntities l options)
        {| settingsContinuationToken := token; settingsMaxPageSize := size |} in
    let pageOptions := {| maxPageSize := size; operationOptions := options |} in
    (forall token, throwsError (byPageFrom token) <-> ~ acceptableToken token)
    /\ (forall token,
           byPageFrom token = Normal (listPage l token pageOptions)
           <-> acceptableToken token)
    /\ throwsError (byPageFrom (JSStr "-1"))
    /\ throwsError (byPageFrom (JSStr "abc"))
    /\ (forall token,
           typeof token <> "string" -> truthy token = true ->
           throwsError (byPageFrom token))
    /\ (forall w : World,
           byPageFrom JSUndefined = Normal (listPage l JSUndefined pageOptions)
           /\ snd (listPage_next this (listPage l JSUndefined pageOptions) w) =
              (w ++ [newWebResource
                       (getUrl this (resourcePath l) (topParams size)) "GET"])%list).
Proof.
  intros H this l options size byPageFrom pageOptions.
  assert (Hthrow : forall token,
             throwsError (byPageFrom token) <-> ~ acceptableToken token).
  { intros token. rewrite <- throwIfInvalidContinuationToken_rejects.
    unfold byPageFrom, throwsError; cbn [byPage getEntities settingsContinuationToken].
    destruct (throwIfInvalidContinuationToken token) as [[]|e]; cbn [bindC].
    - split; intros (e & He & _); discriminate.
    - split; intros (e' & He & Hn); injection He as <-;
        (eexists; split; [reflexivity | exact Hn]). }
  assert (Hok : forall token,
             byPageFrom token = Normal (listPage l token pageOptions)
             <-> acceptableToken token).
  { intros token. rewrite <- throwIfInvalidContinuationToken_accepts.
    unfold byPageFrom; cbn [byPage getEntities settingsContinuationToken
                              settingsMaxPageSize].
    destruct (throwIfInvalidContinuationToken token) as [[]|e]; cbn [bindC].
    - split; reflexivity.
    - split; discriminate. }
  split; [exact Hthrow|]. split; [exact Hok|].
  split.
  { apply Hthrow. intros [Hu | (s & Hs & Hge)]; [discriminate|].
    injection Hs as <-. vm_compute in Hge. discriminate. }
  split.
  { apply Hthrow. intros [Hu | (s & Hs & Hge)]; [discriminate|].
    injection Hs as <-. vm_compute in Hge. discriminate. }
  split.
  { intros token Hty Htr. apply Hthrow.
    intros [Hu | (s & Hs & _)]; subst token; [discriminate Htr|].
    apply Hty. reflexivity. }
  intros w. split; [apply Hok; left; reflexivity|].
  unfold listPage. cbn [listPage_next]. unfold fetchAndYield, bind.
  rewrite listEntities_run. unfold listRequest, windowParams, topParams.
  cbn [skip maxCount Number numTruthy maxPageSize app].
  destruct (service _ _ _ _) as [response|e]; cbn [bindC]; [|reflexivity].
  destruct (buildListResponse _ _ response); reflexivity.
Qed.

(** ** Running a page generator *)

Section PageRuns.

Context {H : Host}.
Variable this : ServiceBusManagementClient.

(** A loop that is still pending after [n] suspensions goes on from
    where it stands. *)
Lemma forAwait_further {A G : Type} (resume : G -> Async (Progress A * G)) :
  forall (n m : nat) (g g' : G) (w w' : World) (seen : list A),
    forAwait resume n g w = (seen, Pending g', w') ->
    forAwait resume (n + m) g w =
    let '(later, o, w'') := forAwait resume m g' w' in
    ((seen ++ later)%list, o, w'').
Proof.
  induction n as [|n IH]; intros m g g' w w' seen Hn.
  - cbn in Hn. injection Hn as <- <- <-. cbn [Nat.add app].
    destruct (forAwait resume m g w) as [[later o] w'']; reflexivity.
  - cbn [forAwait Nat.add] in *.
    destruct (resume g w) as [[[[a| |] g1]|e] w1]; try discriminate.
    + destruct (forAwait resume n g1 w1) as [[seen1 o1] w2] eqn:Hrun.
      injection Hn as <- -> <-.
      rewrite (IH m _ _ _ _ _ Hrun).
      destruct (forAwait resume m g' w2) as [[later o] w'']; reflexivity.
    + apply IH; assumption.
Qed.

(** A page yielded leaves the generator at its [yield], holding the
    token of that page. *)
Lemma listPage_next_value (g g' : PageGenerator) (w w' : World)
  (page : EntitiesResponse) :
  listPage_next this g w = (Normal (Value page, g'), w') ->
  exists l options,
    madeWith g = Some (l, options)
    /\ g' = PageYielded l (continuationToken page) options.
Proof.
  destruct g as [l marker options|l marker options|]; cbn [listPage_next madeWith].
  - unfold fetchAndYield, bind, ret.
    destruct (listEntities this l _ w) as [[r|e] w1]; [|discriminate].
    intros Hn; injection Hn as <- <- <-. exists l, options. split; reflexivity.
  - destruct (truthy marker); [|discriminate].
    unfold fetchAndYield, bind, ret.
    destruct (listEntities this l _ w) as [[r|e] w1]; [|discriminate].
    intros Hn; injection Hn as <- <- <-. exists l, options. split; reflexivity.
  - discriminate.
Qed.

(** While page mode is pending it has seen one page for each [next()],
    and the generator stands at the [yield] of the last page. *)
Lemma pageMode_pending :
  forall (k : nat) (g g1 : PageGenerator) (w w1 : World)
         (ps : list EntitiesResponse) (l : Listing) (options : PageOptions),
    pageMode this k g w = (ps, Pending g1, w1) ->
    madeWith g = Some (l, options) ->
    length ps = k
    /\ madeWith g1 = Some (l, options)
    /\ forall d, ps <> [] ->
         g1 = PageYielded l (continuationToken (last ps d)) options.
Proof.
  unfold pageMode.
  induction k as [|k IH]; intros g g1 w w1 ps l options Hrun Hmade.
  - cbn in Hrun. injection Hrun as <- <- <-.
    repeat split; [assumption | intros d Hne; contradiction].
  - cbn [forAwait] in Hrun. unfold asResume at 1, bind in Hrun.
    destruct (listPage_next this g w) as [[[[p|] g']|e] w'] eqn:Hnext;
      cbn in Hrun; try discriminate.
    destruct (listPage_next_value _ _ Hnext) as (l' & options' & Hm & Hg').
    rewrite Hmade in Hm. injection Hm as <- <-.
    destruct (forAwait (asResume (listPage_next this)) k g' w')
      as [[ps' o'] w''] eqn:Hrest.
    injection Hrun as <- -> <-.
    assert (Hmade' : madeWith g' = Some (l, options)) by (subst g'; reflexivity).
    destruct (IH _ _ _ _ _ _ _ Hrest Hmade') as (Hlen & Hm1 & Hlast).
    split; [cbn; congruence|]. split; [assumption|].
    intros d _. destruct ps' as [|p' ps'].
    + destruct k; [|discriminate Hlen].
      cbn in Hrest. injection Hrest as <- <-. exact Hg'.
    + change (last (p :: p' :: ps') d) with (last (p' :: ps') d).
      apply Hlast. discriminate.
Qed.

(** A deterministic service answers a page generator alike in every
    world. *)
Lemma listPage_next_deterministic :
  deterministic H ->
  forall (g : PageGenerator) (w1 w2 : World),
  exists r sent,
    listPage_next this g w1 = (r, (w1 ++ sent)%list)
    /\ listPage_next this g w2 = (r, (w2 ++ sent)%list).
Proof.
  intros Hdet g w1 w2.
  assert (Hfetch : forall l marker options,
             exists r sent,
               fetchAndYield this l marker options w1 = (r, (w1 ++ sent)%list)
               /\ fetchAndYield this l marker options w2 = (r, (w2 ++ sent)%list)).
  { intros l marker options. unfold fetchAndYield, bind.
    rewrite !listEntities_run. rewrite (Hdet w1 w2).
    destruct (bindC _ _) as [r|e]; eexists; eexists; split; reflexivity. }
  assert (Hidle : exists r sent,
             ret (A := IteratorResult EntitiesResponse * PageGenerator)
               (Done, PageReturned) w1 = (r, (w1 ++ sent)%list)
             /\ ret (Done, PageReturned) w2 = (r, (w2 ++ sent)%list)).
  { exists (Normal (Done, PageReturned)), []. unfold ret. rewrite !app_nil_r.
    split; reflexivity. }
  destruct g as [l marker options|l marker options|]; cbn [listPage_next];
    [apply Hfetch | destruct (truthy marker); [apply Hfetch | exact Hidle] | exact Hidle].
Qed.

Lemma pageMode_deterministic :
  deterministic H ->
  forall (n : nat) (g : PageGenerator) (w1 w2 : World),
  exists ps o sent,
    pageMode this n g w1 = (ps, o, (w1 ++ sent)%list)
    /\ pageMode this n g w2 = (ps, o, (w2 ++ sent)%list).
Proof.
  intros Hdet. unfold pageMode.
  induction n as [|n IH]; intros g w1 w2.
  - exists [], (Pending g), []. cbn. rewrite !app_nil_r. split; reflexivity.
  - cbn [forAwait].
    destruct (listPage_next_deterministic Hdet g w1 w2) as (r & sent & H1 & H2).
    assert (E1 : asResume (listPage_next this) g w1 =
                 asResume (fun _ => fun _ => (r, (w1 ++ sent)%list)) g w1)
      by (unfold asResume, bind; rewrite H1; reflexivity).
    assert (E2 : asResume (listPage_next this) g w2 =
                 asResume (fun _ => fun _ => (r, (w2 ++ sent)%list)) g w2)
      by (unfold asResume, bind; rewrite H2; reflexivity).
    rewrite E1, E2. unfold asResume at 1 3, bind.
    destruct r as [[[p|] g']|e]; cbn.
    + destruct (IH g' (w1 ++ sent)%list (w2 ++ sent)%list)
        as (ps & o & sent' & -> & ->).
      exists (p :: ps), o, (sent ++ sent')%list. rewrite !app_assoc.
      split; reflexivity.
    + exists [], Finished, sent. split; reflexivity.
    + exists [], (Failed e), sent. split; reflexivity.
Qed.

End PageRuns.

(** ** The requests of page mode *)

Section PageRequests.

Context {H : Host}.
Variable this : ServiceBusManagementClient.

(** A [next()] that fetches: the request sent, and what becomes of the
    answer. *)
Lemma listPage_next_fetch (g : PageGenerator) (l : Listing) (options : PageOptions)
  (marker : JSValue) (w : World) :
  madeWith g = Some (l, options) ->
  pendingMarker g = Some marker ->
  listPage_next this g w =
  (match listEntities this l
           {| skip := Number marker; maxCount := maxPageSize options; rest := options |} w
     with
     | (Normal page, _) =>
         Normal (Value page, PageYielded l (continuationToken page) options)
     | (Throw e, _) => Throw e
     end, (w ++ [fetchOf this l options marker])%list).
Proof.
  intros Hmade Hpending.
  assert (Hfetch : fetchAndYield this l marker options w =
    (match listEntities this l
             {| skip := Number marker; maxCount := maxPageSize options;
                rest := options |} w
       with
       | (Normal page, _) =>
           Normal (Value page, PageYielded l (continuationToken page) options)
       | (Throw e, _) => Throw e
       end, (w ++ [fetchOf this l options marker])%list)).
  { unfold fetchAndYield, bind, fetchOf. rewrite listEntities_run.
    destruct (bindC _ _); reflexivity. }
  destruct g as [l' m' o'|l' m' o'|]; cbn in Hmade, Hpending; try discriminate.
  - injection Hmade as -> ->. injection Hpending as ->. exact Hfetch.
  - injection Hmade as -> ->. cbn [listPage_next].
    destruct (truthy m'); [|discriminate]. injection Hpending as ->. exact Hfetch.
Qed.

(** A [next()] that does not fetch reports the end. *)
Lemma listPage_next_idle (g : PageGenerator) (w : World) :
  pendingMarker g = None ->
  listPage_next this g w = (Normal (Done, PageReturned), w).
Proof.
  destruct g as [l m o|l m o|]; cbn [pendingMarker listPage_next];
    [discriminate | destruct (truthy m); [discriminate | reflexivity] | reflexivity].
Qed.

Lemma pageMode_requests :
  forall (n : nat) (g : PageGenerator) (l : Listing) (options : PageOptions)
         (w w' : World) (ps : list EntitiesResponse) (o : Outcome PageGenerator),
    madeWith g = Some (l, options) ->
    pageMode this n g w = (ps, o, w') ->
    match pendingMarker g with
    | Some marker =>
        w' = (w ++ map (fetchOf this l options)
                     (firstn (length ps + failures o) (marker :: tokensOf ps)))%list
    | None => w' = w /\ ps = [] /\ failures o = 0%nat
    end.
Proof.
  unfold pageMode.
  induction n as [|n IH]; intros g l options w w' ps o Hmade Hrun.
  - cbn in Hrun. injection Hrun as <- <- <-.
    destruct (pendingMarker g); cbn; [rewrite app_nil_r; reflexivity | repeat split].
  - cbn [forAwait] in Hrun. unfold asResume at 1, bind in Hrun.
    destruct (pendingMarker g) as [marker|] eqn:Hpending.
    + rewrite (listPage_next_fetch g w Hmade Hpending) in Hrun.
      destruct (listEntities this l _ w) as [[page|e] w0]; cbn in Hrun.
      * destruct (forAwait (asResume (listPage_next this)) n
                    (PageYielded l (continuationToken page) options)
                    (w ++ [fetchOf this l options marker])%list)
          as [[ps' o'] w''] eqn:Hrest.
        injection Hrun as <- <- <-.
        specialize (IH (PageYielded l (continuationToken page) options)
                      l options _ _ _ _ eq_refl Hrest).
        cbn [pendingMarker] in IH. cbn [length Nat.add tokensOf map firstn].
        destruct (truthy (continuationToken page)).
        -- rewrite IH, <- app_assoc. reflexivity.
        -- destruct IH as (-> & -> & ->). reflexivity.
      * injection Hrun as <- <- <-. reflexivity.
    + rewrite (listPage_next_idle g w Hpending) in Hrun. cbn in Hrun.
      injection Hrun as <- <- <-. repeat split.
Qed.

(** In a run of page mode every page but the last has a truthy token;
    the run has finished only after a page with a falsy one, and failed
    only after pages with truthy ones. *)
Lemma pageMode_tokens :
  forall (n : nat) (g : PageGenerator) (w w' : World)
         (ps : list EntitiesResponse) (o : Outcome PageGenerator),
    pageMode this n g w = (ps, o, w') ->
    Forall (fun t => truthy t = true) (removelast (tokensOf ps))
    /\ (o = Finished -> pendingMarker g <> None ->
        exists earlier page,
          ps = (earlier ++ [page])%list /\ truthy (continuationToken page) = false)
    /\ (forall e, o = Failed e -> Forall (fun t => truthy t = true) (tokensOf ps)).
Proof.
  unfold pageMode.
  induction n as [|n IH]; intros g w w' ps o Hrun.
  - cbn in Hrun. injection Hrun as <- <- <-.
    repeat split; try constructor; discriminate.
  - cbn [forAwait] in Hrun. unfold asResume at 1, bind in Hrun.
    destruct (listPage_next this g w) as [[[[page|] g']|e] w0] eqn:Hnext; cbn in Hrun.
    + destruct (forAwait (asResume (listPage_next this)) n g' w0)
        as [[ps' o'] w''] eqn:Hrest.
      injection Hrun as <- <- <-.
      destruct (listPage_next_value _ _ _ Hnext) as (l & options & _ & ->).
      destruct (IH _ _ _ _ _ Hrest) as (Hinner & Hfinished & Hfailed).
      destruct (truthy (continuationToken page)) eqn:Htoken.
      * split; [|split].
        -- cbn [tokensOf map]. destruct ps' as [|p' ps']; [constructor|].
           change (removelast (continuationToken page :: tokensOf (p' :: ps')))
             with (continuationToken page :: removelast (tokensOf (p' :: ps'))).
           constructor; assumption.
        -- intros Ho _.
           destruct (Hfinished Ho) as (earlier & last & -> & Hlast);
             [cbn; rewrite Htoken; discriminate|].
           exists (page :: earlier), last. split; [reflexivity | exact Hlast].
        -- intros e He. cbn [tokensOf map]. constructor; [exact Htoken|].
           exact (Hfailed e He).
      * destruct n as [|n].
        -- cbn in Hrest. injection Hrest as <- <- <-.
           repeat split; try constructor; discriminate.
        -- cbn [forAwait] in Hrest. unfold asResume at 1, bind in Hrest.
           rewrite listPage_next_idle in Hrest by (cbn; rewrite Htoken; reflexivity).
           cbn in Hrest. injection Hrest as <- <- <-.
           split; [constructor|]. split; [|discriminate].
           intros _ _. exists [], page. split; [reflexivity | exact Htoken].
    + injection Hrun as <- <- <-. split; [constructor|]. split; [|discriminate].
      intros _ Hpending. exfalso. apply Hpending.
      destruct g as [l m o|l m o|]; cbn [listPage_next pendingMarker] in *.
      * unfold fetchAndYield, bind in Hnext.
        destruct (listEntities this l _ w) as [[r|e] w1]; discriminate.
      * destruct (truthy m); [|reflexivity].
        unfold fetchAndYield, bind in Hnext.
        destruct (listEntities this l _ w) as [[r|e] w1]; discriminate.
      * reflexivity.
    + injection Hrun as <- <- <-. repeat split; try constructor; discriminate.
Qed.

End PageRequests.

(** ** The end of the iteration *)

Section LastPage.

Context {H : Host}.


End LastPage.



(** C4.  Let an uninterrupted page-mode run of [byPage(settings)] have
    consumed some pages, the last of them carrying a continuation token
    that is truthy and that [byPage] accepts (a string whose numeric
    value is at least 0).  Against a deterministic service, [byPage]
    started from that token with the same page size yields, for every
    number of further [next()] calls, exactly the pages the uninterrupted
    run yields after the consumed ones, and ends the same way.  Both
    send the same requests from there on: the first asks for the window
    at the token captured, each later one for the window at the token of
    the page before it.  So what is left out is what lies before the
    token, and nothing else. *)
Theorem resuming_byPage_yields_the_remaining_pages :
  forall (H : Host) (this : ServiceBusManagementClient) (l : Listing)
         (options : JSValue) (settings : PageSettings)
         (g0 g1 : PageGenerator) (k : nat) (w0 w1 : World)
         (earlier : list EntitiesResponse) (page : EntitiesResponse),
    deterministic H ->
    byPage (getEntities l options) settings = Normal g0 ->
    pageMode this k g0 w0 = ((earlier ++ [page])%list, Pending g1, w1) ->
    truthy (continuationToken page) = true ->
    acceptableToken (continuationToken page) ->
    exists g2 : PageGenerator,
      byPage (getEntities l options)
        {| settingsContinuationToken := continuationToken page;
           settingsMaxPageSize := settingsMaxPageSize settings |} = Normal g2
      /\ forall (m : nat) (w2 : World),
         exists (remaining : list EntitiesResponse) (o : Outcome PageGenerator)
                (sent : World),
           pageMode this (k + S m) g0 w0 =
           (((earlier ++ [page]) ++ remaining)%list, o, (w1 ++ sent)%list)
           /\ pageMode this (S m) g2 w2 = (remaining, o, (w2 ++ sent)%list)
           /\ sent =
              map (fetchOf this l
                     {| maxPageSize := settingsMaxPageSize settings;
                        operationOptions := options |})
                (firstn (length remaining + failures o)
                   (continuationToken page :: tokensOf remaining)).
Proof.
  intros H this l options settings g0 g1 k w0 w1 earlier page
         Hdet Hby Hrun Htruthy Haccept.
  pose (pageOptions := {| maxPageSize := settingsMaxPageSize settings;
                          operationOptions := options |}).
  assert (Hg0 : madeWith g0 = Some (l, pageOptions)).
  { cbn [byPage getEntities] in Hby.
    destruct (throwIfInvalidContinuationToken _) as [[]|e]; [|discriminate].
    cbn [bindC] in Hby. injection Hby as <-. reflexivity. }
  destruct (pageMode_pending _ _ _ _ Hrun Hg0) as (_ & _ & Hlast).
  assert (Hg1 : g1 = PageYielded l (continuationToken page) pageOptions).
  { rewrite (Hlast page); [rewrite last_last; reflexivity|].
    destruct earlier; discriminate. }
  exists (listPage l (continuationToken page) pageOptions). split.
  { cbn [byPage getEntities settingsContinuationToken settingsMaxPageSize].
    apply throwIfInvalidContinuationToken_accepts in Haccept.
    rewrite Haccept. reflexivity. }
  intros m w2.
  destruct (pageMode_deterministic this Hdet (S m) g1 w1 w2)
    as (remaining & o & sent & Hfrom1 & Hfrom2).
  assert (Hresumed : pageMode this (S m) (listPage l (continuationToken page) pageOptions)
                       w2 = (remaining, o, (w2 ++ sent)%list)).
  { rewrite <- Hfrom2. subst g1. unfold pageMode, listPage. cbn [forAwait].
    assert (E : asResume (listPage_next this)
                  (PageStart l (continuationToken page) pageOptions) w2 =
                asResume (listPage_next this)
                  (PageYielded l (continuationToken page) pageOptions) w2)
      by (unfold asResume, bind; cbn [listPage_next]; rewrite Htruthy; reflexivity).
    rewrite E. reflexivity. }
  exists remaining, o, sent. split; [|split].
  - unfold pageMode in *. rewrite (forAwait_further _ _ (S m) _ _ Hrun).
    rewrite Hfrom1. reflexivity.
  - exact Hresumed.
  - pose proof (@pageMode_requests H this (S m)
                  (listPage l (continuationToken page) pageOptions) l pageOptions
                  w2 (w2 ++ sent)%list remaining o eq_refl Hresumed) as Hsent.
    cbn [listPage pendingMarker] in Hsent.
    exact (app_inv_head _ _ _ Hsent).
Qed.

(** C4 at work: the five queues served two at a time.  The run is
    resumed from the token "2" of the first page, which held A and B:
    it yields C and D, then E, and ends, as the uninterrupted run does
    after its first page, with one request for the window at 2 and one
    for the window at 4. *)
Lemma resuming_byPage_yields_the_remaining_pages_witness :
  exists (page : EntitiesResponse) (g2 : PageGenerator)
         (remaining : list EntitiesResponse) (w1 sent : World),
    continuationToken page = JSStr "2"
    /\ entities page = [InMemory.named "A"; InMemory.named "B"]
    /\ byPage (getQueues (H := InMemory.fiveHost 2) JSUndefined)
         {| settingsContinuationToken := JSStr "2"; settingsMaxPageSize := None |}
       = Normal g2
    /\ pageMode (H := InMemory.fiveHost 2) InMemory.client (1 + 3)
         (listPage Queues JSUndefined
            {| maxPageSize := None; operationOptions := JSUndefined |}) [] =
       ((([] ++ [page]) ++ remaining)%list, Finished, (w1 ++ sent)%list)
    /\ pageMode (H := InMemory.fiveHost 2) InMemory.client 3 g2 [] =
       (remaining, Finished, ([] ++ sent)%list)
    /\ map entities remaining =
       [[InMemory.named "C"; InMemory.named "D"]; [InMemory.named "E"]]
    /\ map (fun rq => query (url rq)) sent =
       [[("api-version", "2017-04"); ("$skip", "2")];
        [("api-version", "2017-04"); ("$skip", "4")]].
Proof.
  assert (Hdet : deterministic (InMemory.fiveHost 2))
    by (intros w1 w2 rq sz o; reflexivity).
  assert (Hby : byPage (getEntities (H := InMemory.fiveHost 2) Queues JSUndefined)
                  noSettings =
                Normal (listPage Queues JSUndefined
                          {| maxPageSize := None; operationOptions := JSUndefined |}))
    by reflexivity.
  assert (Hrun : exists page g1 w1,
    pageMode (H := InMemory.fiveHost 2) InMemory.client 1
      (listPage Queues JSUndefined
         {| maxPageSize := None; operationOptions := JSUndefined |}) [] =
    (([] ++ [page])%list, Pending g1, w1)
    /\ continuationToken page = JSStr "2"
    /\ entities page = [InMemory.named "A"; InMemory.named "B"])
    by (do 3 eexists; vm_compute; repeat split; reflexivity).
  destruct Hrun as (page & g1 & w1 & Hrun & Htoken & Helements).
  assert (Htruthy : truthy (continuationToken page) = true)
    by (rewrite Htoken; reflexivity).
  assert (Haccept : acceptableToken (continuationToken page))
    by (rewrite Htoken; right; exists "2"; split; reflexivity).
  destruct (@resuming_byPage_yields_the_remaining_pages
              _ InMemory.client _ _ _ _ _ _ _ _ _ _ Hdet Hby Hrun Htruthy Haccept)
    as (g2 & Hg2 & Hrest).
  rewrite Htoken in Hg2.
  destruct (Hrest 2%nat []) as (remaining & o & sent & Hwhole & Hresumed & Hsent).
  assert (Hg2' : g2 = listPage Queues (JSStr "2")
                        {| maxPageSize := None; operationOptions := JSUndefined |})
    by (vm_compute in Hg2; injection Hg2 as <-; reflexivity).
  assert (Hconcrete : exists p1 p2 rq1 rq2,
    pageMode (H := InMemory.fiveHost 2) InMemory.client 3
      (listPage Queues (JSStr "2")
         {| maxPageSize := None; operationOptions := JSUndefined |}) [] =
    ([p1; p2], Finished, [rq1; rq2])
    /\ entities p1 = [InMemory.named "C"; InMemory.named "D"]
    /\ entities p2 = [InMemory.named "E"]
    /\ query (url rq1) = [("api-version", "2017-04"); ("$skip", "2")]
    /\ query (url rq2) = [("api-version", "2017-04"); ("$skip", "4")])
    by (do 4 eexists; vm_compute; repeat split; reflexivity).
  destruct Hconcrete as (p1 & p2 & rq1 & rq2 & Hc & He1 & He2 & Hq1 & Hq2).
  rewrite Hg2', Hc in Hresumed. cbn [app] in Hresumed.
  injection Hresumed as Hremaining Ho Hsent'.
  subst remaining o sent.
  exists page, g2, [p1; p2], w1, [rq1; rq2].
  split; [exact Htoken|]. split; [exact Helements|]. split; [exact Hg2|].
  split; [exact Hwhole|]. split; [rewrite Hg2'; exact Hc|].
  split.
  - cbn [map]. rewrite He1, He2. reflexivity.
  - cbn [map]. rewrite Hq1, Hq2. reflexivity.
Defined.

(** C4 (as stated) fails for a token that [byPage] does not accept.
    A deterministic service writes the skip "abc" into its next link.
    The uninterrupted run holds the token "abc" after its first page and
    goes on to a second page; [byPage] started from that token throws
    and yields nothing. *)
Lemma captured_token_may_be_refused :
  let H := InMemory.answering
             (JSArray [InMemory.named "A"]
                [("nextLink",
                  JSStr "https://ns.servicebus.windows.net/$Resources/Queues?api-version=2017-04&$skip=abc")]) in
  deterministic H
  /\ exists (page next : EntitiesResponse) (g : PageGenerator) (w : World),
       byPage (getQueues (H := H) JSUndefined) noSettings =
       Normal (listPage Queues JSUndefined
                 {| maxPageSize := None; operationOptions := JSUndefined |})
       /\ pageMode (H := H) InMemory.client 2
            (listPage Queues JSUndefined
               {| maxPageSize := None; operationOptions := JSUndefined |}) [] =
          ([page; next], Pending g, w)
       /\ continuationToken page = JSStr "abc"
       /\ truthy (continuationToken page) = true
       /\ entities next = [InMemory.named "A"]
       /\ throwsError
            (byPage (getQueues (H := H) JSUndefined)
               {| settingsContinuationToken := continuationToken page;
                  settingsMaxPageSize := None |}).
Proof.
  intros H. split; [intros w1 w2 rq sz o; reflexivity|].
  do 4 eexists. split; [reflexivity|].
  split; [vm_compute; reflexivity|].
  split; [reflexivity|]. split; [reflexivity|]. split; [reflexivity|].
  eexists. split; [vm_compute; reflexivity | reflexivity].
Qed.

(** ** Decoding a listing *)

Section DecodingFacts.

Context {H : Host}.
Variable decode : JSValue -> Completion JSValue.
Variable noun : string.

(** Whatever goes wrong in a list builder, what it throws is the parse
    error. *)
Lemma buildListResponse_throw (response : HttpOperationResponse) (e : JSError) :
  buildListResponse decode noun response = Throw e ->
  e = listParseError noun response.
Proof.
  unfold buildListResponse, listParseError.
  destruct (bindC _ _); cbn [tryCatch]; [discriminate|].
  intros He; injection He as <-. reflexivity.
Qed.

Lemma buildListResponse_non_array (response : HttpOperationResponse) :
  isArray (parsedBody response) = false ->
  buildListResponse decode noun response = Throw (listParseError noun response).
Proof.
  intros Hshape.
  destruct (buildListResponse decode noun response) as [page|e] eqn:Hb.
  - exfalso. unfold buildListResponse in Hb.
    destruct (parsedBody response); try discriminate Hshape;
      cbn [getProp bindC] in Hb;
      try destruct (getMarkerFromNextLinkUrl _); cbn [bindC tryCatch] in Hb;
      discriminate Hb.
  - rewrite (buildListResponse_throw _ Hb). reflexivity.
Qed.

(** The decoding loop appends, in order, the truthy results. *)
Lemma decodeEach_results (raw decoded : list JSValue) :
  Forall2 (fun r d => decode r = Normal d) raw decoded ->
  forall acc, decodeEach decode raw acc = Normal (acc ++ filter truthy decoded)%list.
Proof.
  induction 1 as [|r d raw decoded Hd _ IH]; intros acc; cbn [decodeEach filter].
  - rewrite app_nil_r. reflexivity.
  - rewrite Hd. cbn [bindC]. rewrite IH.
    destruct (truthy d); [rewrite <- app_assoc|]; reflexivity.
Qed.

(** The loop throws exactly when the decoder throws on some record. *)
Lemma decodeEach_throws (raw : list JSValue) :
  forall acc,
    (exists e, decodeEach decode raw acc = Throw e)
    <-> Exists (fun r => exists e, decode r = Throw e) raw.
Proof.
  induction raw as [|r raw IH]; intros acc; cbn [decodeEach].
  - split; [intros (e & He); discriminate | intros Hex; inversion Hex].
  - destruct (decode r) as [d|e] eqn:Hd; cbn [bindC].
    + rewrite IH. split.
      * intros Hex. apply Exists_cons_tl. exact Hex.
      * intros Hex. inversion Hex as [? ? (e & He)|]; subst; [congruence|assumption].
    + split; [|intros _; exists e; reflexivity].
      intros _. apply Exists_cons_hd. exists e. exact Hd.
Qed.

(** When no record makes the decoder throw, every record has a result. *)
Lemma decodeEach_total (raw : list JSValue) :
  ~ Exists (fun r => exists e, decode r = Throw e) raw ->
  exists decoded, Forall2 (fun r d => decode r = Normal d) raw decoded.
Proof.
  induction raw as [|r raw IH]; intros Hnone.
  - exists []. constructor.
  - destruct (decode r) as [d|e] eqn:Hd.
    + destruct IH as (decoded & Hall).
      { intros Hex. apply Hnone. apply Exists_cons_tl. exact Hex. }
      exists (d :: decoded). constructor; assumption.
    + exfalso. apply Hnone. apply Exists_cons_hd. exists e. exact Hd.
Qed.

(** A list builder on an array. *)
Lemma buildListResponse_array (response : HttpOperationResponse)
  (raw : list JSValue) (props : list (string * JSValue)) :
  parsedBody response = JSArray raw props ->
  buildListResponse decode noun response =
  tryCatch
    (let! nextMarker := getMarkerFromNextLinkUrl (lookup "nextLink" props) in
     let! decoded := decodeEach decode raw [] in
     Normal {| entities := decoded; _response := response;
               continuationToken := nextMarker |})
    (fun _ => Throw (listParseError noun response)).
Proof.
  intros Hbody. unfold buildListResponse. rewrite Hbody. reflexivity.
Qed.

End DecodingFacts.

(** C6.  When the service answers a listing with a parsed body that is
    not an array, the listing throws a [RestError] whose code is
    [PARSE_ERROR], whose status is the status of the response, and which
    carries the stripped request and the stripped response. *)
Theorem listing_of_non_array_body_is_parse_error :
  forall (H : Host) (this : ServiceBusManagementClient) (l : Listing)
         (o : ListRequestOptions) (w : World) (response : HttpOperationResponse),
    service w (listRequest this l o) (serializerOf l) (ForList o) = Normal response ->
    isArray (parsedBody response) = false ->
    exists e : JSError,
      listEntities this l o w = (Throw e, (w ++ [listRequest this l o])%list)
      /\ buildListResponse (decoderOf l) (nounOf l) response = Throw e
      /\ name e = "RestError"
      /\ code e = Some PARSE_ERROR
      /\ statusCode e = Some (status response)
      /\ errRequest e = Some (stripRequest (request response))
      /\ errResponse e = Some (stripResponse response).
Proof.
  intros H this l o w response Hanswer Hshape.
  exists (listParseError (nounOf l) response).
  rewrite listEntities_run, Hanswer. cbn [bindC].
  rewrite (buildListResponse_non_array _ _ _ Hshape).
  repeat split; reflexivity.
Qed.

(** C6 at work: a service that answers with an object. *)
Lemma listing_of_non_array_body_is_parse_error_witness :
  exists e : JSError,
    fst (listQueues (H := InMemory.answering (JSObject [])) InMemory.client
           {| skip := NaN; maxCount := None;
              rest := {| maxPageSize := None; operationOptions := JSUndefined |} |}
           []) = Throw e
    /\ code e = Some "PARSE_ERROR"
    /\ statusCode e = Some 200.
Proof.
  destruct (@listing_of_non_array_body_is_parse_error
              (InMemory.answering (JSObject [])) InMemory.client Queues
              {| skip := NaN; maxCount := None;
                 rest := {| maxPageSize := None; operationOptions := JSUndefined |} |}
              [] _ eq_refl eq_refl)
    as (e & Hlist & _ & _ & Hcode & Hstatus & _).
  exists e. split; [|split].
  - change (fst (listEntities (H := InMemory.answering (JSObject []))
                  InMemory.client Queues
                  {| skip := NaN; maxCount := None;
                     rest := {| maxPageSize := None;
                                operationOptions := JSUndefined |} |} []) = Throw e).
    rewrite Hlist. reflexivity.
  - exact Hcode.
  - exact Hstatus.
Defined.

(** ** Empty answers *)

Section EmptyAnswers.

Context {H : Host}.
Variable this : ServiceBusManagementClient.



End EmptyAnswers.



(** C7 (as amended).  On an array body whose next link can be read, a
    list builder returns, in their original order, the results of the
    decoder that are truthy: a record for which the decoder gives no
    entity is dropped and never fails the page.  The builder fails, with
    the parse error, exactly when the body is not an array, or the next
    link cannot be parsed, or the decoder itself throws on a record. *)
Theorem undecoded_records_are_dropped :
  forall (H : Host) (decode : JSValue -> Completion JSValue) (noun : string)
         (response : HttpOperationResponse),
    (forall raw props marker decoded,
        parsedBody response = JSArray raw props ->
        getMarkerFromNextLinkUrl (lookup "nextLink" props) = Normal marker ->
        Forall2 (fun r d => decode r = Normal d) raw decoded ->
        buildListResponse decode noun response =
        Normal {| entities := filter truthy decoded; _response := response;
                  continuationToken := marker |})
    /\ ((exists e, buildListResponse decode noun response = Throw e)
        <-> match parsedBody response with
            | JSArray raw props =>
                (exists e, getMarkerFromNextLinkUrl (lookup "nextLink" props) = Throw e)
                \/ Exists (fun r => exists e, decode r = Throw e) raw
            | _ => True
            end).
Proof.
  intros H decode noun response. split.
  - intros raw props marker decoded Hbody Hmarker Hall.
    rewrite (buildListResponse_array _ _ _ Hbody), Hmarker. cbn [bindC].
    rewrite (decodeEach_results decode Hall). reflexivity.
  - destruct (parsedBody response) as [| |b|n|s|ps|raw props] eqn:Hbody;
      try (split; [intros _; exact I | intros _; eexists;
                   apply buildListResponse_non_array; rewrite Hbody; reflexivity]).
    rewrite (buildListResponse_array _ _ _ Hbody).
    destruct (getMarkerFromNextLinkUrl (lookup "nextLink" props)) as [marker|e];
      cbn [bindC].
    + rewrite <- (decodeEach_throws decode raw []).
      destruct (decodeEach decode raw []) as [decoded|e]; cbn [bindC tryCatch].
      * split; [intros (e & He); discriminate|].
        intros [(e & He) | (e & He)]; discriminate.
      * split; [intros _; right; exists e; reflexivity | intros _; eexists; reflexivity].
    + cbn [tryCatch]. split; [intros _; left; exists e; reflexivity|].
      intros _; eexists; reflexivity.
Qed.

(** C7 at work: of three records the second has no name and is
    dropped. *)
Lemma undecoded_records_are_dropped_witness :
  buildListQueuesResponse (H := InMemory.fiveHost 100)
    (InMemory.listed
       (JSArray [InMemory.named "A"; JSObject []; InMemory.named "B"] []))
  = Normal
      {| entities := [InMemory.named "A"; InMemory.named "B"];
         _response :=
           InMemory.listed
             (JSArray [InMemory.named "A"; JSObject []; InMemory.named "B"] []);
         continuationToken := JSUndefined |}.
Proof.
  apply (proj1 (@undecoded_records_are_dropped (InMemory.fiveHost 100)
                  InMemory.decode "queues"
                  (InMemory.listed
                     (JSArray [InMemory.named "A"; JSObject []; InMemory.named "B"] [])))
           [InMemory.named "A"; JSObject []; InMemory.named "B"] []
           JSUndefined [InMemory.named "A"; JSUndefined; InMemory.named "B"]
           eq_refl eq_refl).
  repeat constructor.
Defined.

(** C7 (as stated) fails: a page can fail though its body is an array
    and the decoder gives an entity for every record.  Here the next
    link is not a URL. *)
Lemma unparseable_next_link_fails_the_page :
  isArray (JSArray [InMemory.named "A"] [("nextLink", JSStr "next")]) = true
  /\ buildQueue (Host := InMemory.fiveHost 100) (InMemory.named "A") =
     Normal (InMemory.named "A")
  /\ buildListQueuesResponse (H := InMemory.fiveHost 100)
       (InMemory.listed (JSArray [InMemory.named "A"] [("nextLink", JSStr "next")])) =
     Throw (listParseError (H := InMemory.fiveHost 100) "queues"
              (InMemory.listed
                 (JSArray [InMemory.named "A"] [("nextLink", JSStr "next")]))).
Proof.
  repeat split.
Qed.

(** ** The continuation token of a page *)

Lemma searchParamsGet_cases (k : string) (l : list (string * string)) :
  searchParamsGet k l = JSNull
  \/ exists v, In (k, v) l /\ searchParamsGet k l = JSStr v.
Proof.
  induction l as [|[k' v'] l IH]; cbn [searchParamsGet].
  - left; reflexivity.
  - destruct (String.eqb k k') eqn:Hk.
    + apply String.eqb_eq in Hk. subst k'. right. exists v'.
      split; [left; reflexivity | reflexivity].
    + destruct IH as [Hn | (v & Hin & Hv)]; [left; assumption|].
      right. exists v. split; [right; assumption | assumption].
Qed.

(** C8 (as amended).  The continuation token of a page a list builder
    returns is undefined when the response has no next link, and
    otherwise what [searchParams.get] gives for the skip parameter of the
    parsed next link: the value of the first such parameter, as it is
    written, or null when the link has none.  The value is not
    checked. *)
Theorem continuation_token_is_the_skip_parameter :
  forall (H : Host) (decode : JSValue -> Completion JSValue) (noun : string)
         (response : HttpOperationResponse) (page : EntitiesResponse),
    buildListResponse decode noun response = Normal page ->
    exists raw props,
      parsedBody response = JSArray raw props
      /\ (truthy (lookup "nextLink" props) = false ->
          continuationToken page = JSUndefined)
      /\ (truthy (lookup "nextLink" props) = true ->
          exists searchParams,
            parseURL (lookup "nextLink" props) = Normal searchParams
            /\ continuationToken page =
               searchParamsGet (XML_METADATA_MARKER ++ "skip") searchParams
            /\ (continuationToken page = JSNull
                \/ exists v, In (XML_METADATA_MARKER ++ "skip", v) searchParams
                             /\ continuationToken page = JSStr v)).
Proof.
  intros H decode noun response page Hb.
  destruct (parsedBody response) as [| |b|n|s|ps|raw props] eqn:Hbody;
    try (rewrite buildListResponse_non_array in Hb;
         [discriminate | rewrite Hbody; reflexivity]).
  exists raw, props. split; [reflexivity|].
  rewrite (buildListResponse_array _ _ _ Hbody) in Hb.
  unfold getMarkerFromNextLinkUrl in Hb.
  destruct (truthy (lookup "nextLink" props)); cbn [negb] in Hb.
  - split; [discriminate|]. intros _.
    destruct (parseURL (lookup "nextLink" props)) as [searchParams|e];
      cbn [bindC tryCatch] in Hb; [|discriminate].
    destruct (decodeEach decode raw []); cbn [bindC tryCatch] in Hb; [|discriminate].
    injection Hb as <-. cbn [continuationToken].
    exists searchParams. split; [reflexivity|]. split; [reflexivity|].
    apply searchParamsGet_cases.
  - split; [|discriminate]. intros _. cbn [bindC] in Hb.
    destruct (decodeEach decode raw []); cbn [bindC tryCatch] in Hb; [|discriminate].
    injection Hb as <-. reflexivity.
Qed.

(** C8 at work: the next link of a window of two. *)
Lemma continuation_token_is_the_skip_parameter_witness :
  exists page,
    buildListQueuesResponse (H := InMemory.fiveHost 2)
      (InMemory.listed
         (JSArray [InMemory.named "A"; InMemory.named "B"]
            [("nextLink",
              JSStr "https://ns.servicebus.windows.net/$Resources/Queues?api-version=2017-04&$skip=2&$top=2")]))
    = Normal page
    /\ continuationToken page = JSStr "2"
    /\ exists raw props,
        JSArray [InMemory.named "A"; InMemory.named "B"]
          [("nextLink",
            JSStr "https://ns.servicebus.windows.net/$Resources/Queues?api-version=2017-04&$skip=2&$top=2")]
        = JSArray raw props.
Proof.
  eexists.
  assert (Hb :
    buildListResponse (H := InMemory.fiveHost 2) InMemory.decode "queues"
      (InMemory.listed
         (JSArray [InMemory.named "A"; InMemory.named "B"]
            [("nextLink",
              JSStr "https://ns.servicebus.windows.net/$Resources/Queues?api-version=2017-04&$skip=2&$top=2")]))
    = Normal _) by (vm_compute; reflexivity).
  split; [exact Hb|]. split; [reflexivity|].
  destruct (@continuation_token_is_the_skip_parameter _ _ _ _ _ Hb)
    as (raw & props & Hbody & _).
  exists raw, props. exact Hbody.
Defined.

(** C8 (as stated) fails: the token is whatever the next link holds.
    Here its skip parameter is "abc", the token is "abc", its numeric
    value is NaN, and [byPage] would refuse it. *)
Lemma continuation_token_need_not_be_a_number :
  exists page,
    buildListQueuesResponse (H := InMemory.fiveHost 2)
      (InMemory.listed
         (JSArray [InMemory.named "A"; InMemory.named "B"]
            [("nextLink",
              JSStr "https://ns.servicebus.windows.net/$Resources/Queues?api-version=2017-04&$skip=abc")]))
    = Normal page
    /\ continuationToken page = JSStr "abc"
    /\ Number (continuationToken page) = NaN
    /\ ~ acceptableToken (continuationToken page).
Proof.
  eexists. split; [vm_compute; reflexivity|].
  split; [reflexivity|]. split; [reflexivity|].
  intros [Hu | (s & Hs & Hge)]; [discriminate|].
  cbn [continuationToken] in Hs. injection Hs as <-.
  vm_compute in Hge. discriminate.
Qed.

(** ** Probing for an entity *)

Lemma codeIs_true (c : string) (e : JSError) :
  codeIs c e = true <-> code e = Some c.
Proof.
  unfold codeIs. destruct (code e) as [c'|].
  - rewrite String.eqb_eq. split; [intros ->; reflexivity | intros Hc; congruence].
  - split; discriminate.
Qed.

Lemma existsAfter_probes (get : Async EntityResponse) : probes (existsAfter get) get.
Proof.
  intros w w'. unfold existsAfter, bind, asyncTryCatch, ret, throw.
  destruct (get w) as [[r|e] w1].
  - split; [|split].
    + split; [discriminate | intros (e & He & _); discriminate].
    + split; [intros Hp; injection Hp as <-; exists r; reflexivity|].
      intros (r' & Hr); injection Hr as <- <-; reflexivity.
    + intros e. split; [discriminate | intros (He & _); discriminate].
  - destruct (codeIs "MessageEntityNotFoundError" e) eqn:Hcode.
    + apply codeIs_true in Hcode. split; [|split].
      * split; [intros Hp; injection Hp as <-; exists e; split; [reflexivity|assumption]|].
        intros (e' & He & _); injection He as <- <-; reflexivity.
      * split; [discriminate | intros (r & Hr); discriminate].
      * intros e'. split; [discriminate|].
        intros (He & Hne); injection He as <- <-. contradiction.
    + assert (Hne : code e <> Some "MessageEntityNotFoundError").
      { intros Hc. apply codeIs_true in Hc. congruence. }
      split; [|split].
      * split; [discriminate|].
        intros (e' & He & Hc); injection He as <- <-. contradiction.
      * split; [discriminate | intros (r & Hr); discriminate].
      * intros e'. split.
        -- intros Hp; injection Hp as <- <-. split; [reflexivity | assumption].
        -- intros (He & _); injection He as <- <-. reflexivity.
Qed.

(** C9.  [queueExists], [topicExists] and [subscriptionExists] return
    [false] exactly when their get throws an error whose code is
    "MessageEntityNotFoundError", [true] exactly when the get succeeds,
    and throw exactly the error the get throws when its code is another
    one. *)
Theorem exists_methods_probe_their_get :
  forall (H : Host) (this : ServiceBusManagementClient) (operationOptions : JSValue),
    (forall queueName,
        probes (queueExists this queueName operationOptions)
               (getQueue this queueName operationOptions))
    /\ (forall topicName,
           probes (topicExists this topicName operationOptions)
                  (getTopic this topicName operationOptions))
    /\ (forall topicName subscriptionName,
           probes (subscriptionExists this topicName subscriptionName operationOptions)
                  (getSubscription this topicName subscriptionName operationOptions)).
Proof.
  intros H this operationOptions.
  split; [|split]; intros; apply existsAfter_probes.
Qed.

(** ** Validating the argument of an update *)

Section UpdateFacts.

Context {H : Host}.

Lemma getProp_throw (v : JSValue) (k : string) (e : JSError) :
  getProp v k = Throw e -> name e = "TypeError".
Proof.
  destruct v; cbn [getProp]; intros He; try discriminate;
    injection He as <-; reflexivity.
Qed.

(** A value one property of which can be read lets any be read. *)
Lemma getProp_normal (v : JSValue) (k k' : string) (x : JSValue) :
  getProp v k = Normal x -> exists x', getProp v k' = Normal x'.
Proof.
  destruct v; cbn [getProp]; intros Hx; try discriminate; eexists; reflexivity.
Qed.

Ltac reject :=
  eexists; split; [reflexivity | reflexivity].

(** The shape shared by the validations of [updateQueue],
    [updateTopic] and [updateRule]: the log line reads the name, the
    first test refuses what is not a JSON-like object, the second a
    missing name. *)
Lemma named_argument_rejected {A : Type} (v : JSValue) (refused : bool)
  (msg1 msg2 : string) (k : JSValue -> Async A) :
  (isJSONLikeObject v = false -> refused = true) ->
  isJSONLikeObject v = false \/ lacks v "name" ->
  rejectsUnsent
    (await! _ := lift (getProp v "name") in
     if refused then throw (TypeError msg1)
     else
       await! entityName := lift (getProp v "name") in
       if negb (truthy entityName) then throw (TypeError msg2)
       else k entityName).
Proof.
  intros Hrefused Hbad w. unfold bind, lift, throw.
  destruct (getProp v "name") as [x|e] eqn:Hname.
  - destruct refused; [reject|].
    destruct Hbad as [Hjson | Hlacks]; [apply Hrefused in Hjson; discriminate|].
    rewrite (Hlacks x Hname). reject.
  - exists e. split; [reflexivity | exact (getProp_throw _ _ Hname)].
Qed.

End UpdateFacts.

(** C10.  Each update method validates its description before it
    sends anything: when the argument is not a JSON-like object, or its
    name ([topicName] or [subscriptionName] for a subscription) is
    missing, the call throws a TypeError and the world is left as it
    was. *)
Theorem updates_validate_before_sending :
  forall (H : Host) (this : ServiceBusManagementClient) (operationOptions : JSValue),
    (forall queue,
        isJSONLikeObject queue = false \/ lacks queue "name" ->
        rejectsUnsent (updateQueue this queue operationOptions))
    /\ (forall topic,
           isJSONLikeObject topic = false \/ lacks topic "name" ->
           rejectsUnsent (updateTopic this topic operationOptions))
    /\ (forall subscription,
           isJSONLikeObject subscription = false
           \/ lacks subscription "topicName"
           \/ lacks subscription "subscriptionName" ->
           rejectsUnsent (updateSubscription this subscription operationOptions))
    /\ (forall topicName subscriptionName rule,
           isJSONLikeObject rule = false \/ lacks rule "name" ->
           rejectsUnsent
             (updateRule this topicName subscriptionName rule operationOptions)).
Proof.
  intros H this operationOptions. split; [|split; [|split]].
  - intros queue Hbad. unfold updateQueue.
    apply named_argument_rejected; [|exact Hbad].
    intros ->. reflexivity.
  - intros topic Hbad. unfold updateTopic.
    apply named_argument_rejected; [|exact Hbad].
    intros ->. reflexivity.
  - intros subscription Hbad w. unfold updateSubscription, bind, lift, throw.
    destruct (getProp subscription "subscriptionName") as [s|e] eqn:Hs.
    + destruct (negb (isJSONLikeObject subscription) || looseUndefined subscription)
        eqn:Hrefused; [eexists; split; reflexivity|].
      destruct (getProp_normal _ _ "topicName" Hs) as (t & Ht). rewrite Ht.
      destruct Hbad as [Hjson | [Hlacks | Hlacks]].
      * rewrite Hjson in Hrefused. discriminate.
      * rewrite (Hlacks t Ht). eexists; split; reflexivity.
      * rewrite (Hlacks s Hs), orb_true_r. eexists; split; reflexivity.
    + exists e. split; [reflexivity | exact (getProp_throw _ _ Hs)].
  - intros topicName subscriptionName rule Hbad. unfold updateRule.
    apply named_argument_rejected; [|exact Hbad].
    intros ->. reflexivity.
Qed.

(** C10 at work: a queue description without a name, and a string in
    place of a topic description. *)
Lemma updates_validate_before_sending_witness :
  (exists e, updateQueue (H := InMemory.fiveHost 100) InMemory.client
               (JSObject [("maxDeliveryCount", JSNum (ofN 5))]) JSUndefined [] =
             (Throw e, [])
             /\ name e = "TypeError")
  /\ (exists e, updateTopic (H := InMemory.fiveHost 100) InMemory.client
                  (JSStr "topic") JSUndefined [] =
                (Throw e, [])
                /\ name e = "TypeError").
Proof.
  pose proof (@updates_validate_before_sending (InMemory.fiveHost 100)
                InMemory.client JSUndefined) as (Hqueue & Htopic & _).
  split.
  - apply (Hqueue (JSObject [("maxDeliveryCount", JSNum (ofN 5))])).
    right. intros x Hx. cbn in Hx. injection Hx as <-. reflexivity.
  - apply (Htopic (JSStr "topic")). left. reflexivity.
Defined.

(** * Further properties *)

(** ** What a get makes of the answer *)

Section GetFacts.

Context {H : Host}.
Variable this : ServiceBusManagementClient.

Lemma getResource_run (path : string) (serializer : AtomXmlSerializer)
  (operationOptions : JSValue) (w : World) :
  getResource this path serializer operationOptions w =
  (match service w (getRequest this path) serializer (ForOperation operationOptions) with
   | Throw e => Throw e
   | Normal response =>
       if absentBody (parsedBody response)
       then Throw (notFoundError this path response)
       else Normal response
   end, (w ++ [getRequest this path])%list).
Proof.
  unfold getResource, bind, executeAtomXmlOperation. fold (getRequest this path).
  destruct (service _ _ _ _) as [response|e]; [|reflexivity].
  destruct (parsedBody response) as [| |b|n|s|ps|[|x elems] props] eqn:Hbody;
    cbn; unfold throw, ret, notFoundError; reflexivity.
Qed.

Lemma getResource_then_build (path : string) (serializer : AtomXmlSerializer)
  (decode : JSValue -> Completion JSValue) (noun : string) (operationOptions : JSValue) :
  getsThrough this path serializer decode noun operationOptions
    (await! response := getResource this path serializer operationOptions in
     lift (buildEntityResponse decode noun response)).
Proof.
  intros w. unfold bind. rewrite getResource_run. unfold outcomeOfGet.
  destruct (service _ _ _ _) as [response|e]; [|reflexivity].
  destruct (absentBody (parsedBody response)); [reflexivity|].
  unfold lift, buildEntityResponse, entityParseError.
  destruct (decode (parsedBody response)); reflexivity.
Qed.

Lemma existsAfter_run (path : string) (serializer : AtomXmlSerializer)
  (decode : JSValue -> Completion JSValue) (noun : string)
  (operationOptions : JSValue) (get : Async EntityResponse) (w : World) :
  getsThrough this path serializer decode noun operationOptions get ->
  existsAfter get w =
  (outcomeOfExists decode noun
     (service w (getRequest this path) serializer (ForOperation operationOptions)),
   (w ++ [getRequest this path])%list).
Proof.
  intros Hget. unfold existsAfter, bind, asyncTryCatch. rewrite Hget.
  unfold outcomeOfGet, outcomeOfExists.
  destruct (service _ _ _ _) as [response|e].
  - destruct (absentBody (parsedBody response)); [reflexivity|].
    destruct (decode (parsedBody response)); reflexivity.
  - destruct (codeIs _ e); reflexivity.
Qed.

End GetFacts.

(** X1.  Each get method sends one GET request, to the path of the
    entity and with no query but the API version, and then: passes on
    the error of the service as it is; throws the not-found error when
    the parsed body is undefined, null or an empty array; throws the
    parse error, with the status of the response, when its decoder
    throws; and otherwise returns the decoded entity, an empty object
    when the decoder gives nothing.  [getSubscription] decodes with the
    runtime-properties decoder, as [getSubscriptionRuntimeProperties]
    does. *)
Theorem get_methods_outcomes :
  forall (H : Host) (this : ServiceBusManagementClient) (operationOptions : JSValue),
    getsThrough this "$namespaceinfo" NamespaceResourceSerializer buildNamespace
      "namespace" operationOptions (getNamespaceProperties this operationOptions)
    /\ (forall q,
           getsThrough this q QueueResourceSerializer buildQueue "queue"
             operationOptions (getQueue this q operationOptions)
           /\ getsThrough this q QueueResourceSerializer buildQueueRuntimeProperties
                "queue" operationOptions
                (getQueueRuntimeProperties this q operationOptions))
    /\ (forall t,
           getsThrough this t TopicResourceSerializer buildTopic "topic"
             operationOptions (getTopic this t operationOptions)
           /\ getsThrough this t TopicResourceSerializer buildTopicRuntimeProperties
                "topic" operationOptions
                (getTopicRuntimeProperties this t operationOptions))
    /\ (forall t s,
           getsThrough this (getSubscriptionPath t s) SubscriptionResourceSerializer
             buildSubscriptionRuntimeProperties "subscription" operationOptions
             (getSubscription this t s operationOptions)
           /\ getsThrough this (getSubscriptionPath t s) SubscriptionResourceSerializer
                buildSubscriptionRuntimeProperties "subscription" operationOptions
                (getSubscriptionRuntimeProperties this t s operationOptions))
    /\ (forall t s r,
           getsThrough this (getRulePath t s r) RuleResourceSerializer buildRule
             "rule" operationOptions (getRule this t s r operationOptions)).
Proof.
  intros H this operationOptions.
  repeat split; intros; apply getResource_then_build.
Qed.

(** X2.  [queueExists], [topicExists] and [subscriptionExists] send
    the one request of their get and answer [false] when the service
    throws an error with the not-found code or answers with an absent
    body (undefined, null or an empty array), [true] when the body is
    there and decodes; the parse error of a body that does not decode,
    and any other error of the service, are thrown. *)
Theorem exists_methods_outcomes :
  forall (H : Host) (this : ServiceBusManagementClient) (operationOptions : JSValue)
         (w : World),
    (forall q,
        queueExists this q operationOptions w =
        (outcomeOfExists buildQueue "queue"
           (service w (getRequest this q) QueueResourceSerializer
              (ForOperation operationOptions)),
         (w ++ [getRequest this q])%list))
    /\ (forall t,
           topicExists this t operationOptions w =
           (outcomeOfExists buildTopic "topic"
              (service w (getRequest this t) TopicResourceSerializer
                 (ForOperation operationOptions)),
            (w ++ [getRequest this t])%list))
    /\ (forall t s,
           subscriptionExists this t s operationOptions w =
           (outcomeOfExists buildSubscriptionRuntimeProperties "subscription"
              (service w (getRequest this (getSubscriptionPath t s))
                 SubscriptionResourceSerializer (ForOperation operationOptions)),
            (w ++ [getRequest this (getSubscriptionPath t s)])%list)).
Proof.
  intros H this operationOptions w.
  repeat split; intros; apply existsAfter_run; apply getResource_then_build.
Qed.

(** X3.  A listing sends exactly one request, and what it throws is
    either the error of the service, as it is, or the parse error made
    of the response of the service: nothing else. *)
Theorem listing_throws_service_or_parse_error :
  forall (H : Host) (this : ServiceBusManagementClient) (l : Listing)
         (o : ListRequestOptions) (w : World),
    let answer := service w (listRequest this l o) (serializerOf l) (ForList o) in
    snd (listEntities this l o w) = (w ++ [listRequest this l o])%list
    /\ (forall e, fst (listEntities this l o w) = Throw e ->
          answer = Throw e
          \/ exists response,
               answer = Normal response /\ e = listParseError (nounOf l) response)
    /\ (forall e, answer = Throw e -> fst (listEntities this l o w) = Throw e).
Proof.
  intros H this l o w answer. rewrite listEntities_run. fold answer.
  split; [reflexivity|]. cbn [fst]. split.
  - intros e He. destruct answer as [response|e']; cbn [bindC] in He.
    + right. exists response. split; [reflexivity|].
      exact (buildListResponse_throw _ _ _ He).
    + left. injection He as <-. reflexivity.
  - intros e ->. reflexivity.
Qed.

(** X4.  Page mode fetches on demand, with the cursor of the previous
    page: after any number of [next()] calls on the generator that
    [byPage] returns, the requests sent are one for each page yielded
    and one for the fetch that failed, if one did; the first asks for
    the window at the starting marker and each later one for the window
    at the continuation token of the page before, all with the same
    page size. *)
Theorem page_mode_requests_follow_tokens :
  forall (H : Host) (this : ServiceBusManagementClient) (l : Listing)
         (marker : JSValue) (options : PageOptions) (n : nat) (w : World),
    let '(ps, o, w') := pageMode this n (listPage l marker options) w in
    w' = (w ++ map (fetchOf this l options)
                 (firstn (length ps + failures o) (marker :: tokensOf ps)))%list.
Proof.
  intros H this l marker options n w.
  destruct (pageMode this n (listPage l marker options) w) as [[ps o] w'] eqn:Hrun.
  exact (@pageMode_requests H this n (listPage l marker options) l options
           w w' ps o eq_refl Hrun).
Qed.

(** X5.  Page mode goes on as long as the tokens are truthy: in any
    run every page but the last one yielded carries a truthy
    continuation token; a run that has finished has yielded at least
    one page, the last of which carries a falsy token; and a fetch fails
    only after pages with truthy tokens. *)
Theorem page_mode_ends_at_the_first_falsy_token :
  forall (H : Host) (this : ServiceBusManagementClient) (l : Listing)
         (marker : JSValue) (options : PageOptions) (n : nat) (w : World),
    let '(ps, o, w') := pageMode this n (listPage l marker options) w in
    Forall (fun t => truthy t = true) (removelast (tokensOf ps))
    /\ (o = Finished ->
        exists earlier page,
          ps = (earlier ++ [page])%list /\ truthy (continuationToken page) = false)
    /\ (forall e, o = Failed e -> Forall (fun t => truthy t = true) (tokensOf ps)).
Proof.
  intros H this l marker options n w.
  destruct (pageMode this n (listPage l marker options) w) as [[ps o] w'] eqn:Hrun.
  destruct (@pageMode_tokens H this n _ _ _ _ _ Hrun) as (Hinner & Hfinished & Hfailed).
  split; [exact Hinner|]. split; [|exact Hfailed].
  intros Ho. apply Hfinished; [exact Ho | discriminate].
Qed.

(** ** Flat mode at any point *)

Section FlatPrefix.

Context {H : Host}.
Variable this : ServiceBusManagementClient.

Lemma flatMode_prefix :
  forall (m : nat) (g : PageGenerator) (segment : list JSValue) (w : World),
    let '(seen, o, w') := flatMode this m (AllRunning g segment) w in
    exists (n : nat) (ps : list EntitiesResponse) (o1 : Outcome PageGenerator)
           (later : list JSValue),
      (n <= m)%nat
      /\ pageMode this n g w = (ps, o1, w')
      /\ (segment ++ elementsOf ps)%list = (seen ++ later)%list
      /\ (o = Finished -> o1 = Finished /\ later = [])
      /\ (forall e, o = Failed e -> o1 = Failed e /\ later = []).
Proof.
  unfold flatMode, pageMode.
  induction m as [|m IH]; intros g segment w.
  - cbn. exists 0%nat, [], (Pending g), segment. cbn. rewrite app_nil_r.
    repeat split; try lia; discriminate.
  - destruct segment as [|x segment]; cbn [forAwait listAll_resume].
    + unfold bind at 1.
      destruct (listPage_next this g w) as [[[[page|] g']|e] w0] eqn:Hnext; cbn.
      * specialize (IH g' (entities page) w0).
        destruct (forAwait (listAll_resume this) m (AllRunning g' (entities page)) w0)
          as [[seen o] w'].
        destruct IH as (n & ps & o1 & later & Hle & Hrun & Hseen & Hfin & Hfail).
        exists (S n), (page :: ps), o1, later.
        split; [lia|]. split; [|split; [exact Hseen | split; assumption]].
        cbn [forAwait]. unfold asResume at 1, bind. rewrite Hnext. cbn.
        rewrite Hrun. reflexivity.
      * exists 1%nat, [], Finished, []. split; [lia|]. split.
        { cbn [forAwait]. unfold asResume at 1, bind. rewrite Hnext. reflexivity. }
        repeat split; discriminate.
      * exists 1%nat, [], (Failed e), []. split; [lia|]. split.
        { cbn [forAwait]. unfold asResume at 1, bind. rewrite Hnext. reflexivity. }
        split; [reflexivity|]. split; [discriminate|].
        intros e' He. injection He as <-. split; reflexivity.
    + unfold ret at 1. specialize (IH g segment w).
      destruct (forAwait (listAll_resume this) m (AllRunning g segment) w)
        as [[seen o] w'].
      destruct IH as (n & ps & o1 & later & Hle & Hrun & Hseen & Hfin & Hfail).
      exists n, ps, o1, later. split; [lia|]. split; [exact Hrun|].
      split; [cbn; rewrite Hseen; reflexivity | split; assumption].
Qed.

End FlatPrefix.


(** ** Putting a description *)

Lemma lookup_assign_same (k : string) (v : JSValue) (props : list (string * JSValue)) :
  lookup k (assign k v props) = v.
Proof.
  induction props as [|[k' v'] props IH]; cbn [assign lookup].
  - rewrite String.eqb_refl. reflexivity.
  - destruct (String.eqb k k') eqn:Hk; cbn [lookup].
    + rewrite String.eqb_refl. reflexivity.
    + rewrite Hk. exact IH.
Qed.

Lemma lookup_assign_other (k k' : string) (v : JSValue)
  (props : list (string * JSValue)) :
  k <> k' -> lookup k (assign k' v props) = lookup k props.
Proof.
  intros Hne. induction props as [|[k0 v0] props IH]; cbn [assign lookup].
  - destruct (String.eqb k k') eqn:Hk; [apply String.eqb_eq in Hk; contradiction|].
    reflexivity.
  - destruct (String.eqb k' k0) eqn:Hk0; cbn [lookup].
    + apply String.eqb_eq in Hk0. subst k0.
      destruct (String.eqb k k') eqn:Hk; [apply String.eqb_eq in Hk; contradiction|].
      reflexivity.
    + rewrite IH. reflexivity.
Qed.

Section PutFacts.

Context {H : Host}.
Variable this : ServiceBusManagementClient.

(** The properties of the description after a forwarding target was
    made absolute. *)
Lemma forwardTarget_fields (k header token : string)
  (props : list (string * JSValue)) (rq : WebResource) :
  exists props',
    fst (forwardTarget this k header token (JSObject props, rq)) = JSObject props'
    /\ lookup k props' = forwarded this (lookup k props)
    /\ forall k', k' <> k -> lookup k' props' = lookup k' props.
Proof.
  unfold forwardTarget, forwarded.
  destruct (truthy (lookup k props)) eqn:Ht.
  - destruct (isAbsoluteUrl (lookup k props)); cbn [fst setProp].
    + exists props. repeat split; reflexivity.
    + exists (assign k (JSStr (endpointWithProtocol this ++ ToString (lookup k props)))
                props).
      split; [reflexivity|]. split; [apply lookup_assign_same|].
      intros k' Hne. apply lookup_assign_other. exact Hne.
  - exists props. cbn [fst]. repeat split; reflexivity.
Qed.

(** The request after a forwarding target was looked at: only its
    headers may have changed, by the authorization header of a truthy
    target. *)
Lemma forwardTarget_request (k header token : string) (fields : JSValue)
  (rq : WebResource) :
  let rq' := snd (forwardTarget this k header token (fields, rq)) in
  url rq' = url rq /\ method rq' = method rq /\ body rq' = body rq
  /\ headers rq' =
     if truthy (lookup k match fields with
                         | JSObject props | JSArray _ props => props
                         | _ => []
                         end)
     then setQueryParameter header token (headers rq)
     else headers rq.
Proof.
  unfold forwardTarget.
  destruct (truthy (lookup k _)); [destruct (isAbsoluteUrl _)|];
    cbn; repeat split; reflexivity.
Qed.

End PutFacts.

(** A put that forwards nowhere. *)
Lemma putResource_plain {H : Host} (this : ServiceBusManagementClient) (path : string)
  (props : list (string * JSValue)) (serializer : AtomXmlSerializer)
  (isUpdate : bool) (operationOptions : JSValue) (w : World) :
  truthy (lookup "ForwardTo" props) = false ->
  truthy (lookup "ForwardDeadLetteredMessagesTo" props) = false ->
  let rq :=
    {| url := getUrl this path []; method := "PUT"; body := JSObject props;
       headers := ((if isUpdate then [("If-Match", "*")] else [])
                   ++ [("content-type", atomContentType)])%list |} in
  putResource this path (JSObject props) serializer isUpdate operationOptions w =
  (service w rq serializer (ForOperation operationOptions), (w ++ [rq])%list).
Proof.
  intros Hfwd Hdlq rq.
  unfold putResource, bind, lift, executeAtomXmlOperation. cbn [getProp].
  rewrite Hfwd, Hdlq. cbn [orb]. unfold ret.
  destruct isUpdate; reflexivity.
Qed.

(** X7.  A put of a description that forwards nowhere (neither
    [ForwardTo] nor [ForwardDeadLetteredMessagesTo] is truthy) asks for
    no token: whatever [getToken] would do, it sends one PUT request,
    whose body is the description as it is and whose headers are the
    content type, preceded for an update by [If-Match: *], and it
    returns what the service answers. *)
Theorem put_without_forwarding :
  forall (H : Host) (this : ServiceBusManagementClient) (path : string)
         (props : list (string * JSValue)) (serializer : AtomXmlSerializer)
         (isUpdate : bool) (operationOptions : JSValue) (w : World),
    truthy (lookup "ForwardTo" props) = false ->
    truthy (lookup "ForwardDeadLetteredMessagesTo" props) = false ->
    let rq :=
      {| url := getUrl this path []; method := "PUT"; body := JSObject props;
         headers := ((if isUpdate then [("If-Match", "*")] else [])
                     ++ [("content-type", atomContentType)])%list |} in
    putResource this path (JSObject props) serializer isUpdate operationOptions w =
    (service w rq serializer (ForOperation operationOptions), (w ++ [rq])%list).
Proof.
  intros H this path props serializer isUpdate operationOptions w Hfwd Hdlq.
  exact (putResource_plain this path props serializer isUpdate operationOptions w
           Hfwd Hdlq).
Qed.

(** X7 at work: a queue that forwards nowhere, on a host where no
    token can be had. *)
Lemma put_without_forwarding_witness :
  exists rq,
    putResource
      (H := withToken (InMemory.fiveHost 100) (fun _ => Throw (Error "no token")))
      InMemory.client "Q" (JSObject [("name", JSStr "Q")]) QueueResourceSerializer
      true JSUndefined [] =
    (service (Host := withToken (InMemory.fiveHost 100)
                        (fun _ => Throw (Error "no token")))
       [] rq QueueResourceSerializer (ForOperation JSUndefined), [rq])
    /\ headers rq = [("If-Match", "*"); ("content-type", atomContentType)].
Proof.
  eexists. split.
  - exact (@put_without_forwarding
             (withToken (InMemory.fiveHost 100) (fun _ => Throw (Error "no token")))
             InMemory.client "Q" [("name", JSStr "Q")] QueueResourceSerializer
             true JSUndefined [] eq_refl eq_refl).
  - reflexivity.
Defined.

(** X8.  A put of a description that forwards somewhere, with a token
    at hand, sends one PUT request.  In its body each truthy forwarding
    target that is not an absolute URL has been prefixed with the
    endpoint of the namespace, and every other property is as it was.
    Its headers hold the token as the supplementary authorization of
    each truthy target, and of no other. *)
Theorem put_with_forwarding :
  forall (H : Host) (this : ServiceBusManagementClient) (path : string)
         (props : list (string * JSValue)) (serializer : AtomXmlSerializer)
         (isUpdate : bool) (operationOptions : JSValue) (w : World) (token : string),
    truthy (lookup "ForwardTo" props)
    || truthy (lookup "ForwardDeadLetteredMessagesTo" props) = true ->
    getToken this = Normal token ->
    exists (rq : WebResource) (props' : list (string * JSValue)),
      putResource this path (JSObject props) serializer isUpdate operationOptions w =
      (service w rq serializer (ForOperation operationOptions), (w ++ [rq])%list)
      /\ url rq = getUrl this path [] /\ method rq = "PUT"
      /\ body rq = JSObject props'
      /\ lookup "ForwardTo" props' = forwarded this (lookup "ForwardTo" props)
      /\ lookup "ForwardDeadLetteredMessagesTo" props' =
         forwarded this (lookup "ForwardDeadLetteredMessagesTo" props)
      /\ (forall k, k <> "ForwardTo" -> k <> "ForwardDeadLetteredMessagesTo" ->
            lookup k props' = lookup k props)
      /\ headerIn "ServiceBusSupplementaryAuthorization" (headers rq) =
         (if truthy (lookup "ForwardTo" props) then Some token else None)
      /\ headerIn "ServiceBusDlqSupplementaryAuthorization" (headers rq) =
         (if truthy (lookup "ForwardDeadLetteredMessagesTo" props)
          then Some token else None)
      /\ headerIn "If-Match" (headers rq) = (if isUpdate then Some "*" else None)
      /\ headerIn "content-type" (headers rq) = Some atomContentType.
Proof.
  intros H this path props serializer isUpdate operationOptions w token Hsome Htoken.
  unfold putResource, bind, lift, executeAtomXmlOperation. cbn [getProp].
  rewrite Hsome, Htoken. unfold ret.
  set (rq0 := if isUpdate
              then setHeader "If-Match" "*" (newWebResource (getUrl this path []) "PUT")
              else newWebResource (getUrl this path []) "PUT").
  destruct (forwardTarget_fields this "ForwardTo"
              "ServiceBusSupplementaryAuthorization" token props rq0)
    as (props1 & Hf1 & Hsame1 & Hother1).
  pose proof (forwardTarget_request this "ForwardTo"
                "ServiceBusSupplementaryAuthorization" token (JSObject props) rq0)
    as (Hu1 & Hm1 & _ & Hh1).
  destruct (forwardTarget this "ForwardTo" "ServiceBusSupplementaryAuthorization"
              token (JSObject props, rq0)) as [fields1 rq1].
  cbn [fst snd] in Hf1, Hu1, Hm1, Hh1. subst fields1.
  destruct (forwardTarget_fields this "ForwardDeadLetteredMessagesTo"
              "ServiceBusDlqSupplementaryAuthorization" token props1 rq1)
    as (props2 & Hf2 & Hsame2 & Hother2).
  pose proof (forwardTarget_request this "ForwardDeadLetteredMessagesTo"
                "ServiceBusDlqSupplementaryAuthorization" token (JSObject props1) rq1)
    as (Hu2 & Hm2 & _ & Hh2).
  destruct (forwardTarget this "ForwardDeadLetteredMessagesTo"
              "ServiceBusDlqSupplementaryAuthorization" token (JSObject props1, rq1))
    as [fields2 rq2].
  cbn [fst snd] in Hf2, Hu2, Hm2, Hh2. subst fields2.
  eexists. exists props2. split; [reflexivity|].
  cbn [url method body headers setHeader setBody].
  assert (Hdlq1 : lookup "ForwardDeadLetteredMessagesTo" props1 =
                  lookup "ForwardDeadLetteredMessagesTo" props)
    by (apply Hother1; discriminate).
  split; [rewrite Hu2, Hu1; unfold rq0; destruct isUpdate; reflexivity|].
  split; [rewrite Hm2, Hm1; unfold rq0; destruct isUpdate; reflexivity|].
  split; [reflexivity|].
  split; [rewrite Hother2 by discriminate; exact Hsame1|].
  split; [rewrite Hsame2, Hdlq1; reflexivity|].
  split; [intros k Hk1 Hk2; rewrite Hother2, Hother1 by assumption; reflexivity|].
  rewrite Hh2, Hh1, Hdlq1.
  unfold rq0.
  destruct (truthy (lookup "ForwardTo" props)),
    (truthy (lookup "ForwardDeadLetteredMessagesTo" props)), isUpdate;
    cbn; repeat split; reflexivity.
Qed.

(** X8 at work: a queue forwarding to the queue named q. *)
Lemma put_with_forwarding_witness :
  exists rq props',
    putResource (H := InMemory.fiveHost 100) InMemory.client "Q"
      (JSObject [("name", JSStr "Q"); ("ForwardTo", JSStr "q")])
      QueueResourceSerializer false JSUndefined [] =
    (service (Host := InMemory.fiveHost 100) [] rq QueueResourceSerializer
       (ForOperation JSUndefined), [rq])
    /\ body rq = JSObject props'
    /\ lookup "ForwardTo" props' = JSStr "sb://ns.servicebus.windows.net/q"
    /\ lookup "name" props' = JSStr "Q"
    /\ headerIn "ServiceBusSupplementaryAuthorization" (headers rq) =
       Some "SharedAccessSignature".
Proof.
  destruct (@put_with_forwarding (InMemory.fiveHost 100) InMemory.client "Q"
              [("name", JSStr "Q"); ("ForwardTo", JSStr "q")]
              QueueResourceSerializer false JSUndefined [] "SharedAccessSignature"
              eq_refl eq_refl)
    as (rq & props' & Hput & _ & _ & Hbody & Hfwd & _ & Hother & Hauth & _).
  exists rq, props'. split; [exact Hput|]. split; [exact Hbody|].
  split; [exact Hfwd|]. split; [|exact Hauth].
  apply (Hother "name"); discriminate.
Defined.

(** X9.  When a description forwards somewhere and the token cannot
    be had, the put throws the error of [getToken] and sends nothing. *)
Theorem put_sends_nothing_without_its_token :
  forall (H : Host) (this : ServiceBusManagementClient) (path : string)
         (props : list (string * JSValue)) (serializer : AtomXmlSerializer)
         (isUpdate : bool) (operationOptions : JSValue) (w : World) (e : JSError),
    truthy (lookup "ForwardTo" props)
    || truthy (lookup "ForwardDeadLetteredMessagesTo" props) = true ->
    getToken this = Throw e ->
    putResource this path (JSObject props) serializer isUpdate operationOptions w =
    (Throw e, w).
Proof.
  intros H this path props serializer isUpdate operationOptions w e Hsome Htoken.
  unfold putResource, bind, lift. cbn [getProp]. rewrite Hsome, Htoken. reflexivity.
Qed.

(** X9 at work: a forwarding queue on a host where no token can be
    had. *)
Lemma put_sends_nothing_without_its_token_witness :
  putResource
    (H := withToken (InMemory.fiveHost 100) (fun _ => Throw (Error "no token")))
    InMemory.client "Q" (JSObject [("name", JSStr "Q"); ("ForwardTo", JSStr "q")])
    QueueResourceSerializer true JSUndefined [] =
  (Throw (Error "no token"), []).
Proof.
  exact (@put_sends_nothing_without_its_token
           (withToken (InMemory.fiveHost 100) (fun _ => Throw (Error "no token")))
           InMemory.client "Q" [("name", JSStr "Q"); ("ForwardTo", JSStr "q")]
           QueueResourceSerializer true JSUndefined [] (Error "no token")
           eq_refl eq_refl).
Defined.

(** ** Creating and updating *)

Section CreateFacts.

Context {H : Host}.
Variable this : ServiceBusManagementClient.

(** A put throws and sends nothing, or sends one request and returns
    the answer of the service; the put of an update differs by its
    [If-Match] header only. *)
Lemma putResource_if_match (path : string) (fields : JSValue)
  (serializer : AtomXmlSerializer) (operationOptions : JSValue) :
  updatesWhatItCreates serializer operationOptions (fun response => Normal response)
    (putResource this path fields serializer false operationOptions)
    (putResource this path fields serializer true operationOptions).
Proof.
  assert (Hsame : forall c : Completion HttpOperationResponse,
             c = bindC c (fun response => Normal response))
    by (intros [r|e]; reflexivity).
  intros w. unfold putResource, bind, lift.
  destruct (getProp fields "ForwardTo") as [fwd|e];
    [|left; exists e; split; reflexivity].
  destruct (getProp fields "ForwardDeadLetteredMessagesTo") as [dlq|e];
    [|left; exists e; split; reflexivity].
  destruct (truthy fwd || truthy dlq).
  - destruct (getToken this) as [token|e]; [|left; exists e; split; reflexivity].
    unfold ret, executeAtomXmlOperation, forwardTarget. right.
    destruct (truthy (lookup "ForwardTo" _)).
    + destruct (isAbsoluteUrl (lookup "ForwardTo" _));
        destruct (truthy (lookup "ForwardDeadLetteredMessagesTo" _));
        try destruct (isAbsoluteUrl (lookup "ForwardDeadLetteredMessagesTo" _));
        do 2 eexists; rewrite <- !Hsame; repeat split.
    + destruct (truthy (lookup "ForwardDeadLetteredMessagesTo" _));
        try destruct (isAbsoluteUrl (lookup "ForwardDeadLetteredMessagesTo" _));
        do 2 eexists; rewrite <- !Hsame; repeat split.
  - unfold ret, executeAtomXmlOperation. right.
    do 2 eexists; rewrite <- !Hsame; repeat split.
Qed.

(** What a create and an update make of the response of their put. *)
Lemma updatesWhatItCreates_finish {A : Type} (path : string) (fields : JSValue)
  (serializer : AtomXmlSerializer) (operationOptions : JSValue)
  (finish : HttpOperationResponse -> Completion A) :
  updatesWhatItCreates serializer operationOptions finish
    (await! response :=
       putResource this path fields serializer false operationOptions in
     lift (finish response))
    (await! response :=
       putResource this path fields serializer true operationOptions in
     lift (finish response)).
Proof.
  intros w. unfold bind, lift.
  destruct (putResource_if_match path fields serializer operationOptions w)
    as [(e & -> & ->) | (created & updated & -> & -> & Hput & Hsame)].
  - left. exists e. split; reflexivity.
  - right. exists created, updated.
    split; [|split; [|split; [exact Hput | exact Hsame]]].
    + destruct (service w created _ _) as [r|e]; reflexivity.
    + destruct (service w updated _ _) as [r|e]; reflexivity.
Qed.

End CreateFacts.

(** X10.  For a description that the update accepts (a JSON-like
    object whose name properties are truthy), the create method and the
    update method of a queue, a topic, a subscription or a rule do the
    same but for one header.  Either both throw the same error and send
    nothing, or each sends one PUT request, to the same URL and with the
    same body, the headers of the update being those of the create
    preceded by [If-Match: *]; and each makes of the answer to its
    request the same thing: the error of the service as it is, or the
    entity its builder decodes from the response. *)
Theorem update_is_create_with_if_match :
  forall (H : Host) (this : ServiceBusManagementClient) (operationOptions : JSValue)
         (description name : JSValue),
    isJSONLikeObject description = true ->
    getProp description "name" = Normal name ->
    truthy name = true ->
    updatesWhatItCreates QueueResourceSerializer operationOptions buildQueueResponse
      (createQueue this description operationOptions)
      (updateQueue this description operationOptions)
    /\ updatesWhatItCreates TopicResourceSerializer operationOptions buildTopicResponse
         (createTopic this description operationOptions)
         (updateTopic this description operationOptions)
    /\ (forall t s,
           updatesWhatItCreates RuleResourceSerializer operationOptions
             buildRuleResponse
             (createRule this t s description operationOptions)
             (updateRule this t s description operationOptions))
    /\ (forall subscription topicName subscriptionName unused,
           isJSONLikeObject subscription = true ->
           getProp subscription "topicName" = Normal topicName ->
           getProp subscription "subscriptionName" = Normal subscriptionName ->
           truthy topicName = true ->
           truthy subscriptionName = true ->
           typeof operationOptions <> "string" ->
           updatesWhatItCreates SubscriptionResourceSerializer operationOptions
             buildSubscriptionResponse
             (createSubscription this subscription operationOptions unused)
             (updateSubscription this subscription operationOptions)).
Proof.
  intros H this operationOptions description name Hjson Hname Htruthy.
  assert (Hshape : String.eqb (typeof description) "string" = false
                   /\ looseUndefined description = false
                   /\ match description with JSNull => true | _ => false end = false).
  { destruct description; cbn in Hname; try discriminate Hname;
      try (injection Hname as <-; discriminate Htruthy); repeat split. }
  destruct Hshape as (Hnotstring & Hnotundefined & Hnotnull).
  split; [|split; [|split]].
  - intros w.
    pose proof (fun fields =>
                  updatesWhatItCreates_finish this (ToString name) fields
                    QueueResourceSerializer operationOptions buildQueueResponse w)
      as Hput.
    unfold createQueue, updateQueue, bind, lift, throw in *.
    rewrite Hnotstring, Hname, Hjson, Hnotundefined. cbv beta iota. cbn [negb orb].
    rewrite Htruthy. cbn [negb].
    destruct (buildQueueOptions description) as [fields|e];
      [|left; exists e; split; reflexivity].
    apply Hput.
  - intros w.
    pose proof (fun fields =>
                  updatesWhatItCreates_finish this (ToString name) fields
                    TopicResourceSerializer operationOptions buildTopicResponse w)
      as Hput.
    unfold createTopic, updateTopic, bind, lift, throw in *.
    rewrite Hnotstring, Hname, Hjson, Hnotundefined. cbv beta iota. cbn [negb orb].
    rewrite Htruthy. cbn [negb].
    destruct (buildTopicOptions description) as [fields|e];
      [|left; exists e; split; reflexivity].
    apply Hput.
  - intros t s w.
    pose proof (updatesWhatItCreates_finish this (getRulePath t s (ToString name))
                  description RuleResourceSerializer operationOptions
                  buildRuleResponse w)
      as Hput.
    unfold createRule, updateRule, bind, lift, throw in *.
    rewrite Hname, Hjson, Hnotnull. cbv beta iota. cbn [negb orb].
    rewrite Htruthy. cbn [negb]. apply Hput.
  - intros subscription topicName subscriptionName unused
           Hjson' Htopic Hsub Httopic Htsub Hoptions w.
    assert (Hnotundefined' : looseUndefined subscription = false)
      by (destruct subscription; cbn in Hsub; try discriminate Hsub; reflexivity).
    assert (Hoptions' : String.eqb (typeof operationOptions) "string" = false)
      by (apply Bool.not_true_is_false; intros E; apply String.eqb_eq in E;
          exact (Hoptions E)).
    pose proof (fun fields =>
                  updatesWhatItCreates_finish this
                    (getSubscriptionPath (ToString topicName)
                       (ToString subscriptionName))
                    fields SubscriptionResourceSerializer operationOptions
                    buildSubscriptionResponse w)
      as Hput.
    unfold createSubscription, updateSubscription, bind, lift, throw, ret in *.
    rewrite Hoptions', Hsub, Htopic, Hjson', Hnotundefined'.
    cbv beta iota. cbn [negb orb]. rewrite Httopic, Htsub. cbn [negb orb].
    destruct (buildSubscriptionOptions subscription) as [fields|e];
      [|left; exists e; split; reflexivity].
    apply Hput.
Qed.

(** X10 at work: the queue Q created and updated. *)
Lemma update_is_create_with_if_match_witness :
  exists created updated,
    createQueue (H := InMemory.fiveHost 100) InMemory.client
      (InMemory.named "Q") JSUndefined [] =
    (bindC (service (Host := InMemory.fiveHost 100) [] created QueueResourceSerializer
              (ForOperation JSUndefined))
           (buildQueueResponse (H := InMemory.fiveHost 100)),
     [created])
    /\ updateQueue (H := InMemory.fiveHost 100) InMemory.client
         (InMemory.named "Q") JSUndefined [] =
       (bindC (service (Host := InMemory.fiveHost 100) [] updated QueueResourceSerializer
                 (ForOperation JSUndefined))
              (buildQueueResponse (H := InMemory.fiveHost 100)),
        [updated])
    /\ headers updated = ("If-Match", "*") :: headers created.
Proof.
  destruct (@update_is_create_with_if_match (InMemory.fiveHost 100) InMemory.client
              JSUndefined (InMemory.named "Q") (JSStr "Q") eq_refl eq_refl eq_refl)
    as (Hqueue & _).
  destruct (Hqueue []) as [(e & Hnone & _) | (created & updated & Hc & Hu & _ & Hsame)].
  - vm_compute in Hnone. discriminate Hnone.
  - exists created, updated. split; [exact Hc|]. split; [exact Hu|].
    exact (proj2 (proj2 (proj2 Hsame))).
Defined.

(** X11.  What a create method refuses, and what it lets through.
    [createSubscription] called with a subscription name and a topic
    name that is not a string throws a plain Error and sends nothing.
    A description that is undefined or null makes every create method
    throw, in its log line, the TypeError of reading a name of it, and
    send nothing.  But a description object with no name, which the
    update method refuses with nothing sent, is sent by the create
    method: when it forwards nowhere, one PUT request goes out for the
    entity named "undefined", with the content type as its only header,
    and the answer is decoded as for any create. *)
Theorem create_sends_a_description_with_no_name :
  forall (H : Host) (this : ServiceBusManagementClient) (operationOptions : JSValue)
         (w : World),
    let put path fields :=
      {| url := getUrl this path []; method := "PUT"; body := JSObject fields;
         headers := [("content-type", atomContentType)] |} in
    let sent {A : Type} rq serializer (finish : HttpOperationResponse -> Completion A) :=
      (bindC (service w rq serializer (ForOperation operationOptions)) finish,
       (w ++ [rq])%list) in
    (forall topic subscriptionName,
        typeof topic <> "string" ->
        createSubscription this topic (JSStr subscriptionName) operationOptions w =
        (Throw (Error "Topic name provided is invalid"), w))
    /\ (forall description,
           looseUndefined description = true ->
           (exists e, name e = "TypeError"
                      /\ createQueue this description operationOptions w = (Throw e, w))
           /\ (exists e, name e = "TypeError"
                         /\ createTopic this description operationOptions w =
                            (Throw e, w))
           /\ (forall t s,
                  exists e, name e = "TypeError"
                            /\ createRule this t s description operationOptions w =
                               (Throw e, w))
           /\ (forall unused,
                  typeof operationOptions <> "string" ->
                  exists e, name e = "TypeError"
                            /\ createSubscription this description operationOptions
                                 unused w = (Throw e, w)))
    /\ (forall props fields,
           lookup "name" props = JSUndefined ->
           truthy (lookup "ForwardTo" fields) = false ->
           truthy (lookup "ForwardDeadLetteredMessagesTo" fields) = false ->
           (buildQueueOptions (JSObject props) = Normal (JSObject fields) ->
            rejectsUnsent (updateQueue this (JSObject props) operationOptions)
            /\ createQueue this (JSObject props) operationOptions w =
               sent (put "undefined" fields) QueueResourceSerializer buildQueueResponse)
           /\ (buildTopicOptions (JSObject props) = Normal (JSObject fields) ->
               rejectsUnsent (updateTopic this (JSObject props) operationOptions)
               /\ createTopic this (JSObject props) operationOptions w =
                  sent (put "undefined" fields) TopicResourceSerializer
                    buildTopicResponse)
           /\ (forall t s,
                  fields = props ->
                  rejectsUnsent (updateRule this t s (JSObject props) operationOptions)
                  /\ createRule this t s (JSObject props) operationOptions w =
                     sent (put (getRulePath t s "undefined") props)
                       RuleResourceSerializer buildRuleResponse))
    /\ (forall props fields unused,
           lookup "topicName" props = JSUndefined ->
           lookup "subscriptionName" props = JSUndefined ->
           typeof operationOptions <> "string" ->
           buildSubscriptionOptions (JSObject props) = Normal (JSObject fields) ->
           truthy (lookup "ForwardTo" fields) = false ->
           truthy (lookup "ForwardDeadLetteredMessagesTo" fields) = false ->
           rejectsUnsent (updateSubscription this (JSObject props) operationOptions)
           /\ createSubscription this (JSObject props) operationOptions unused w =
              sent (put (getSubscriptionPath "undefined" "undefined") fields)
                SubscriptionResourceSerializer buildSubscriptionResponse).
Proof.
  intros H this operationOptions w put sent.
  assert (Hnotstring : forall v, typeof v <> "string" ->
                                 String.eqb (typeof v) "string" = false).
  { intros v Hv. apply Bool.not_true_is_false. intros E.
    apply String.eqb_eq in E. exact (Hv E). }
  assert (Hafter : forall {A : Type} path fields serializer
                          (finish : HttpOperationResponse -> Completion A),
             truthy (lookup "ForwardTo" fields) = false ->
             truthy (lookup "ForwardDeadLetteredMessagesTo" fields) = false ->
             (await! response :=
                putResource this path (JSObject fields) serializer false
                  operationOptions in
              lift (finish response)) w =
             sent A (put path fields) serializer finish).
  { intros A path fields serializer finish Hfwd Hdlq. unfold bind, lift.
    rewrite (putResource_plain this path fields serializer false operationOptions w
               Hfwd Hdlq).
    unfold sent, put. cbn [app].
    destruct (service _ _ _ _); reflexivity. }
  assert (Hlacks : forall props k, lookup k props = JSUndefined ->
                                   lacks (JSObject props) k).
  { intros props k Hk x Hx. cbn [getProp] in Hx. injection Hx as <-.
    rewrite Hk. reflexivity. }
  split; [|split; [|split]].
  - intros topic subscriptionName Htopic.
    unfold createSubscription, bind. cbn [typeof]. rewrite String.eqb_refl.
    rewrite (Hnotstring topic Htopic). reflexivity.
  - intros description Hnone.
    assert (Hread : forall k, exists e, getProp description k = Throw e
                                        /\ name e = "TypeError")
      by (intros k; destruct description; try discriminate Hnone;
          eexists; split; reflexivity).
    assert (Htype : String.eqb (typeof description) "string" = false)
      by (destruct description; try discriminate Hnone; reflexivity).
    split; [|split; [|split]].
    + destruct (Hread "name") as (e & He & Hname). exists e. split; [exact Hname|].
      unfold createQueue, bind, lift. rewrite Htype, He. reflexivity.
    + destruct (Hread "name") as (e & He & Hname). exists e. split; [exact Hname|].
      unfold createTopic, bind, lift. rewrite Htype, He. reflexivity.
    + intros t s. destruct (Hread "name") as (e & He & Hname).
      exists e. split; [exact Hname|].
      unfold createRule, bind, lift. rewrite He. reflexivity.
    + intros unused Hoptions.
      destruct (Hread "subscriptionName") as (e & He & Hname).
      exists e. split; [exact Hname|].
      unfold createSubscription, bind, lift, ret.
      rewrite (Hnotstring operationOptions Hoptions), He. reflexivity.
  - intros props fields Hname Hfwd Hdlq. split; [|split].
    + intros Hbuild. split.
      * unfold updateQueue. apply named_argument_rejected;
          [intros ->; reflexivity | right; exact (Hlacks props "name" Hname)].
      * rewrite <- (Hafter _ "undefined" fields QueueResourceSerializer
                      buildQueueResponse Hfwd Hdlq).
        unfold createQueue, bind, lift. cbn [typeof getProp].
        change (String.eqb "object" "string") with false. cbv beta iota.
        change (getProp (JSObject props) "name") with (Normal (lookup "name" props)).
        rewrite Hname, Hbuild. reflexivity.
    + intros Hbuild. split.
      * unfold updateTopic. apply named_argument_rejected;
          [intros ->; reflexivity | right; exact (Hlacks props "name" Hname)].
      * rewrite <- (Hafter _ "undefined" fields TopicResourceSerializer
                      buildTopicResponse Hfwd Hdlq).
        unfold createTopic, bind, lift. cbn [typeof getProp].
        change (String.eqb "object" "string") with false. cbv beta iota.
        change (getProp (JSObject props) "name") with (Normal (lookup "name" props)).
        rewrite Hname, Hbuild. reflexivity.
    + intros t s ->. split.
      * unfold updateRule. apply named_argument_rejected;
          [intros ->; reflexivity | right; exact (Hlacks props "name" Hname)].
      * rewrite <- (Hafter _ (getRulePath t s "undefined") props
                      RuleResourceSerializer buildRuleResponse Hfwd Hdlq).
        unfold createRule, bind, lift.
        change (getProp (JSObject props) "name") with (Normal (lookup "name" props)).
        rewrite Hname. reflexivity.
  - intros props fields unused Htopic Hsub Hoptions Hbuild Hfwd Hdlq. split.
    + intros w0. unfold updateSubscription, bind, lift, throw.
      change (getProp (JSObject props) "subscriptionName")
        with (Normal (lookup "subscriptionName" props)).
      change (getProp (JSObject props) "topicName")
        with (Normal (lookup "topicName" props)).
      rewrite Htopic, Hsub. cbv beta iota.
      destruct (negb (isJSONLikeObject (JSObject props))
                || looseUndefined (JSObject props));
        eexists; split; reflexivity.
    + rewrite <- (Hafter _ (getSubscriptionPath "undefined" "undefined") fields
                    SubscriptionResourceSerializer buildSubscriptionResponse
                    Hfwd Hdlq).
      unfold createSubscription, bind, lift, ret.
      rewrite (Hnotstring operationOptions Hoptions).
      change (getProp (JSObject props) "subscriptionName")
        with (Normal (lookup "subscriptionName" props)).
      change (getProp (JSObject props) "topicName")
        with (Normal (lookup "topicName" props)).
      rewrite Htopic, Hsub, Hbuild. reflexivity.
Qed.

(** X11 at work: a queue description with no name. *)
Lemma create_sends_a_description_with_no_name_witness :
  exists rq,
    snd (createQueue (H := InMemory.fiveHost 100) InMemory.client
           (JSObject [("maxDeliveryCount", JSNum (ofN 5))]) JSUndefined []) = [rq]
    /\ method rq = "PUT"
    /\ baseUri (url rq) = "https://ns.servicebus.windows.net/undefined"
    /\ rejectsUnsent
         (updateQueue (H := InMemory.fiveHost 100) InMemory.client
            (JSObject [("maxDeliveryCount", JSNum (ofN 5))]) JSUndefined).
Proof.
  destruct (proj1 (proj1 (proj2 (proj2 (@create_sends_a_description_with_no_name
                                          (InMemory.fiveHost 100) InMemory.client
                                          JSUndefined [])))
                     [("maxDeliveryCount", JSNum (ofN 5))]
                     [("maxDeliveryCount", JSNum (ofN 5))]
                     eq_refl eq_refl eq_refl) eq_refl)
    as (Hupdate & Hcreate).
  eexists. rewrite Hcreate. cbn [snd app].
  split; [reflexivity|]. split; [reflexivity|]. split; [reflexivity | exact Hupdate].
Defined.

(** ** Deleting *)

(** X12.  The delete methods send one DELETE request, to the URL
    that the get of the same entity asks, and return what the service
    answers as it is: unlike a get, a delete looks at no body, so an
    absent body is no error. *)
Theorem delete_methods_pass_the_answer_on :
  forall (H : Host) (this : ServiceBusManagementClient) (operationOptions : JSValue)
         (w : World),
    let deleted path serializer :=
      (service w (deleteRequest this path) serializer (ForOperation operationOptions),
       (w ++ [deleteRequest this path])%list) in
    (forall path, url (deleteRequest this path) = url (getRequest this path)
                  /\ method (deleteRequest this path) = "DELETE")
    /\ (forall q, deleteQueue this q operationOptions w =
                  deleted q QueueResourceSerializer)
    /\ (forall t, deleteTopic this t operationOptions w =
                  deleted t TopicResourceSerializer)
    /\ (forall t s, deleteSubscription this t s operationOptions w =
                    deleted (getSubscriptionPath t s) SubscriptionResourceSerializer)
    /\ (forall t s r, deleteRule this t s r operationOptions w =
                      deleted (getRulePath t s r) RuleResourceSerializer).
Proof.
  intros H this operationOptions w deleted.
  split; [intros path; split; reflexivity|].
  repeat split; intros;
    unfold deleteQueue, deleteTopic, deleteSubscription, deleteRule, deleteResource,
      bind, ret, executeAtomXmlOperation, deleted, deleteRequest;
    match goal with
    | |- context [service ?a ?b ?c ?d] => destruct (service a b c d)
    end; reflexivity.
Qed.

(** ** The constructor *)

Lemma captureNoSlash_no_slash (s : string) :
  forall c, In c (list_ascii_of_string (captureNoSlash s)) -> c <> "/"%char.
Proof.
  induction s as [|c0 s IH]; cbn [captureNoSlash]; [intros c []|].
  destruct (Ascii.eqb c0 "/") eqn:Hc; [intros c []|].
  intros c [<- | Hin]; [|exact (IH c Hin)].
  intros ->. rewrite Ascii.eqb_refl in Hc. discriminate.
Qed.

Lemma matchHere_captures (s captured : string) :
  matchHere s = Some captured -> exists t, captured = captureNoSlash t.
Proof.
  induction s as [|c s IH]; cbn [matchHere]; [discriminate|].
  destruct (isLineTerminator c); [discriminate|].
  destruct (matchHere s) as [inner|].
  - intros Hm; injection Hm as <-. apply IH. reflexivity.
  - destruct (prefix "://" (String c s)); [|discriminate].
    intros Hm; injection Hm as <-. eexists; reflexivity.
Qed.

Lemma matchEndpoint_captures (s captured : string) :
  matchEndpoint s = Some captured -> exists t, captured = captureNoSlash t.
Proof.
  induction s as [|c s IH]; cbn [matchEndpoint].
  - cbn. discriminate.
  - destruct (matchHere (String c s)) as [inner|] eqn:Hm.
    + intros Hs; injection Hs as <-. exact (matchHere_captures _ Hm).
    + exact IH.
Qed.

Lemma endsWithSlash_no_slash (s : string) :
  (forall c, In c (list_ascii_of_string s) -> c <> "/"%char) ->
  endsWithSlash s = false.
Proof.
  induction s as [|c s IH]; intros Hno; [reflexivity|].
  cbn [endsWithSlash]. destruct s as [|c' s'].
  - destruct (Ascii.eqb c "/") eqn:Hc; [|reflexivity].
    apply Ascii.eqb_eq in Hc. exfalso. apply (Hno c); [left; reflexivity | exact Hc].
  - apply IH. intros c0 Hin. apply Hno. right. exact Hin.
Qed.

Lemma endsWithSlash_append_slash (s : string) : endsWithSlash (s ++ "/") = true.
Proof.
  induction s as [|c s IH]; [reflexivity|].
  cbn [append endsWithSlash]. rewrite IH.
  destruct (s ++ "/") eqn:Hs; [destruct s; discriminate Hs | reflexivity].
Qed.

Lemma endsWithSlash_after (p s : string) :
  endsWithSlash s = true -> endsWithSlash (p ++ s) = true.
Proof.
  intros Hs. induction p as [|c p IH]; [exact Hs|].
  cbn [append endsWithSlash]. rewrite IH.
  destruct (p ++ s) eqn:Hps; [|reflexivity].
  destruct p; [cbn in Hps; subst s; discriminate Hs | discriminate Hps].
Qed.

Lemma prefix_sb (s : string) : prefix "sb://" ("sb://" ++ s) = true.
Proof. destruct s; reflexivity. Qed.

(** X13.  Every client the constructor makes has an
    [endpointWithProtocol] that starts with [sb://], holds the endpoint
    and ends with a slash.  Made from a connection string, its endpoint
    holds no slash, so that [endpointWithProtocol] is exactly [sb://],
    the endpoint and a slash, and its credentials are SAS credentials
    signed by the signing policy.  A connection string with no
    [Endpoint], or one in which no [://] is found, makes no client. *)
Theorem constructed_endpoint_ends_with_slash :
  forall (H : Host) (parseConnectionString : string -> Completion JSValue)
         (first : string) (second : CredentialOrOptions) (options3 : JSValue),
    (forall built,
        construct parseConnectionString first second options3 = Normal built ->
        let c := constructedClient built in
        prefix "sb://" (endpointWithProtocol c) = true
        /\ endsWithSlash (endpointWithProtocol c) = true
        /\ (endpointWithProtocol c = "sb://" ++ endpoint c ++ "/"
            \/ endpointWithProtocol c = "sb://" ++ endpoint c)
        /\ (forall options2, second = ClientOptions options2 ->
              (forall ch, In ch (list_ascii_of_string (endpoint c)) -> ch <> "/"%char)
              /\ endpointWithProtocol c = "sb://" ++ endpoint c ++ "/"
              /\ sasCredentials c = true
              /\ hd_error (requestPolicyFactories built) = Some signingPolicy))
    /\ (forall options2 parsed value,
           second = ClientOptions options2 ->
           parseConnectionString first = Normal parsed ->
           getProp parsed "Endpoint" = Normal value ->
           (looseUndefined value = true ->
            construct parseConnectionString first second options3 =
            Throw (Error "Missing Endpoint in connection string."))
           /\ (forall s, value = JSStr s -> matchEndpoint s = None ->
                 construct parseConnectionString first second options3 =
                 Throw (Error "Endpoint in the connection string is not valid."))).
Proof.
  intros H parseConnectionString first second options3. split.
  - intros built Hbuilt c. unfold construct in Hbuilt.
    destruct second as [|options2].
    + cbn [bindC] in Hbuilt.
      destruct (if truthy (if truthy options3 then options3 else JSObject [])
                then getProp (if truthy options3 then options3 else JSObject [])
                       "proxySettings"
                else Normal (if truthy options3 then options3 else JSObject []))
        as [proxy|e]; cbn [bindC] in Hbuilt; [|discriminate].
      injection Hbuilt as <-. subst c. cbn [constructedClient endpointWithProtocol endpoint].
      destruct (endsWithSlash first) eqn:Hends.
      * split; [apply prefix_sb|].
        split; [|split; [right; reflexivity | discriminate]].
        exact (endsWithSlash_after "sb://" first Hends).
      * split; [apply (prefix_sb (first ++ "/"))|].
        split; [|split; [left; reflexivity | discriminate]].
        exact (endsWithSlash_append_slash ("sb://" ++ first)).
    + destruct (parseConnectionString first) as [parsed|e]; cbn [bindC] in Hbuilt;
        [|discriminate].
      destruct (getProp parsed "Endpoint") as [value|e]; cbn [bindC] in Hbuilt;
        [|discriminate].
      destruct (looseUndefined value); [discriminate|].
      destruct value as [| |b|n|s|ps|es ps]; cbn [bindC] in Hbuilt; try discriminate.
      destruct (matchEndpoint s) as [captured|] eqn:Hmatch; cbn [bindC] in Hbuilt;
        [|discriminate].
      destruct (getProp parsed "SharedAccessKeyName") as [keyName|e];
        cbn [bindC] in Hbuilt; [|discriminate].
      destruct (getProp parsed "SharedAccessKey") as [key|e];
        cbn [bindC] in Hbuilt; [|discriminate].
      destruct (if truthy (if truthy options2 then options2 else JSObject [])
                then getProp (if truthy options2 then options2 else JSObject [])
                       "proxySettings"
                else Normal (if truthy options2 then options2 else JSObject []))
        as [proxy|e]; cbn [bindC] in Hbuilt; [|discriminate].
      injection Hbuilt as <-. subst c.
      cbn [constructedClient endpointWithProtocol endpoint sasCredentials
             requestPolicyFactories].
      destruct (matchEndpoint_captures _ Hmatch) as (t & ->).
      pose proof (captureNoSlash_no_slash t) as Hno.
      rewrite (endsWithSlash_no_slash _ Hno).
      split; [apply (prefix_sb (captureNoSlash t ++ "/"))|]. split.
      { exact (endsWithSlash_append_slash ("sb://" ++ captureNoSlash t)). }
      split; [left; reflexivity|].
      intros options2' _. split; [exact Hno|]. split; [reflexivity|].
      split; [reflexivity|]. destruct (truthy proxy); reflexivity.
  - intros options2 parsed value -> Hparsed Hvalue. split.
    + intros Hundefined. unfold construct. rewrite Hparsed. cbn [bindC].
      rewrite Hvalue. cbn [bindC]. rewrite Hundefined. reflexivity.
    + intros s -> Hnone. unfold construct. rewrite Hparsed. cbn [bindC].
      rewrite Hvalue. cbn [bindC looseUndefined]. rewrite Hnone. reflexivity.
Qed.

(** X13 at work: the connection string of the in-memory namespace. *)
Lemma constructed_endpoint_ends_with_slash_witness :
  exists built,
    construct (H := InMemory.fiveHost 100)
      (fun _ => Normal (JSObject
                          [("Endpoint", JSStr "sb://ns.servicebus.windows.net/");
                           ("SharedAccessKeyName", JSStr "RootManageSharedAccessKey");
                           ("SharedAccessKey", JSStr "key")]))
      "Endpoint=sb://ns.servicebus.windows.net/;SharedAccessKeyName=RootManageSharedAccessKey;SharedAccessKey=key"
      (ClientOptions JSUndefined) JSUndefined = Normal built
    /\ constructedClient built = InMemory.client
    /\ endsWithSlash (endpointWithProtocol (constructedClient built)) = true.
Proof.
  eexists.
  assert (Hbuilt :
    construct (H := InMemory.fiveHost 100)
      (fun _ => Normal (JSObject
                          [("Endpoint", JSStr "sb://ns.servicebus.windows.net/");
                           ("SharedAccessKeyName", JSStr "RootManageSharedAccessKey");
                           ("SharedAccessKey", JSStr "key")]))
      "Endpoint=sb://ns.servicebus.windows.net/;SharedAccessKeyName=RootManageSharedAccessKey;SharedAccessKey=key"
      (ClientOptions JSUndefined) JSUndefined = Normal _) by (vm_compute; reflexivity).
  split; [exact Hbuilt|]. split; [reflexivity|].
  exact (proj1 (proj2 (proj1 (@constructed_endpoint_ends_with_slash
                                (InMemory.fiveHost 100) _ _ _ _) _ Hbuilt))).
Defined.

Section EndpointFacts.

Lemma prefix_empty (s : string) : prefix EmptyString s = true.
Proof. destruct s; reflexivity. Qed.

Lemma substring_whole (s : string) :
  forall m, (String.length s <= m)%nat -> substring 0 m s = s.
Proof.
  induction s as [|c s IH]; intros m Hm.
  - destruct m; reflexivity.
  - destruct m as [|m]; [cbn in Hm; lia|].
    cbn [substring]. rewrite IH; [reflexivity | cbn in Hm; lia].
Qed.

Lemma captureNoSlash_whole (host : string) :
  (forall c, In c (list_ascii_of_string host) -> c <> "/"%char) ->
  captureNoSlash host = host /\ forall rest, captureNoSlash (host ++ String "/" rest) = host.
Proof.
  induction host as [|c host IH]; intros Hno; [split; reflexivity|].
  assert (Hc : Ascii.eqb c "/" = false).
  { destruct (Ascii.eqb c "/") eqn:E; [|reflexivity].
    apply Ascii.eqb_eq in E. exfalso. exact (Hno c (or_introl eq_refl) E). }
  destruct IH as (IH1 & IH2); [intros c0 Hin; apply Hno; right; exact Hin|].
  split; [|intros rest]; cbn [append captureNoSlash]; rewrite Hc;
    [rewrite IH1 | rewrite IH2]; reflexivity.
Qed.

(** No match starts inside a text with no slash, followed or not by a
    last slash. *)
Lemma matchHere_no_slash (host : string) :
  (forall c, In c (list_ascii_of_string host) -> c <> "/"%char) ->
  matchHere host = None /\ matchHere (host ++ "/") = None.
Proof.
  induction host as [|c host IH]; intros Hno; [split; reflexivity|].
  destruct IH as (IH1 & IH2); [intros c0 Hin; apply Hno; right; exact Hin|].
  assert (Hnext : forall c1 r, host = String c1 r -> c1 <> "/"%char).
  { intros c1 r ->. apply Hno. right. left. reflexivity. }
  split; cbn [append matchHere]; destruct (isLineTerminator c); try reflexivity.
  - rewrite IH1. destruct host as [|c1 r]; cbn [prefix].
    + destruct (ascii_dec ":" c); reflexivity.
    + destruct (ascii_dec ":" c); [|reflexivity].
      destruct (ascii_dec "/" c1) as [E|]; [|reflexivity].
      exfalso. exact (Hnext c1 r eq_refl (eq_sym E)).
  - rewrite IH2. destruct host as [|c1 r]; cbn [append prefix].
    + destruct (ascii_dec ":" c); reflexivity.
    + destruct (ascii_dec ":" c); [|reflexivity].
      destruct (ascii_dec "/" c1) as [E|]; [|reflexivity].
      exfalso. exact (Hnext c1 r eq_refl (eq_sym E)).
Qed.

(** After a scheme with no line terminator and the text [://], a text
    in which no match starts is captured up to its first slash. *)
Lemma matchHere_after_scheme (scheme t : string) :
  (forall c, In c (list_ascii_of_string scheme) -> isLineTerminator c = false) ->
  matchHere t = None ->
  matchHere (scheme ++ "://" ++ t) = Some (captureNoSlash t).
Proof.
  intros Hline Ht. induction scheme as [|c scheme IH].
  - cbn [append matchHere]. change (isLineTerminator ":") with false.
    change (isLineTerminator "/") with false. cbv iota. rewrite Ht.
    assert (H1 : prefix "://" (String "/" t) = false) by reflexivity.
    assert (H2 : prefix "://" (String "/" (String "/" t)) = false) by reflexivity.
    rewrite H1, H2.
    assert (H3 : prefix "://" (String ":" (String "/" (String "/" t))) = true)
      by (cbn; apply prefix_empty).
    rewrite H3. cbn [String.length substring].
    rewrite substring_whole by lia. reflexivity.
  - cbn [append matchHere] in *. rewrite (Hline c (or_introl eq_refl)).
    rewrite IH; [reflexivity|]. intros c0 Hin. apply Hline. right. exact Hin.
Qed.

Lemma matchEndpoint_here (s captured : string) :
  matchHere s = Some captured -> matchEndpoint s = Some captured.
Proof.
  intros Hm. destruct s; cbn [matchEndpoint]; rewrite Hm; reflexivity.
Qed.

End EndpointFacts.

(** X14.  The namespace is read back from an endpoint of the usual
    form: when the [Endpoint] of the connection string is a scheme with
    no line terminator, the text [://] and a host with no slash,
    followed or not by a last slash, the constructor makes a client
    whose endpoint is that host and whose [endpointWithProtocol] is
    [sb://], the host and a slash. *)
Theorem constructor_reads_the_host :
  forall (H : Host) (parseConnectionString : string -> Completion JSValue)
         (connectionString scheme host : string) (props : list (string * JSValue))
         (options2 options3 : JSValue),
    (forall c, In c (list_ascii_of_string scheme) -> isLineTerminator c = false) ->
    (forall c, In c (list_ascii_of_string host) -> c <> "/"%char) ->
    parseConnectionString connectionString = Normal (JSObject props) ->
    lookup "Endpoint" props = JSStr (scheme ++ "://" ++ host)
    \/ lookup "Endpoint" props = JSStr (scheme ++ "://" ++ host ++ "/") ->
    matchEndpoint (scheme ++ "://" ++ host) = Some host
    /\ matchEndpoint (scheme ++ "://" ++ host ++ "/") = Some host
    /\ exists built,
        construct parseConnectionString connectionString (ClientOptions options2)
          options3 = Normal built
        /\ endpoint (constructedClient built) = host
        /\ endpointWithProtocol (constructedClient built) = "sb://" ++ host ++ "/".
Proof.
  intros H parseConnectionString connectionString scheme host props options2 options3
         Hscheme Hhost Hparsed Hendpoint.
  destruct (matchHere_no_slash host Hhost) as (Hnone & Hnone').
  destruct (captureNoSlash_whole host Hhost) as (Hwhole & Hwhole').
  assert (Hplain : matchEndpoint (scheme ++ "://" ++ host) = Some host).
  { apply matchEndpoint_here. rewrite (matchHere_after_scheme scheme host Hscheme Hnone).
    rewrite Hwhole. reflexivity. }
  assert (Hslash : matchEndpoint (scheme ++ "://" ++ host ++ "/") = Some host).
  { apply matchEndpoint_here.
    rewrite (matchHere_after_scheme scheme (host ++ "/") Hscheme Hnone').
    rewrite Hwhole'. reflexivity. }
  split; [exact Hplain|]. split; [exact Hslash|].
  assert (Hproxy : exists proxy,
             (if truthy (if truthy options2 then options2 else JSObject [])
              then getProp (if truthy options2 then options2 else JSObject [])
                     "proxySettings"
              else Normal (if truthy options2 then options2 else JSObject []))
             = Normal proxy).
  { generalize (if truthy options2 then options2 else JSObject []). intros o.
    destruct (truthy o) eqn:Ho; [|eexists; reflexivity].
    destruct o; try discriminate Ho; eexists; reflexivity. }
  destruct Hproxy as (proxy & Hproxy).
  assert (Hmatched : exists s, lookup "Endpoint" props = JSStr s
                               /\ matchEndpoint s = Some host)
    by (destruct Hendpoint as [E | E]; eexists; (split; [exact E|]); assumption).
  destruct Hmatched as (s & Hs & Hmatch).
  eexists. unfold construct. rewrite Hparsed. cbn [bindC getProp].
  rewrite Hs. cbn [looseUndefined bindC]. rewrite Hmatch. cbn [bindC].
  rewrite Hproxy. cbn [bindC].
  split; [reflexivity|]. cbn [constructedClient endpoint endpointWithProtocol].
  rewrite (endsWithSlash_no_slash _ Hhost). split; reflexivity.
Qed.

(** X14 at work: the endpoint of the in-memory namespace. *)
Lemma constructor_reads_the_host_witness :
  matchEndpoint "sb://ns.servicebus.windows.net/" = Some "ns.servicebus.windows.net".
Proof.
  refine (proj1 (proj2 (@constructor_reads_the_host (InMemory.fiveHost 100)
            (fun _ => Normal (JSObject
                                [("Endpoint", JSStr "sb://ns.servicebus.windows.net/")]))
            "Endpoint=sb://ns.servicebus.windows.net/" "sb" "ns.servicebus.windows.net"
            [("Endpoint", JSStr "sb://ns.servicebus.windows.net/")]
            JSUndefined JSUndefined _ _ eq_refl (or_intror eq_refl)))).
  - intros c Hin. cbn in Hin.
    destruct Hin as [<- | [<- | []]]; reflexivity.
  - intros c Hin. cbn in Hin.
    repeat (destruct Hin as [<- | Hin]; [discriminate|]). destruct Hin.
Defined.

(** ** Tokens written in decimal digits *)

Section DigitFacts.

Lemma isDecimalDigit_cases (c : ascii) :
  isDecimalDigit c = true ->
  In c ["0"; "1"; "2"; "3"; "4"; "5"; "6"; "7"; "8"; "9"]%char.
Proof.
  destruct c as [[] [] [] [] [] [] [] []]; intros Hd;
    try (vm_compute in Hd; discriminate Hd); cbn; tauto.
Qed.

Lemma digit_not_white (c : ascii) : isDecimalDigit c = true -> isWhiteSpace c = false.
Proof.
  intros Hd. apply isDecimalDigit_cases in Hd. cbn in Hd.
  repeat (destruct Hd as [<- | Hd]; [reflexivity|]). destruct Hd.
Qed.

Lemma digit_value (c : ascii) :
  isDecimalDigit c = true -> digitIn 10 c = Some (N_of_ascii c - 48)%N.
Proof.
  intros Hd. apply isDecimalDigit_cases in Hd. cbn in Hd.
  repeat (destruct Hd as [<- | Hd]; [reflexivity|]). destruct Hd.
Qed.

Lemma trimEnd_digits (s : string) : allDecimalDigits s = true -> trimEnd s = s.
Proof.
  induction s as [|c s IH]; [reflexivity|]. cbn [allDecimalDigits trimEnd].
  intros Hd. apply andb_prop in Hd. destruct Hd as (Hc & Hs).
  rewrite (IH Hs). destruct s; [rewrite (digit_not_white c Hc)|]; reflexivity.
Qed.

Lemma trim_digits (s : string) : allDecimalDigits s = true -> trim s = s.
Proof.
  intros Hd. unfold trim. destruct s as [|c s]; [reflexivity|].
  cbn [trimStart]. pose proof Hd as Hd'. cbn [allDecimalDigits] in Hd'.
  apply andb_prop in Hd'. destruct Hd' as (Hc & _).
  rewrite (digit_not_white c Hc). apply trimEnd_digits. exact Hd.
Qed.

(** Reading digits consumes a text of digits to its end. *)
Lemma digits_all (s : string) :
  allDecimalDigits s = true ->
  forall acc count,
  exists v, digits 10 s acc count = (v, (count + String.length s)%nat, EmptyString).
Proof.
  induction s as [|c s IH]; intros Hd acc count.
  - exists acc. cbn. rewrite Nat.add_0_r. reflexivity.
  - cbn [allDecimalDigits] in Hd. apply andb_prop in Hd. destruct Hd as (Hc & Hs).
    cbn [digits]. rewrite (digit_value c Hc).
    destruct (IH Hs (acc * 10 + (N_of_ascii c - 48))%N (S count)) as (v & Hv).
    exists v. rewrite Hv. cbn [String.length]. rewrite Nat.add_succ_r. reflexivity.
Qed.

Lemma unsignedDecimal_digits (c : ascii) (s : string) :
  allDecimalDigits (String c s) = true ->
  exists v, unsignedDecimal false (String c s) = Decimal false v 0.
Proof.
  intros Hd. unfold unsignedDecimal.
  assert (Hinf : String.eqb (String c s) "Infinity" = false).
  { cbn [allDecimalDigits] in Hd. apply andb_prop in Hd. destruct Hd as (Hc & _).
    apply isDecimalDigit_cases in Hc. cbn in Hc.
    repeat (destruct Hc as [<- | Hc]; [reflexivity|]). destruct Hc. }
  rewrite Hinf. destruct (digits_all (String c s) Hd 0%N 0%nat) as (v & ->).
  exists v. reflexivity.
Qed.

Lemma StringToNumber_digits (s : string) :
  allDecimalDigits s = true ->
  exists v, StringToNumber s = Decimal false v 0.
Proof.
  intros Hd. unfold StringToNumber. rewrite (trim_digits s Hd).
  destruct s as [|c s]; [exists 0%N; reflexivity|].
  destruct (unsignedDecimal_digits c s Hd) as (v & Hv). exists v. rewrite <- Hv.
  pose proof Hd as Hd'. cbn [allDecimalDigits] in Hd'.
  apply andb_prop in Hd'. destruct Hd' as (Hc & Hs).
  apply isDecimalDigit_cases in Hc. cbn in Hc.
  destruct Hc as [<- | Hc].
  - destruct s as [|c' s]; [reflexivity|].
    cbn [allDecimalDigits] in Hs. apply andb_prop in Hs. destruct Hs as (Hc' & _).
    apply isDecimalDigit_cases in Hc'. cbn in Hc'.
    repeat (destruct Hc' as [<- | Hc']; [reflexivity|]). destruct Hc'.
  - repeat (destruct Hc as [<- | Hc]; [reflexivity|]). destruct Hc.
Qed.

End DigitFacts.

(** X15.  Every text written in decimal digits only, however long,
    is accepted by [byPage] as a continuation token: its number
    compares [>= 0], the validation does not throw, and the page
    generator starts at that token. *)
Theorem decimal_tokens_are_accepted :
  forall (H : Host) (l : Listing) (options : JSValue) (size : option JSNumber)
         (s : string),
    allDecimalDigits s = true ->
    geZero (Number (JSStr s)) = true
    /\ throwIfInvalidContinuationToken (JSStr s) = Normal tt
    /\ byPage (getEntities l options)
         {| settingsContinuationToken := JSStr s; settingsMaxPageSize := size |} =
       Normal (listPage l (JSStr s)
                 {| maxPageSize := size; operationOptions := options |}).
Proof.
  intros H l options size s Hd.
  destruct (StringToNumber_digits s Hd) as (v & Hv).
  assert (Hge : geZero (Number (JSStr s)) = true)
    by (cbn [Number]; rewrite Hv; reflexivity).
  assert (Hvalid : throwIfInvalidContinuationToken (JSStr s) = Normal tt).
  { apply throwIfInvalidContinuationToken_accepts. right. exists s.
    split; [reflexivity | exact Hge]. }
  split; [exact Hge|]. split; [exact Hvalid|].
  cbn [byPage getEntities settingsContinuationToken settingsMaxPageSize].
  rewrite Hvalid. reflexivity.
Qed.

(** X15 at work: the token 100. *)
Lemma decimal_tokens_are_accepted_witness :
  throwIfInvalidContinuationToken (H := InMemory.fiveHost 100) (JSStr "100") = Normal tt.
Proof.
  exact (proj1 (proj2 (@decimal_tokens_are_accepted (InMemory.fiveHost 100) Queues
                         JSUndefined None "100" eq_refl))).
Defined.

(** ** What a listing yields *)

Section YieldFacts.

Context {H : Host}.
Variable this : ServiceBusManagementClient.

Lemma decodeEach_truthy (decode : JSValue -> Completion JSValue) (raw : list JSValue) :
  forall acc out,
    Forall (fun v => truthy v = true) acc ->
    decodeEach decode raw acc = Normal out ->
    Forall (fun v => truthy v = true) out
    /\ (length out <= length acc + length raw)%nat.
Proof.
  induction raw as [|r raw IH]; intros acc out Hacc Hrun; cbn [decodeEach] in Hrun.
  - injection Hrun as <-. split; [exact Hacc | cbn; lia].
  - destruct (decode r) as [d|e]; cbn [bindC] in Hrun; [|discriminate].
    destruct (truthy d) eqn:Hd.
    + destruct (IH (acc ++ [d])%list out) as (Hall & Hlen); [|exact Hrun|].
      * apply Forall_app. split; [exact Hacc | constructor; [exact Hd | constructor]].
      * split; [exact Hall|]. rewrite length_app in Hlen. cbn in *. lia.
    + destruct (IH acc out Hacc Hrun) as (Hall & Hlen).
      split; [exact Hall | cbn; lia].
Qed.

Lemma buildListResponse_truthy (decode : JSValue -> Completion JSValue)
  (noun : string) (response : HttpOperationResponse) (page : EntitiesResponse) :
  buildListResponse decode noun response = Normal page ->
  exists raw props,
    parsedBody response = JSArray raw props
    /\ Forall (fun v => truthy v = true) (entities page)
    /\ (length (entities page) <= length raw)%nat.
Proof.
  intros Hb.
  destruct (parsedBody response) as [| |b|n|s|ps|raw props] eqn:Hbody;
    try (rewrite buildListResponse_non_array in Hb;
         [discriminate | rewrite Hbody; reflexivity]).
  exists raw, props. split; [reflexivity|].
  rewrite (buildListResponse_array _ _ _ Hbody) in Hb.
  destruct (getMarkerFromNextLinkUrl _) as [marker|e]; cbn [bindC tryCatch] in Hb;
    [|discriminate].
  destruct (decodeEach decode raw []) as [out|e] eqn:Hout;
    cbn [bindC tryCatch] in Hb; [|discriminate].
  injection Hb as <-. cbn [entities].
  exact (decodeEach_truthy decode raw (Forall_nil _) Hout).
Qed.

Lemma listPage_next_truthy (g g' : PageGenerator) (w w' : World)
  (page : EntitiesResponse) :
  listPage_next this g w = (Normal (Value page, g'), w') ->
  Forall (fun v => truthy v = true) (entities page).
Proof.
  assert (Hfetch : forall l marker options,
             fetchAndYield this l marker options w = (Normal (Value page, g'), w') ->
             Forall (fun v => truthy v = true) (entities page)).
  { intros l marker options. unfold fetchAndYield, bind. rewrite listEntities_run.
    destruct (service _ _ _ _) as [response|e]; cbn [bindC]; [|discriminate].
    destruct (buildListResponse _ _ response) as [p|e] eqn:Hb; [|discriminate].
    intros Hn. injection Hn as <- _ _.
    destruct (buildListResponse_truthy _ _ _ Hb) as (_ & _ & _ & Hall & _).
    exact Hall. }
  destruct g as [l m o|l m o|]; cbn [listPage_next].
  - apply Hfetch.
  - destruct (truthy m); [apply Hfetch | discriminate].
  - discriminate.
Qed.

Lemma pageMode_truthy :
  forall (n : nat) (g : PageGenerator) (w : World),
    let '(ps, _, _) := pageMode this n g w in
    Forall (fun v => truthy v = true) (elementsOf ps).
Proof.
  unfold pageMode.
  induction n as [|n IH]; intros g w; [constructor|].
  cbn [forAwait]. unfold asResume at 1, bind.
  destruct (listPage_next this g w) as [[[[page|] g']|e] w0] eqn:Hnext; cbn;
    try constructor.
  specialize (IH g' w0).
  destruct (forAwait (asResume (listPage_next this)) n g' w0) as [[ps o] w1].
  unfold elementsOf in *. cbn [map concat]. apply Forall_app.
  split; [exact (listPage_next_truthy _ _ Hnext) | exact IH].
Qed.

End YieldFacts.

(** X16.  A listing yields no empty entry: every entity of a page, and
    so every element that page mode or flat mode yields, is truthy, and
    a page holds at most as many entities as the response holds
    records. *)
Theorem listings_yield_only_entities :
  forall (H : Host) (this : ServiceBusManagementClient),
    (forall decode noun response page,
        buildListResponse decode noun response = Normal page ->
        exists raw props,
          parsedBody response = JSArray raw props
          /\ Forall (fun v => truthy v = true) (entities page)
          /\ (length (entities page) <= length raw)%nat)
    /\ (forall n g w,
           let '(ps, _, _) := pageMode this n g w in
           Forall (fun v => truthy v = true) (elementsOf ps))
    /\ (forall l options m w,
           let '(seen, _, _) := flatMode this m (iter (getEntities l options)) w in
           Forall (fun v => truthy v = true) seen).
Proof.
  intros H this. split; [|split].
  - intros decode noun response page. apply buildListResponse_truthy.
  - apply pageMode_truthy.
  - intros l options m w.
    pose proof (flatMode_prefix this m
                  (listPage l JSUndefined
                     {| maxPageSize := None; operationOptions := options |}) [] w)
      as Hprefix.
    cbn [iter getEntities listAll].
    destruct (flatMode this m _ w) as [[seen o] w'].
    destruct Hprefix as (n & ps & o1 & later & _ & Hrun & Hseen & _).
    pose proof (pageMode_truthy this n
                  (listPage l JSUndefined
                     {| maxPageSize := None; operationOptions := options |}) w)
      as Hall.
    rewrite Hrun in Hall. cbn [app] in Hseen. rewrite Hseen in Hall.
    apply Forall_app in Hall. exact (proj1 Hall).
Qed.

(** ** The request of a listing *)

(** X17.  A listing sends one GET request to the path it lists, whose
    query holds the API version, then [$skip] when the skip is truthy,
    then [$top] when a page size is given and truthy, and nothing
    else: a skip or a page size that is 0 or NaN is left out.  It
    returns what the service answers. *)
Theorem listing_asks_for_its_window :
  forall (H : Host) (this : ServiceBusManagementClient) (name : string)
         (o : ListRequestOptions) (serializer : AtomXmlSerializer) (w : World),
    API_VERSION_QUERY_KEY <> "$skip" ->
    API_VERSION_QUERY_KEY <> "$top" ->
    let rq :=
      {| url :=
           {| baseUri := "https://" ++ endpoint this ++ "/" ++ name;
              query :=
                ((API_VERSION_QUERY_KEY, CURRENT_API_VERSION)
                 :: (if numTruthy (skip o)
                     then [("$skip", numberToString (skip o))] else [])
                 ++ match maxCount o with
                    | Some n => if numTruthy n then [("$top", numberToString n)] else []
                    | None => []
                    end)%list |};
         method := "GET"; body := JSUndefined; headers := [] |} in
    listResources this name o serializer w =
    (service w rq serializer (ForList o), (w ++ [rq])%list).
Proof.
  intros H this name o serializer w Hskip Htop rq.
  assert (Eskip : String.eqb "$skip" API_VERSION_QUERY_KEY = false)
    by (apply String.eqb_neq; intros E; exact (Hskip (eq_sym E))).
  assert (Etop : String.eqb "$top" API_VERSION_QUERY_KEY = false)
    by (apply String.eqb_neq; intros E; exact (Htop (eq_sym E))).
  assert (Hrq : newWebResource (getUrl this name (windowParams o)) "GET" = rq).
  { unfold rq, newWebResource, getUrl, windowParams. cbv zeta.
    destruct (numTruthy (skip o)); destruct (maxCount o) as [n|];
      try destruct (numTruthy n);
      unfold fold_left;
      repeat first [ rewrite Eskip | rewrite Etop
                   | progress cbn [setQueryParameter fst snd app]
                   | progress change (String.eqb "$top" "$skip") with false ];
      reflexivity. }
  unfold listResources, executeAtomXmlOperation.
  rewrite windowParams_set, Hrq. reflexivity.
Qed.

(** X17 at work: the window of two queues at 2, and a listing with a
    skip of 0, which asks for no window. *)
Lemma listing_asks_for_its_window_witness :
  let plain := {| maxPageSize := None; operationOptions := JSUndefined |} in
  (exists rq,
      snd (listResources (H := InMemory.fiveHost 2) InMemory.client "$Resources/Queues"
             {| skip := ofN 2; maxCount := Some (ofN 2); rest := plain |}
             QueueResourceSerializer []) = [rq]
      /\ query (url rq) = [("api-version", "2017-04"); ("$skip", "2"); ("$top", "2")])
  /\ (exists rq,
         snd (listResources (H := InMemory.fiveHost 2) InMemory.client
                "$Resources/Queues"
                {| skip := zero; maxCount := None; rest := plain |}
                QueueResourceSerializer []) = [rq]
         /\ query (url rq) = [("api-version", "2017-04")]).
Proof.
  intros plain. split.
  - eexists.
    rewrite (@listing_asks_for_its_window (InMemory.fiveHost 2) InMemory.client
               "$Resources/Queues"
               {| skip := ofN 2; maxCount := Some (ofN 2); rest := plain |}
               QueueResourceSerializer []);
      [split; reflexivity | discriminate | discriminate].
  - eexists.
    rewrite (@listing_asks_for_its_window (InMemory.fiveHost 2) InMemory.client
               "$Resources/Queues"
               {| skip := zero; maxCount := None; rest := plain |}
               QueueResourceSerializer []);
      [split; reflexivity | discriminate | discriminate].
Defined.
